(** * PicoArt API handlers: a shallow embedding and its verified properties

    The development follows the JavaScript sources file by file:

    - [FluxTransferSdxl]       api/flux-transfer-sdxl.js (the v43 handler,
                               [callSDXLAPI], [callFluxAPI], [getStyleGuidelines]);
    - [FluxTransferRefactored] api/flux-transfer-refactored.js (the v42 handler
                               and [callReplicateAPI]);
    - [SdxlLightningTest]      api/sdxl-lightning-test.js ([testSDXLLightning]);
    - [Index]                  api/index.js (route table, [withLogging],
                               [withCORS], [withErrorHandling]);
    - [RateLimiter]            services/rateLimiter.js, whose source is not
                               part of the tree and is modelled from the
                               design document.

    JavaScript values are a syntactic datatype, exceptions are an error
    monad, and the outbound [fetch] calls of a handler are collected in a
    writer component so that "no upstream call is made" is a statement about
    a list. *)

From Stdlib Require Import ZArith QArith String Ascii List Lia.
From stdpp Require Import base option list strings pretty gmap.

Local Set Warnings "-register-all".

Local Open Scope string_scope.
Local Open Scope Z_scope.
Local Open Scope list_scope.

(** ** JavaScript values *)

(** JSON-shaped values plus [undefined].  A number is a rational (every
    finite double is one, and the decimal literals of the sources are
    written as the fraction they denote); an object is the list of its own
    enumerable properties in enumeration order. *)
Inductive JsVal : Type :=
| JUndefined
| JNull
| JBool (b : bool)
| JNum (q : Q)
| JStr (s : string)
| JArr (items : list JsVal)
| JObj (props : list (string * JsVal)).

Definition num (z : Z) : JsVal := JNum (inject_Z z).

(** ToBoolean. *)
Definition truthy (v : JsVal) : bool :=
  match v with
  | JUndefined | JNull => false
  | JBool b => b
  | JNum q => negb (Qnum q =? 0)
  | JStr s => negb (String.eqb s "")
  | JArr _ | JObj _ => true
  end.

(** [a || b] *)
Definition js_or (a b : JsVal) : JsVal := if truthy a then a else b.

(** [v === undefined] *)
Definition is_undefined (v : JsVal) : bool :=
  match v with JUndefined => true | _ => false end.

(** [v == null], the test behind [?.] and behind destructuring failures. *)
Definition nullish (v : JsVal) : bool :=
  match v with JUndefined | JNull => true | _ => false end.

(** Own property lookup in a property list. *)
Fixpoint own (k : string) (ps : list (string * JsVal)) : option JsVal :=
  match ps with
  | [] => None
  | (k', v) :: rest => if String.eqb k k' then Some v else own k rest
  end.

Definition has_own (k : string) (ps : list (string * JsVal)) : bool :=
  match own k ps with Some _ => true | None => false end.

(** CreateDataProperty on a property list: an existing key keeps its place
    and takes the new value, a new key goes last. *)
Fixpoint prop_set (k : string) (v : JsVal) (ps : list (string * JsVal))
  : list (string * JsVal) :=
  match ps with
  | [] => [(k, v)]
  | (k', v') :: rest =>
      if String.eqb k k' then (k, v) :: rest else (k', v') :: prop_set k v rest
  end.

(** An object literal [{ ...base, k1: v1, ..., kn: vn }] once [base]'s
    properties are known. *)
Definition assign (base extra : list (string * JsVal)) : list (string * JsVal) :=
  fold_left (fun acc kv => prop_set (fst kv) (snd kv) acc) extra base.

(** Decimal rendering of an array index. *)
Definition index_key (i : nat) : string := pretty i.

Fixpoint index_props (i : nat) (xs : list JsVal) : list (string * JsVal) :=
  match xs with
  | [] => []
  | x :: rest => (index_key i, x) :: index_props (S i) rest
  end.

Fixpoint char_items (s : string) : list JsVal :=
  match s with
  | EmptyString => []
  | String c rest => JStr (String c EmptyString) :: char_items rest
  end.

(** The properties copied by a spread [...v] inside an object literal:
    the own enumerable properties of [v]; none for [undefined], [null],
    booleans and numbers; the elements of an array and the characters of a
    string under their index. *)
Definition spread (v : JsVal) : list (string * JsVal) :=
  match v with
  | JObj ps => ps
  | JArr xs => index_props 0 xs
  | JStr s => index_props 0 (char_items s)
  | _ => []
  end.

(** What a client reads back from a body sent with [JSON.stringify]: a
    property whose value is [undefined] is left out, an [undefined] array
    element becomes [null]. *)
Fixpoint JSON_wire (v : JsVal) : JsVal :=
  match v with
  | JArr xs =>
      JArr (map (fun x => match x with
                          | JUndefined => JNull
                          | _ => JSON_wire x
                          end) xs)
  | JObj ps =>
      JObj ((fix go (l : list (string * JsVal)) : list (string * JsVal) :=
               match l with
               | [] => []
               | (k, x) :: rest =>
                   match x with
                   | JUndefined => go rest
                   | _ => (k, JSON_wire x) :: go rest
                   end
               end) ps)
  | _ => v
  end.

(** The walk of [JSON_wire] over the properties of an object. *)
Definition wire_props : list (string * JsVal) -> list (string * JsVal) :=
  fix go (l : list (string * JsVal)) : list (string * JsVal) :=
    match l with
    | [] => []
    | (k, x) :: rest =>
        match x with
        | JUndefined => go rest
        | _ => (k, JSON_wire x) :: go rest
        end
    end.

(** ** Exceptions *)

(** An [Error] instance with the two ad-hoc fields the upstream adapters
    attach to it.  Every exception of the model is such an instance: the
    sources throw nothing else, the engine's own errors are instances, and
    the collaborators are taken to do the same. *)
Record JsError : Type := {
  name : string;
  message : string;
  stack : string;
  status : option Z;
  retry_after : option JsVal
}.

Inductive Outcome (A : Type) : Type :=
| Ok (a : A)
| Throw (e : JsError).
Arguments Ok {A} a.
Arguments Throw {A} e.

(** What the JavaScript engine decides and the sources do not: the text of
    stack traces and of built-in error messages, and the library routines
    the handlers call on arbitrary values. *)
Record Engine : Type := {
  (** [stack] of a freshly constructed error, from its name and message *)
  captureStack : string -> string -> string;
  (** message of the TypeError raised when property [k] is read from
      [undefined] or [null] *)
  nullishReadMessage : JsVal -> string -> string;
  (** message of the TypeError raised when [what] is called and is not a
      function *)
  notCallableMessage : string -> string;
  (** ToString on a value that is not already a string (may throw) *)
  ToString_nonstring : JsVal -> Outcome string;
  (** [String.prototype.toLowerCase] *)
  toLowerCase : string -> string;
  (** [Object.prototype[k]()]: the outcome of calling the inherited member
      [k] of a plain object, [None] when nothing is inherited under [k] *)
  callInherited : string -> option (Outcome JsVal);
  (** [new URL(url, base).pathname] (throws on an invalid URL) *)
  URL_pathname : string -> string -> Outcome string
}.

Section Errors.
Context (E : Engine).

Definition mkError (nm msg : string) : JsError :=
  {| name := nm; message := msg; stack := captureStack E nm msg;
     status := None; retry_after := None |}.

Definition TypeError (msg : string) : JsError := mkError "TypeError" msg.
Definition SyntaxError (msg : string) : JsError := mkError "SyntaxError" msg.

Definition ToString (v : JsVal) : Outcome string :=
  match v with
  | JStr s => Ok s
  | _ => ToString_nonstring E v
  end.

(** [new Error(m)]: the message is [ToString(m)] unless [m] is [undefined]. *)
Definition new_Error (m : JsVal) : Outcome JsError :=
  match m with
  | JUndefined => Ok (mkError "Error" "")
  | _ => match ToString m with
         | Ok s => Ok (mkError "Error" s)
         | Throw e => Throw e
         end
  end.

(** [v.k] for a name [k] that no built-in prototype defines (every name
    the handlers read is of this kind). *)
Definition get (v : JsVal) (k : string) : Outcome JsVal :=
  match v with
  | JUndefined | JNull => Throw (TypeError (nullishReadMessage E v k))
  | JObj ps => Ok (default JUndefined (own k ps))
  | _ => Ok JUndefined
  end.

(** [v?.k] *)
Definition get_opt (v : JsVal) (k : string) : JsVal :=
  match v with
  | JObj ps => default JUndefined (own k ps)
  | _ => JUndefined
  end.
End Errors.

(** ** Outbound calls and the handler monad *)

(** The second argument of [fetch] together with its URL; [payload] is the
    JSON value whose text is the request body. *)
Record OutboundRequest : Type := {
  url : string;
  httpMethod : string;
  requestHeaders : list (string * string);
  payload : JsVal
}.

(** An upstream response.  [parsed] is what [JSON.parse(await
    response.text())] and [await response.json()] evaluate to on its body:
    the parsed value, or the message of the SyntaxError they throw. *)
Record FetchResponse : Type := {
  responseStatus : Z;
  parsed : JsVal + string
}.

(** [response.ok] *)
Definition ok (r : FetchResponse) : bool :=
  (200 <=? responseStatus r) && (responseStatus r <=? 299).

(** A computation that may issue upstream calls and may throw. *)
Definition M (A : Type) : Type := list OutboundRequest * Outcome A.

Definition calls {A} (m : M A) : list OutboundRequest := fst m.
Definition result {A} (m : M A) : Outcome A := snd m.

Definition ret {A} (a : A) : M A := ([], Ok a).
Definition throw {A} (e : JsError) : M A := ([], Throw e).
Definition lift {A} (o : Outcome A) : M A := ([], o).

Definition bind {A B} (m : M A) (f : A -> M B) : M B :=
  match m with
  | (cs, Ok a) => let '(cs', r) := f a in (cs ++ cs', r)
  | (cs, Throw e) => (cs, Throw e)
  end.

Definition and_then {A B} (o : Outcome A) (f : A -> Outcome B) : Outcome B :=
  match o with
  | Ok a => f a
  | Throw e => Throw e
  end.

Declare Scope js_scope.
Delimit Scope js_scope with js.
Notation "x <- m ;; k" := (bind m (fun x => k))
  (at level 20, m at level 99, k at level 200) : js_scope.

Declare Scope outcome_scope.
Delimit Scope outcome_scope with outcome.
Notation "x <- m ;; k" := (and_then m (fun x => k))
  (at level 20, m at level 99, k at level 200) : outcome_scope.

(** ** The world around the handlers *)

(** services/styleGuides.js and services/orientalArt.js are not part of the
    tree; each exported guideline function takes no argument, so it is
    represented by the outcome of calling it. *)
Record StyleGuides : Type := {
  getAncientGreekRomanGuidelines : Outcome JsVal;
  getMedievalGuidelines : Outcome JsVal;
  getRenaissanceGuidelines : Outcome JsVal;
  getBaroqueGuidelines : Outcome JsVal;
  getRococoGuidelines : Outcome JsVal;
  getNeoclassicalRomanticismRealismGuidelines : Outcome JsVal;
  getImpressionismGuidelines : Outcome JsVal;
  getPostImpressionismGuidelines : Outcome JsVal;
  getFauvismGuidelines : Outcome JsVal;
  getExpressionismGuidelines : Outcome JsVal
}.

Record OrientalArt : Type := {
  getKoreanArtGuidelines : Outcome JsVal;
  getChineseArtGuidelines : Outcome JsVal;
  getJapaneseArtGuidelines : Outcome JsVal
}.

(** The collaborators imported from services/artistSelector.js,
    services/promptBuilder.js and services/sdxlPromptOptimizer.js, none of
    which is part of the tree: each is an arbitrary function that returns a
    value or throws (for the asynchronous ones: resolves or rejects). *)
Record Services : Type := {
  analyzeImageForArtist : JsVal -> Outcome JsVal;
  selectArtistWithAI : JsVal -> JsVal -> JsVal -> Outcome JsVal;
  buildArtistPrompt : JsVal -> JsVal -> JsVal -> Outcome JsVal;
  getControlStrength : JsVal -> Outcome JsVal;
  cleanupPrompt : JsVal -> Outcome JsVal;
  logPromptDetails : JsVal -> JsVal -> JsVal -> Outcome unit;
  convertFluxToSDXL : JsVal -> JsVal -> JsVal -> Outcome JsVal;
  styleGuides : StyleGuides;
  orientalArt : OrientalArt
}.

(** [process.env] *)
Record Env : Type := {
  NODE_ENV : option string;
  REPLICATE_API_KEY : option string
}.

Record World : Type := {
  engine : Engine;
  services : Services;
  env : Env;
  (** the upstream provider: the response to a request, or the error with
      which [fetch] rejects *)
  fetch : OutboundRequest -> Outcome FetchResponse
}.

(** [process.env.NODE_ENV === 'development'] *)
Definition development (W : World) : bool :=
  match NODE_ENV (env W) with
  | Some s => String.eqb s "development"
  | None => false
  end.

(** [`Token ${process.env.REPLICATE_API_KEY}`] *)
Definition authorization (W : World) : string :=
  "Token " +:+ default "undefined" (REPLICATE_API_KEY (env W)).

(** [await fetch(url, init)] *)
Definition do_fetch (W : World) (r : OutboundRequest) : M FetchResponse :=
  ([r], fetch W r).

(** [JSON.parse(await response.text())] *)
Definition JSON_parse (W : World) (r : FetchResponse) : Outcome JsVal :=
  match parsed r with
  | inl v => Ok v
  | inr msg => Throw (SyntaxError (engine W) msg)
  end.

(** [await response.json()] *)
Definition response_json (W : World) (r : FetchResponse) : Outcome JsVal :=
  JSON_parse W r.

(** ** Requests and responses *)

Record Request : Type := {
  method : string;
  requestUrl : string;
  host : option string;
  body : JsVal
}.

Inductive Body : Type :=
| Ended              (* [res.end()] *)
| Json (v : JsVal).  (* [res.json(v)] *)

(** The response object: the headers set through [setHeader], the status
    code, and the body once the response has been sent. *)
Record Res : Type := {
  headers : gmap string string;
  statusCode : Z;
  sent : option Body
}.

Definition fresh_res : Res := {| headers := ∅; statusCode := 200; sent := None |}.

Definition setHeader (k v : string) (r : Res) : Res :=
  {| headers := <[k := v]> (headers r); statusCode := statusCode r; sent := sent r |}.

Definition set_status (c : Z) (r : Res) : Res :=
  {| headers := headers r; statusCode := c; sent := sent r |}.

Definition json (v : JsVal) (r : Res) : Res :=
  {| headers := headers r; statusCode := statusCode r; sent := Some (Json (JSON_wire v)) |}.

Definition end_ (r : Res) : Res :=
  {| headers := headers r; statusCode := statusCode r; sent := Some Ended |}.

(** One run of a handler: the upstream calls it issued, the response object
    as it left it, and the exception it let escape, if any. *)
Record Run : Type := {
  issued : list OutboundRequest;
  response : Res;
  escaped : option JsError
}.

Definition Handler : Type := Request -> Res -> Run.

Definition finish (cs : list OutboundRequest) (r : Res) : Run :=
  {| issued := cs; response := r; escaped := None |}.

(** [error.status = s; error.retry_after = r] *)
Definition with_rate_limit (s : Z) (r : JsVal) (e : JsError) : JsError :=
  {| name := name e; message := message e; stack := stack e;
     status := Some s; retry_after := Some r |}.

(** Modelled from the spec: services/rateLimiter.js is not part of the tree.
    The design document gives [addToQueue] the contract "returns a promise
    that resolves or rejects with exactly the operation's own outcome, but
    execution is deferred until the gate grants a slot", and states that the
    gate "propagates task failures to the original caller without altering
    them".  For the single request a handler serves, the awaited result of
    [addToQueue(task)] is therefore the outcome of [task] itself; the
    ordering of several requests is the subject of [RateLimiter] below. *)
Definition addToQueue {A} (task : M A) : M A := task.

(** [useSDXL] as the handler binds it: [const { ..., useSDXL = true } =
    req.body] takes the default exactly when the property reads as
    [undefined]. *)
Definition useSDXL_of (b : JsVal) : JsVal :=
  let u := get_opt b "useSDXL" in
  if is_undefined u then JBool true else u.

(** Calling a method that only strings have, as in
    [basePrompt.substring(0, 100)] or [(...).toLowerCase()]: on a string it
    goes through, on [undefined] and [null] the member read throws, on any
    other JSON-shaped value the member is not a function. *)
Definition string_method (E : Engine) (what member : string) (v : JsVal)
  : Outcome string :=
  match v with
  | JStr s => Ok s
  | JUndefined | JNull => Throw (TypeError E (nullishReadMessage E v member))
  | _ => Throw (TypeError E (notCallableMessage E what))
  end.

Definition missing_fields : JsVal :=
  JObj [("error", JStr "Missing required fields");
        ("required", JArr [JStr "image"; JStr "prompt"])].

Definition method_not_allowed : JsVal :=
  JObj [("error", JStr "Method not allowed")].

(** The body of every [catch (error)] block of the three endpoint handlers:
    [{ error: error.message,
       stack: process.env.NODE_ENV === 'development' ? error.stack : undefined }] *)
Definition error_body (W : World) (error : JsError) : JsVal :=
  JObj [("error", JStr (message error));
        ("stack", if development W then JStr (stack error) else JUndefined)].

(** ** api/flux-transfer-sdxl.js *)
Module FluxTransferSdxl.
Section WithWorld.
Context (W : World).
Let E := engine W.
Let S := services W.

Definition sdxl_url : string :=
  "https://api.replicate.com/v1/models/bytedance/sdxl-lightning-4step/predictions".
Definition flux_url : string :=
  "https://api.replicate.com/v1/models/black-forest-labs/flux-depth-dev/predictions".

Definition upstream_headers : list (string * string) :=
  [("Authorization", authorization W);
   ("Content-Type", "application/json");
   ("Prefer", "wait")].

Definition sdxl_input (image prompt negativePrompt : JsVal) : JsVal :=
  JObj [("prompt", prompt);
        ("negative_prompt", negativePrompt);
        ("image", image);
        ("num_inference_steps", num 4);
        ("guidance_scale", num 0);
        ("scheduler", JStr "K_EULER");
        ("num_outputs", num 1);
        ("disable_safety_checker", JBool false);
        ("output_format", JStr "jpg");
        ("output_quality", num 90)].

Definition flux_input (image prompt controlStrength : JsVal) : JsVal :=
  JObj [("control_image", image);
        ("prompt", prompt);
        ("num_inference_steps", num 24);
        ("guidance", num 12);
        ("control_strength", controlStrength);
        ("output_format", JStr "jpg");
        ("output_quality", num 90)].

(** The [if (response.status === 429) { ... }] block shared, text for
    text, by [callSDXLAPI], [callFluxAPI] and [testSDXLLightning]. *)
Definition rate_limited {A} (response : FetchResponse) : M A :=
  (errorData <- lift (JSON_parse W response) ;;
   detail <- lift (get E errorData "detail") ;;
   error <- lift (new_Error E (js_or detail (JStr "Rate limited"))) ;;
   retry <- lift (get E errorData "retry_after") ;;
   throw (with_rate_limit 429 (js_or retry (num 10)) error))%js.

(** [throw new Error(`${label} API error: ${response.status}`)] *)
Definition api_error {A} (label : string) (response : FetchResponse) : M A :=
  throw (mkError E "Error"
           (label +:+ " API error: " +:+ pretty (responseStatus response))).

(** The arguments of [fetch] in [callSDXLAPI]. *)
Definition sdxl_request (image prompt negativePrompt : JsVal) : OutboundRequest :=
  {| url := sdxl_url;
     httpMethod := "POST";
     requestHeaders := upstream_headers;
     payload := JSON_wire
       (JObj [("input", sdxl_input image prompt negativePrompt)]) |}.

(** The arguments of [fetch] in [callFluxAPI]. *)
Definition flux_request (image prompt controlStrength : JsVal) : OutboundRequest :=
  {| url := flux_url;
     httpMethod := "POST";
     requestHeaders := upstream_headers;
     payload := JSON_wire
       (JObj [("input", flux_input image prompt controlStrength)]) |}.

Definition callSDXLAPI (image prompt negativePrompt : JsVal) : M JsVal :=
  addToQueue (
    response <- do_fetch W (sdxl_request image prompt negativePrompt) ;;
    if negb (ok response) then
      if responseStatus response =? 429 then rate_limited response
      else api_error "SDXL" response
    else
      data <- lift (response_json W response) ;;
      ret data)%js.

Definition callFluxAPI (image prompt controlStrength : JsVal) : M JsVal :=
  addToQueue (
    response <- do_fetch W (flux_request image prompt controlStrength) ;;
    if negb (ok response) then
      if responseStatus response =? 429 then rate_limited response
      else api_error "FLUX" response
    else
      data <- lift (response_json W response) ;;
      ret data)%js.

(** [guideMap[era]] on the fifteen own keys of the table. *)
Definition guideMap (era : string) : option (Outcome JsVal) :=
  let sg := styleGuides S in
  let oa := orientalArt S in
  if String.eqb era "ancient" then Some (getAncientGreekRomanGuidelines sg)
  else if String.eqb era "medieval" then Some (getMedievalGuidelines sg)
  else if String.eqb era "renaissance" then Some (getRenaissanceGuidelines sg)
  else if String.eqb era "baroque" then Some (getBaroqueGuidelines sg)
  else if String.eqb era "rococo" then Some (getRococoGuidelines sg)
  else if String.eqb era "neoclassical"
    then Some (getNeoclassicalRomanticismRealismGuidelines sg)
  else if String.eqb era "romantic"
    then Some (getNeoclassicalRomanticismRealismGuidelines sg)
  else if String.eqb era "realist"
    then Some (getNeoclassicalRomanticismRealismGuidelines sg)
  else if String.eqb era "impressionism" then Some (getImpressionismGuidelines sg)
  else if String.eqb era "post-impressionism"
    then Some (getPostImpressionismGuidelines sg)
  else if String.eqb era "fauvism" then Some (getFauvismGuidelines sg)
  else if String.eqb era "expressionism" then Some (getExpressionismGuidelines sg)
  else if String.eqb era "korean" then Some (getKoreanArtGuidelines oa)
  else if String.eqb era "chinese" then Some (getChineseArtGuidelines oa)
  else if String.eqb era "japanese" then Some (getJapaneseArtGuidelines oa)
  else None.

Definition getStyleGuidelines (style : JsVal) : Outcome JsVal :=
  if negb (truthy style) then Ok (JStr "")
  else
    (era0 <- get E style "era" ;;
     tag <- (if truthy era0 then Ok era0
             else movement <- get E style "movement" ;;
                  Ok (js_or movement (JStr ""))) ;;
     s <- string_method E "(intermediate value).toLowerCase" "toLowerCase" tag ;;
     let era := toLowerCase E s in
     match guideMap era with
     | Some guideFunction => guideFunction
     | None =>
         (* a name the table does not own is looked up on Object.prototype *)
         match callInherited E era with
         | Some called => called
         | None => Ok (JStr "")
         end
     end)%outcome.

(** The statements of the [try] block, up to and including the response
    it sends. *)
Definition handler_try (req : Request) (res : Res) : M Res :=
  ((* const { image, prompt: basePrompt, style, useSDXL = true } = req.body; *)
   image <- lift (get E (body req) "image") ;;
   basePrompt <- lift (get E (body req) "prompt") ;;
   style <- lift (get E (body req) "style") ;;
   useSDXL0 <- lift (get E (body req) "useSDXL") ;;
   let useSDXL := if is_undefined useSDXL0 then JBool true else useSDXL0 in
   if negb (truthy image) || negb (truthy basePrompt) then
     ret (json missing_fields (set_status 400 res))
   else
     let modelType :=
       if truthy useSDXL then JStr "SDXL Lightning" else JStr "FLUX Depth" in
     (* console.log(..., basePrompt.substring(0, 100) + '...') *)
     _ <- lift (string_method E "basePrompt.substring" "substring" basePrompt) ;;
     imageAnalysis <- lift (analyzeImageForArtist S image) ;;
     guidelines <- lift (getStyleGuidelines style) ;;
     artistSelection <- lift (selectArtistWithAI S imageAnalysis style guidelines) ;;
     (* console.log(..., artistSelection.artist); console.log(..., artistSelection.method) *)
     artist <- lift (get E artistSelection "artist") ;;
     selection_method <- lift (get E artistSelection "method") ;;
     built <- lift (buildArtistPrompt S basePrompt artist style) ;;
     finalPrompt <- lift (cleanupPrompt S built) ;;
     response <-
       (if truthy useSDXL then
          converted <- lift (convertFluxToSDXL S finalPrompt style artist) ;;
          sdxlPrompt <- lift (get E converted "prompt") ;;
          negative_prompt <- lift (get E converted "negative_prompt") ;;
          callSDXLAPI image sdxlPrompt negative_prompt
        else
          controlStrength <- lift (getControlStrength S finalPrompt) ;;
          callFluxAPI image finalPrompt controlStrength) ;;
     details <- lift (get E artistSelection "details") ;;
     ret (json
            (JObj (assign (spread response)
                     [("selected_artist", artist);
                      ("selection_method", selection_method);
                      ("selection_details", details);
                      ("model_used", modelType);
                      ("cost", if truthy useSDXL
                               then JNum (11 # 1000) else JNum (4 # 100))]))
            (set_status 200 res)))%js.

Definition handler : Handler := fun req res =>
  let res := setHeader "Access-Control-Allow-Origin" "*" res in
  let res := setHeader "Access-Control-Allow-Methods" "POST, OPTIONS" res in
  let res := setHeader "Access-Control-Allow-Headers" "Content-Type" res in
  if String.eqb (method req) "OPTIONS" then
    finish [] (end_ (set_status 200 res))
  else if negb (String.eqb (method req) "POST") then
    finish [] (json method_not_allowed (set_status 405 res))
  else
    match handler_try req res with
    | (cs, Ok sent_res) => finish cs sent_res
    | (cs, Throw error) =>
        finish cs (json (error_body W error) (set_status 500 res))
    end.
End WithWorld.
End FluxTransferSdxl.

(** ** api/flux-transfer-refactored.js *)
Module FluxTransferRefactored.
Section WithWorld.
Context (W : World).
Let E := engine W.
Let S := services W.

(** The file carries its own copy of [getStyleGuidelines], identical to
    the one of flux-transfer-sdxl.js. *)
Definition getStyleGuidelines : JsVal -> Outcome JsVal :=
  FluxTransferSdxl.getStyleGuidelines W.

(** Called directly, not through the rate limiter, and without a branch
    for status 429. *)
Definition callReplicateAPI (image prompt controlStrength : JsVal) : M JsVal :=
  (response <- do_fetch W
     (FluxTransferSdxl.flux_request W image prompt controlStrength) ;;
   if negb (ok response) then FluxTransferSdxl.api_error W "FLUX" response
   else
     data <- lift (response_json W response) ;;
     ret data)%js.

Definition handler_try (req : Request) (res : Res) : M Res :=
  ((* const { image, prompt: basePrompt, style } = req.body; *)
   image <- lift (get E (body req) "image") ;;
   basePrompt <- lift (get E (body req) "prompt") ;;
   style <- lift (get E (body req) "style") ;;
   if negb (truthy image) || negb (truthy basePrompt) then
     ret (json missing_fields (set_status 400 res))
   else
     _ <- lift (string_method E "basePrompt.substring" "substring" basePrompt) ;;
     imageAnalysis <- lift (analyzeImageForArtist S image) ;;
     guidelines <- lift (getStyleGuidelines style) ;;
     artistSelection <- lift (selectArtistWithAI S imageAnalysis style guidelines) ;;
     artist <- lift (get E artistSelection "artist") ;;
     selection_method <- lift (get E artistSelection "method") ;;
     details <- lift (get E artistSelection "details") ;;
     built <- lift (buildArtistPrompt S basePrompt artist style) ;;
     finalPrompt <- lift (cleanupPrompt S built) ;;
     controlStrength <- lift (getControlStrength S finalPrompt) ;;
     _ <- lift (logPromptDetails S basePrompt finalPrompt artist) ;;
     response <- callReplicateAPI image finalPrompt controlStrength ;;
     ret (json
            (JObj (assign (spread response)
                     [("selected_artist", artist);
                      ("selection_method", selection_method);
                      ("selection_details", details)]))
            (set_status 200 res)))%js.

Definition handler : Handler := fun req res =>
  let res := setHeader "Access-Control-Allow-Origin" "*" res in
  let res := setHeader "Access-Control-Allow-Methods" "POST, OPTIONS" res in
  let res := setHeader "Access-Control-Allow-Headers" "Content-Type" res in
  if String.eqb (method req) "OPTIONS" then
    finish [] (end_ (set_status 200 res))
  else if negb (String.eqb (method req) "POST") then
    finish [] (json method_not_allowed (set_status 405 res))
  else
    match handler_try req res with
    | (cs, Ok sent_res) => finish cs sent_res
    | (cs, Throw error) =>
        finish cs (json (error_body W error) (set_status 500 res))
    end.
End WithWorld.
End FluxTransferRefactored.

(** ** api/sdxl-lightning-test.js *)
Module SdxlLightningTest.
Section WithWorld.
Context (W : World).
Let E := engine W.

Definition test_input (image prompt : JsVal) : JsVal :=
  JObj [("prompt", prompt);
        ("image", image);
        ("num_inference_steps", num 4);
        ("guidance_scale", num 0);
        ("scheduler", JStr "K_EULER");
        ("num_outputs", num 1);
        ("disable_safety_checker", JBool false);
        ("output_format", JStr "jpg");
        ("output_quality", num 90)].

Definition test_request (image prompt : JsVal) : OutboundRequest :=
  {| url := FluxTransferSdxl.sdxl_url;
     httpMethod := "POST";
     requestHeaders := FluxTransferSdxl.upstream_headers W;
     payload := JSON_wire (JObj [("input", test_input image prompt)]) |}.

(** The task handed to [rateLimiter.addToQueue]. *)
Definition upstream_task (image prompt : JsVal) : M JsVal :=
  (response <- do_fetch W (test_request image prompt) ;;
   if negb (ok response) then
     if responseStatus response =? 429
     then FluxTransferSdxl.rate_limited W response
     else FluxTransferSdxl.api_error W "SDXL" response
   else lift (response_json W response))%js.

Definition comparison : JsVal :=
  JObj [("flux_cost", JNum (4 # 100));
        ("savings", JStr "72.5%");
        ("speed_improvement", JStr "2.5x")].

Definition testSDXLLightning_try (req : Request) (res : Res) : M Res :=
  ((* const { image, prompt } = req.body; *)
   image <- lift (get E (body req) "image") ;;
   prompt <- lift (get E (body req) "prompt") ;;
   if negb (truthy image) || negb (truthy prompt) then
     ret (json missing_fields (set_status 400 res))
   else
     _ <- lift (string_method E "prompt.substring" "substring" prompt) ;;
     result <- addToQueue (upstream_task image prompt) ;;
     ret (json
            (JObj (assign (spread result)
                     [("model", JStr "sdxl-lightning-4step");
                      ("cost", JNum (11 # 1000));
                      ("comparison", comparison)]))
            (set_status 200 res)))%js.

Definition testSDXLLightning : Handler := fun req res =>
  let res := setHeader "Access-Control-Allow-Origin" "*" res in
  let res := setHeader "Access-Control-Allow-Methods" "POST, OPTIONS" res in
  let res := setHeader "Access-Control-Allow-Headers" "Content-Type" res in
  if String.eqb (method req) "OPTIONS" then
    finish [] (end_ (set_status 200 res))
  else if negb (String.eqb (method req) "POST") then
    finish [] (json method_not_allowed (set_status 405 res))
  else
    match testSDXLLightning_try req res with
    | (cs, Ok sent_res) => finish cs sent_res
    | (cs, Throw error) =>
        finish cs (json (error_body W error) (set_status 500 res))
    end.
End WithWorld.
End SdxlLightningTest.

(** ** api/index.js *)
Module Index.
Section WithWorld.
Context (W : World).
(** ./check-prediction.js and ./generate-education.js are not part of the
    tree: two arbitrary handlers. *)
Context (checkPredictionHandler generateEducationHandler : Handler).
Let E := engine W.

Definition fluxTransferHandler : Handler := FluxTransferRefactored.handler W.

(** [Object.keys(routes)] *)
Definition route_paths : list string :=
  ["/api/flux-transfer"; "/api/check-prediction"; "/api/generate-education"].

(** [routes[pathname]]; a pathname starts with a slash, so no member
    inherited by the table can answer. *)
Definition routes (pathname : string) : option Handler :=
  if String.eqb pathname "/api/flux-transfer" then Some fluxTransferHandler
  else if String.eqb pathname "/api/check-prediction"
    then Some checkPredictionHandler
  else if String.eqb pathname "/api/generate-education"
    then Some generateEducationHandler
  else None.

Definition not_found : JsVal :=
  JObj [("error", JStr "API endpoint not found");
        ("available", JArr (map JStr route_paths))].

Definition handler : Handler := fun req res =>
  match URL_pathname E (requestUrl req)
          ("http://" +:+ default "undefined" (host req)) with
  | Throw e => {| issued := []; response := res; escaped := Some e |}
  | Ok pathname =>
      match routes pathname with
      | Some routeHandler => routeHandler req res
      | None => finish [] (json not_found (set_status 404 res))
      end
  end.

(** Only logs around the call; what the wrapped handler does and throws is
    passed on unchanged. *)
Definition withLogging (handler : Handler) : Handler :=
  fun req res => handler req res.

Definition withCORS (handler : Handler) : Handler := fun req res =>
  let res := setHeader "Access-Control-Allow-Origin" "*" res in
  let res := setHeader "Access-Control-Allow-Methods" "GET, POST, OPTIONS" res in
  let res := setHeader "Access-Control-Allow-Headers" "Content-Type" res in
  if String.eqb (method req) "OPTIONS" then
    finish [] (end_ (set_status 200 res))
  else handler req res.

Definition internal_error (error : JsError) : JsVal :=
  JObj [("error", JStr "Internal server error");
        ("message", if development W then JStr (message error) else JUndefined);
        ("stack", if development W then JStr (stack error) else JUndefined)].

Definition withErrorHandling (handler : Handler) : Handler := fun req res =>
  let run := handler req res in
  match escaped run with
  | None => run
  | Some error =>
      finish (issued run)
             (json (internal_error error) (set_status 500 (response run)))
  end.
End WithWorld.
End Index.

(** ** services/rateLimiter.js *)
Module RateLimiter.
Local Open Scope nat_scope.

Inductive Settlement : Type := Fulfilled | Rejected.

(** What happens to the gate: a caller submits a task, or the operation of
    a task settles. *)
Inductive Op : Type :=
| Submit
| Complete (t : nat) (how : Settlement).

(** What the gate does: it lets a task begin, and it records that a task
    has finished. *)
Inductive Event : Type :=
| Started (t : nat)
| Finished (t : nat).

(** Modelled from the spec: services/rateLimiter.js is not part of the
    tree.  "QueueState: process-wide state holding: ordered sequence of
    pending QueuedTask, ... and a count of in-flight tasks"; a task is
    known by its "unique insertion order position". *)
Record QueueState : Type := {
  limit : nat;
  submitted : nat;
  waiting : list nat;
  inFlight : list nat
}.

(** Modelled from the spec: "K = configured concurrency limit, minimum 1". *)
Definition capacity (q : QueueState) : nat := Nat.max 1 (limit q).

Definition create (k : nat) : QueueState :=
  {| limit := k; submitted := 0; waiting := []; inFlight := [] |}.

(** Modelled from the spec: "default behavior in this system effectively
    serializes all upstream calls (limit = 1)". *)
Definition rateLimiter : QueueState := create 1.

(** Modelled from the spec: "On submit, the task is appended; if the
    current in-flight count is below the configured limit, it begins
    immediately; otherwise it waits." *)
Definition addToQueue (q : QueueState) : QueueState * list Event :=
  let t := submitted q in
  if length (inFlight q) <? capacity q then
    ({| limit := limit q; submitted := Datatypes.S t;
        waiting := waiting q; inFlight := inFlight q ++ [t] |},
     [Started t])
  else
    ({| limit := limit q; submitted := Datatypes.S t;
        waiting := waiting q ++ [t]; inFlight := inFlight q |},
     []).

Definition executing (t : nat) (q : QueueState) : bool :=
  existsb (Nat.eqb t) (inFlight q).

(** Modelled from the spec: "On completion (success or failure) of any
    in-flight task, the in-flight count decrements and the next waiting
    task (FIFO) begins, if any."  A task that is not executing has
    nothing to complete. *)
Definition complete (t : nat) (how : Settlement) (q : QueueState)
  : QueueState * list Event :=
  if executing t q then
    let running := List.remove Nat.eq_dec t (inFlight q) in
    match waiting q with
    | [] =>
        ({| limit := limit q; submitted := submitted q;
            waiting := []; inFlight := running |},
         [Finished t])
    | next :: rest =>
        ({| limit := limit q; submitted := submitted q;
            waiting := rest; inFlight := running ++ [next] |},
         [Finished t; Started next])
    end
  else (q, []).

Definition step (q : QueueState) (op : Op) : QueueState * list Event :=
  match op with
  | Submit => addToQueue q
  | Complete t how => complete t how q
  end.

(** The gate after a history of submissions and completions, with the
    events of that history in the order they happened. *)
Fixpoint run (ops : list Op) (q : QueueState) : QueueState * list Event :=
  match ops with
  | [] => (q, [])
  | op :: rest =>
      let '(q1, now) := step q op in
      let '(q2, later) := run rest q1 in
      (q2, now ++ later)
  end.

(** The history in which task 0 starts and finishes, then task 1, and so
    on up to task [n - 1]. *)
Definition serial (n : nat) : list Event :=
  flat_map (fun t => [Started t; Finished t]) (seq 0 n).

(** What holds of a gate of capacity one and of the events it has
    produced so far: either nothing runs, nothing waits and every
    submitted task has started and finished in turn; or task [k] runs,
    the tasks before it have started and finished in turn, and the tasks
    after it wait in the order of their submission. *)
Inductive Serialized (q : QueueState) (history : list Event) : Prop :=
| serialized_idle :
    inFlight q = [] -> waiting q = [] ->
    history = serial (submitted q) ->
    Serialized q history
| serialized_busy (k : nat) :
    inFlight q = [k] -> k < submitted q ->
    waiting q = seq (Datatypes.S k) (submitted q - Datatypes.S k) ->
    history = serial k ++ [Started k] ->
    Serialized q history.
End RateLimiter.

(** ** The process: the handlers in front of the rate limiter *)
Module Process.
Import RateLimiter.
Local Open Scope nat_scope.

(** The endpoints whose upstream call is handed to
    [rateLimiter.addToQueue]: the v43 handler (through [callSDXLAPI] and
    [callFluxAPI]) and [testSDXLLightning].  [callReplicateAPI] of the v42
    file calls [fetch] itself and is not among them. *)
Inductive Endpoint : Type :=
| fluxTransferSdxl
| sdxlLightningTest.

Definition endpoint (W : World) (e : Endpoint) : Handler :=
  match e with
  | fluxTransferSdxl => FluxTransferSdxl.handler W
  | sdxlLightningTest => SdxlLightningTest.testSDXLLightning W
  end.

(** What happens in the process, in the order it happens: the handler of
    an endpoint, serving a request, reaches [rateLimiter.addToQueue] with
    its upstream task; or the upstream call of a task comes back, so that
    the operation of the task settles. *)
Inductive Action : Type :=
| Serve (e : Endpoint) (req : Request)
| Settle (t : nat) (how : Settlement).

(** The upstream calls a handler hands to the limiter when it serves a
    request: the calls of its run (none when it answers before reaching the
    adapter). *)
Definition submissions (W : World) (a : Action) : list OutboundRequest :=
  match a with
  | Serve e req => issued (endpoint W e req fresh_res)
  | Settle _ _ => []
  end.

(** The tasks of the process, by insertion order position. *)
Definition tasks (W : World) (acts : list Action) : list OutboundRequest :=
  flat_map (submissions W) acts.

(** What the limiter is asked to do by an action. *)
Definition gate_ops (W : World) (a : Action) : list Op :=
  match a with
  | Serve _ _ => map (fun _ => Submit) (submissions W a)
  | Settle t how => [Complete t how]
  end.

Definition ops (W : World) (acts : list Action) : list Op :=
  flat_map (gate_ops W) acts.

(** The state of [rateLimiter] after the actions, and what it has done. *)
Definition gate (W : World) (acts : list Action) : QueueState :=
  fst (run (ops W acts) rateLimiter).

Definition log (W : World) (acts : list Action) : list Event :=
  snd (run (ops W acts) rateLimiter).

(** What the provider sees of a task: its call, and the answer to it. *)
Inductive Traffic : Type :=
| Sent (t : nat) (c : OutboundRequest)
| Answered (t : nat).

(** Modelled from the spec: "execution is deferred until the gate grants a
    slot".  The operation of a task is the [fetch] of its call, made when
    the limiter lets the task begin; the task has finished when that call
    has been answered. *)
Definition traffic (cs : list OutboundRequest) (e : Event) : list Traffic :=
  match e with
  | Started t =>
      match nth_error cs t with
      | Some c => [Sent t c]
      | None => []
      end
  | Finished t => [Answered t]
  end.

Definition upstream (W : World) (acts : list Action) : list Traffic :=
  flat_map (traffic (tasks W acts)) (log W acts).

(** The calls [cs], numbered from [t], each sent and answered before the
    next is sent. *)
Fixpoint one_by_one (t : nat) (cs : list OutboundRequest) : list Traffic :=
  match cs with
  | [] => []
  | c :: rest => Sent t c :: Answered t :: one_by_one (Datatypes.S t) rest
  end.
End Process.

(** ** Vocabulary of the statements *)

(** A computation that issues no upstream call. *)
Definition quiet {A} (m : M A) : Prop := calls m = [].

(** The metadata the v43 handler lays over the upstream result. *)
Definition v43_metadata (selection useSDXL : JsVal) : list (string * JsVal) :=
  [("selected_artist", get_opt selection "artist");
   ("selection_method", get_opt selection "method");
   ("selection_details", get_opt selection "details");
   ("model_used",
    if truthy useSDXL then JStr "SDXL Lightning" else JStr "FLUX Depth");
   ("cost", if truthy useSDXL then JNum (11 # 1000) else JNum (4 # 100))].

(** The response object once a handler has set its three CORS headers. *)
Definition with_cors (res : Res) : Res :=
  setHeader "Access-Control-Allow-Headers" "Content-Type"
    (setHeader "Access-Control-Allow-Methods" "POST, OPTIONS"
       (setHeader "Access-Control-Allow-Origin" "*" res)).

(** The body of a 500 response as the client reads it. *)
Definition error_props (W : World) (error : JsError) : list (string * JsVal) :=
  ("error", JStr (message error)) ::
  (if development W then [("stack", JStr (stack error))] else []).

(** The response a [catch] block sends. *)
Definition caught (W : World) (error : JsError) (res : Res) : Res :=
  json (error_body W error) (set_status 500 res).

(** The body of the rate-limit answer
    [{"detail":"slow down","retry_after":15}], parsed. *)
Definition slow_down : JsVal :=
  JObj [("detail", JStr "slow down"); ("retry_after", num 15)].

(** The run that answers 400 "Missing required fields". *)
Definition rejected (res : Res) : Run :=
  finish [] (json missing_fields (set_status 400 (with_cors res))).

(** The three places that call the provider through the rate limiter and
    carry the [if (response.status === 429)] block, each with the request
    it sends. *)
Inductive Adapter (W : World) : OutboundRequest -> M JsVal -> Prop :=
| adapter_callSDXLAPI (image prompt negativePrompt : JsVal) :
    Adapter W (FluxTransferSdxl.sdxl_request W image prompt negativePrompt)
              (FluxTransferSdxl.callSDXLAPI W image prompt negativePrompt)
| adapter_callFluxAPI (image prompt controlStrength : JsVal) :
    Adapter W (FluxTransferSdxl.flux_request W image prompt controlStrength)
              (FluxTransferSdxl.callFluxAPI W image prompt controlStrength)
| adapter_testSDXLLightning (image prompt : JsVal) :
    Adapter W (SdxlLightningTest.test_request W image prompt)
              (addToQueue (SdxlLightningTest.upstream_task W image prompt)).

(** A [try] block that, when it returns a response object, returns [res]
    with the headers it had. *)
Definition keeps_headers (res : Res) (m : M Res) : Prop :=
  forall sent_res, result m = Ok sent_res -> headers sent_res = headers res.

(** The three CORS headers of the endpoint handlers. *)
Definition cors_post_options (r : Res) : Prop :=
  headers r !! "Access-Control-Allow-Origin" = Some "*" /\
  headers r !! "Access-Control-Allow-Methods" = Some "POST, OPTIONS" /\
  headers r !! "Access-Control-Allow-Headers" = Some "Content-Type".

(** The metadata the v42 handler lays over the upstream result. *)
Definition v42_metadata (selection : JsVal) : list (string * JsVal) :=
  [("selected_artist", get_opt selection "artist");
   ("selection_method", get_opt selection "method");
   ("selection_details", get_opt selection "details")].

(** What an adapter [m] does with the answer to its request [c]: it sends
    that one request, and only a 2xx answer with a JSON body makes it
    return, in which case it returns that body. *)
Definition returns_body (W : World) (c : OutboundRequest) (m : M JsVal) : Prop :=
  calls m = [c] /\
  forall data, result m = Ok data ->
    exists r, fetch W c = Ok r /\ ok r = true /\ parsed r = inl data.

(** [c.body.input[k]] of an outbound call. *)
Definition input_field (c : OutboundRequest) (k : string) : JsVal :=
  get_opt (get_opt (payload c) "input") k.

(** The value has no own property [k]. *)
Definition lacks (v : JsVal) (k : string) : bool :=
  match v with
  | JObj ps => negb (has_own k ps)
  | _ => true
  end.

(** ** A concrete world *)

(** An engine, a set of collaborators and an upstream provider on which the
    handlers can be evaluated. *)
Module Sample.
Definition sampleEngine : Engine :=
  {| captureStack := fun nm msg => nm +:+ ": " +:+ msg +:+ " (stack)";
     nullishReadMessage := fun _ k => "Cannot read properties of null or undefined: " +:+ k;
     notCallableMessage := fun what => what +:+ " is not a function";
     ToString_nonstring := fun _ => Ok "[object Object]";
     toLowerCase := fun s => s;
     callInherited := fun _ => None;
     URL_pathname := fun u _ => Ok u |}.

Definition sampleGuides : StyleGuides :=
  {| getAncientGreekRomanGuidelines := Ok (JStr "ancient guide");
     getMedievalGuidelines := Ok (JStr "medieval guide");
     getRenaissanceGuidelines := Ok (JStr "renaissance guide");
     getBaroqueGuidelines := Ok (JStr "baroque guide");
     getRococoGuidelines := Ok (JStr "rococo guide");
     getNeoclassicalRomanticismRealismGuidelines := Ok (JStr "neoclassical guide");
     getImpressionismGuidelines := Ok (JStr "impressionism guide");
     getPostImpressionismGuidelines := Ok (JStr "post-impressionism guide");
     getFauvismGuidelines := Ok (JStr "fauvism guide");
     getExpressionismGuidelines := Ok (JStr "expressionism guide") |}.

Definition sampleOriental : OrientalArt :=
  {| getKoreanArtGuidelines := Ok (JStr "korean guide");
     getChineseArtGuidelines := Ok (JStr "chinese guide");
     getJapaneseArtGuidelines := Ok (JStr "japanese guide") |}.

Definition sampleSelection : JsVal :=
  JObj [("artist", JStr "Monet");
        ("method", JStr "ai");
        ("details", JStr "soft light")].

Definition sampleServices : Services :=
  {| analyzeImageForArtist := fun _ => Ok (JObj [("subject", JStr "portrait")]);
     selectArtistWithAI := fun _ _ _ => Ok sampleSelection;
     buildArtistPrompt := fun base _ _ => Ok base;
     getControlStrength := fun _ => Ok (JNum (8 # 10));
     cleanupPrompt := fun p => Ok p;
     logPromptDetails := fun _ _ _ => Ok tt;
     convertFluxToSDXL := fun p _ _ =>
       Ok (JObj [("prompt", p); ("negative_prompt", JStr "blurry")]);
     styleGuides := sampleGuides;
     orientalArt := sampleOriental |}.

Definition production : Env :=
  {| NODE_ENV := Some "production"; REPLICATE_API_KEY := Some "r8_key" |}.

Definition world (upstream : OutboundRequest -> Outcome FetchResponse) : World :=
  {| engine := sampleEngine; services := sampleServices;
     env := production; fetch := upstream |}.

Definition prediction : JsVal :=
  JObj [("id", JStr "p1"); ("output", JArr [JStr "https://out/1.jpg"])].

(** An upstream that answers every call with 200 and [prediction]. *)
Definition succeeds : OutboundRequest -> Outcome FetchResponse :=
  fun _ => Ok {| responseStatus := 200; parsed := inl prediction |}.

(** An upstream that answers every call with the given status and body. *)
Definition answers (code : Z) (b : JsVal + string)
  : OutboundRequest -> Outcome FetchResponse :=
  fun _ => Ok {| responseStatus := code; parsed := b |}.

Definition post (b : JsVal) : Request :=
  {| method := "POST"; requestUrl := "/api/flux-transfer";
     host := Some "localhost"; body := b |}.

Definition valid_body : list (string * JsVal) :=
  [("image", JStr "data:image/png;base64,AAAA"); ("prompt", JStr "a portrait")].

(** The provider is up. *)
Definition healthy : World := world succeeds.

(** The provider throttles with the body of the design document. *)
Definition throttled : World := world (answers 429 (inl slow_down)).

(** The provider throttles with an HTML page. *)
Definition throttled_html : World :=
  world (answers 429 (inr "Unexpected token < in JSON at position 0")).

(** The provider throttles with the JSON literal [null]. *)
Definition throttled_null : World := world (answers 429 (inl JNull)).

(** The provider throttles with an empty JSON object. *)
Definition throttled_bare : World := world (answers 429 (inl (JObj []))).

Definition valid_post : Request := post (JObj valid_body).

(** Three requests A, B and C reach the limiter in that order while the
    call of A is out; A is rejected, then B and C are fulfilled. *)
Definition three_tasks : list Process.Action :=
  [Process.Serve Process.fluxTransferSdxl valid_post;
   Process.Serve Process.sdxlLightningTest valid_post;
   Process.Serve Process.fluxTransferSdxl
     (post (JObj (valid_body ++ [("useSDXL", JBool false)])));
   Process.Settle 0 RateLimiter.Rejected;
   Process.Settle 1 RateLimiter.Fulfilled;
   Process.Settle 2 RateLimiter.Fulfilled].

Definition preflight : Request :=
  {| method := "OPTIONS"; requestUrl := "/api/flux-transfer";
     host := Some "localhost"; body := JUndefined |}.

(** A handler that throws. *)
Definition failing : Handler := fun _ res =>
  {| issued := []; response := res;
     escaped := Some (mkError sampleEngine "Error" "boom") |}.

(** A POST request whose body is the JSON literal [null]. *)
Definition null_post : Request := post JNull.

(** A POST request with the empty body [{}]. *)
Definition empty_post : Request := post (JObj []).

(** A POST request whose prompt is the empty string. *)
Definition blank_prompt_post : Request :=
  post (JObj [("image", JStr "data:image/png;base64,AAAA"); ("prompt", JStr "")]).

(** The same request without a prompt. *)
Definition no_prompt_post : Request :=
  post (JObj [("image", JStr "data:image/png;base64,AAAA")]).



(** The call [valid_post] leads to in [healthy]. *)
Definition sdxl_call : OutboundRequest :=
  FluxTransferSdxl.sdxl_request healthy
    (JStr "data:image/png;base64,AAAA") (JStr "a portrait") (JStr "blurry").

(** The body [valid_post] is answered with by the v43 handler in
    [healthy]. *)
Definition v43_answer : JsVal :=
  JObj [("id", JStr "p1");
        ("output", JArr [JStr "https://out/1.jpg"]);
        ("selected_artist", JStr "Monet");
        ("selection_method", JStr "ai");
        ("selection_details", JStr "soft light");
        ("model_used", JStr "SDXL Lightning");
        ("cost", JNum (11 # 1000))].
End Sample.

(** ** Vocabulary of the further properties *)

(** The awaited result of an upstream adapter, from what [fetch] did with
    its request: a rejection is passed on; a 2xx answer is parsed; any other
    answer is turned into an exception, by the 429 block where the adapter
    has one. *)
Definition adapter_result (W : World) (label : string) (has_429_block : bool)
           (o : Outcome FetchResponse) : Outcome JsVal :=
  match o with
  | Throw e => Throw e
  | Ok r =>
      if ok r then JSON_parse W r
      else if has_429_block && (responseStatus r =? 429)
      then result (@FluxTransferSdxl.rate_limited W JsVal r)
      else Throw (mkError (engine W) "Error"
                    (label +:+ " API error: " +:+ pretty (responseStatus r)))
  end.

(** The label of the variant a request body selects. *)
Definition variant_label (b : JsVal) : string :=
  if truthy (useSDXL_of b) then "SDXL" else "FLUX".

(** The endpoint of the variant a request body selects. *)
Definition variant_url (b : JsVal) : string :=
  if truthy (useSDXL_of b) then FluxTransferSdxl.sdxl_url
  else FluxTransferSdxl.flux_url.

(** The metadata [testSDXLLightning] lays over the upstream result. *)
Definition test_metadata : list (string * JsVal) :=
  [("model", JStr "sdxl-lightning-4step");
   ("cost", JNum (11 # 1000));
   ("comparison", SdxlLightningTest.comparison)].

(** [style.era || style.movement || ''] *)
Definition style_tag (style : JsVal) : JsVal :=
  js_or (get_opt style "era") (js_or (get_opt style "movement") (JStr "")).

(** ** More concrete worlds *)

Module Cases.
(** The provider is down: every call is answered 503 with an HTML page. *)
Definition unavailable : World :=
  Sample.world (Sample.answers 503 (inr "Unexpected token < in JSON at position 0")).

(** The network is down: [fetch] rejects. *)
Definition offline : World :=
  Sample.world (fun _ => Throw (TypeError Sample.sampleEngine "fetch failed")).

(** The provider answers 200 with a body that is not JSON. *)
Definition garbled : World :=
  Sample.world (Sample.answers 200 (inr "Unexpected end of JSON input")).

(** The provider throttles and gives its hint as a string. *)
Definition throttled_soon : World :=
  Sample.world
    (Sample.answers 429
       (inl (JObj [("detail", JStr "busy"); ("retry_after", JStr "soon")]))).

Definition image : JsVal := JStr "data:image/png;base64,AAAA".

(** A POST request that asks for SDXL explicitly. *)
Definition sdxl_post : Request :=
  Sample.post (JObj (Sample.valid_body ++ [("useSDXL", JBool true)])).

(** A GET request. *)
Definition get_request : Request :=
  {| method := "GET"; requestUrl := "/api/flux-transfer";
     host := Some "localhost"; body := JUndefined |}.

(** A POST request whose [useSDXL] is [null]. *)
Definition null_flag_post : Request :=
  Sample.post (JObj (Sample.valid_body ++ [("useSDXL", JNull)])).

(** The body [null_flag_post] is answered with by the v43 handler in
    [Sample.healthy]. *)
Definition null_flag_answer : JsVal :=
  JObj [("id", JStr "p1");
        ("output", JArr [JStr "https://out/1.jpg"]);
        ("selected_artist", JStr "Monet");
        ("selection_method", JStr "ai");
        ("selection_details", JStr "soft light");
        ("model_used", JStr "FLUX Depth");
        ("cost", JNum (4 # 100))].

(** Lower-casing of the ASCII letters. *)
Definition ascii_lower (c : ascii) : ascii :=
  let n := nat_of_ascii c in
  if ((65 <=? n) && (n <=? 90))%nat then ascii_of_nat (n + 32) else c.

Fixpoint lower (s : string) : string :=
  match s with
  | EmptyString => EmptyString
  | String c rest => String (ascii_lower c) (lower rest)
  end.

(** The sample world with an engine that lower-cases ASCII letters. *)
Definition lowering : World :=
  {| engine :=
       {| captureStack := captureStack Sample.sampleEngine;
          nullishReadMessage := nullishReadMessage Sample.sampleEngine;
          notCallableMessage := notCallableMessage Sample.sampleEngine;
          ToString_nonstring := ToString_nonstring Sample.sampleEngine;
          toLowerCase := lower;
          callInherited := callInherited Sample.sampleEngine;
          URL_pathname := URL_pathname Sample.sampleEngine |};
     services := Sample.sampleServices;
     env := Sample.production;
     fetch := Sample.succeeds |}.

(** A style with an empty era and a capitalised movement. *)
Definition romantic_style : JsVal :=
  JObj [("name", JStr "Delacroix"); ("era", JStr ""); ("movement", JStr "Romantic")].

(** A POST request whose style gives its era as a number. *)
Definition numeric_era_post : Request :=
  Sample.post (JObj (Sample.valid_body ++ [("style", JObj [("era", num 1900)])])).

(** The call [testSDXLLightning] makes for [Sample.valid_post]. *)
Definition test_call : OutboundRequest :=
  SdxlLightningTest.test_request Sample.healthy image (JStr "a portrait").

(** A request for a path the route table does not have. *)
Definition unknown_path : Request :=
  {| method := "POST"; requestUrl := "/api/unknown";
     host := Some "localhost"; body := JObj Sample.valid_body |}.

(** The sample world with a URL parser that rejects every URL. *)
Definition bad_url : World :=
  {| engine :=
       {| captureStack := captureStack Sample.sampleEngine;
          nullishReadMessage := nullishReadMessage Sample.sampleEngine;
          notCallableMessage := notCallableMessage Sample.sampleEngine;
          ToString_nonstring := ToString_nonstring Sample.sampleEngine;
          toLowerCase := toLowerCase Sample.sampleEngine;
          callInherited := callInherited Sample.sampleEngine;
          URL_pathname := fun _ _ =>
            Throw (TypeError Sample.sampleEngine "Invalid URL") |};
     services := Sample.sampleServices;
     env := Sample.production;
     fetch := Sample.succeeds |}.

(** A POST request whose prompt is a number. *)
Definition numeric_prompt_post : Request :=
  Sample.post (JObj [("image", image); ("prompt", num 5)]).

(** The call the v42 handler makes for [sdxl_post] in [Sample.healthy]. *)
Definition v42_call : OutboundRequest :=
  FluxTransferSdxl.flux_request Sample.healthy image (JStr "a portrait")
    (JNum (8 # 10)).
End Cases.

(** * Properties *)

(** ** Tactics *)

(** The block ended on an exception before any upstream call. *)
Ltac early :=
  unfold throw; intros [= <- <-]; left; split; [reflexivity|]; left; eauto.

(** ** The handler monad *)

Lemma JSON_wire_obj (ps : list (string * JsVal)) :
  JSON_wire (JObj ps) = JObj (wire_props ps).
Proof. reflexivity. Qed.

Lemma bind_lift {A B} (o : Outcome A) (f : A -> M B) :
  bind (lift o) f = match o with Ok a => f a | Throw e => throw e end.
Proof. destruct o as [a|e]; simpl; [destruct (f a) |]; reflexivity. Qed.

Lemma bind_ret {A B} (a : A) (f : A -> M B) : bind (ret a) f = f a.
Proof. unfold ret. simpl. destruct (f a); reflexivity. Qed.

Lemma bind_throw {A B} (e : JsError) (f : A -> M B) : bind (throw e) f = throw e.
Proof. reflexivity. Qed.

Lemma quiet_lift {A} (o : Outcome A) : quiet (lift o).
Proof. reflexivity. Qed.

Lemma quiet_ret {A} (a : A) : quiet (ret a).
Proof. reflexivity. Qed.

Lemma quiet_throw {A} (e : JsError) : quiet (@throw A e).
Proof. reflexivity. Qed.

Lemma quiet_bind {A B} (m : M A) (f : A -> M B) :
  quiet m -> (forall a, quiet (f a)) -> quiet (bind m f).
Proof.
  unfold quiet, calls. destruct m as [cs [a|e]]; simpl; intros ->; [|reflexivity].
  intros Hf. specialize (Hf a). destruct (f a) as [cs' r]. simpl in *. now subst.
Qed.

Lemma quiet_eta {A} (m : M A) : quiet m -> m = ([], result m).
Proof. destruct m as [cs r]. unfold quiet. simpl. now intros ->. Qed.

Create HintDb quiet.
#[local] Hint Resolve quiet_lift quiet_ret quiet_throw : quiet.

(** ** Reading properties *)

Lemma get_defined (E : Engine) (v : JsVal) (k : string) :
  nullish v = false -> get E v k = Ok (get_opt v k).
Proof. destruct v; simpl; intros H; try discriminate H; reflexivity. Qed.

Lemma get_nullish (E : Engine) (v : JsVal) (k : string) :
  nullish v = true -> get E v k = Throw (TypeError E (nullishReadMessage E v k)).
Proof. destruct v; simpl; intros H; try discriminate H; reflexivity. Qed.

Lemma get_ok_inv (E : Engine) (v : JsVal) (k : string) (x : JsVal) :
  get E v k = Ok x -> nullish v = false /\ x = get_opt v k.
Proof. destruct v; simpl; intros H; inversion H; auto. Qed.

Lemma js_or_defined (a b : JsVal) :
  is_undefined b = false -> is_undefined (js_or a b) = false.
Proof.
  unfold js_or. destruct (truthy a) eqn:Ha; [|auto].
  intros _. destruct a; simpl in *; try discriminate Ha; reflexivity.
Qed.

(** Serialisation keeps a property that has a value. *)
Lemma own_wire_props (k : string) (v : JsVal) (ps : list (string * JsVal)) :
  own k ps = Some v -> is_undefined v = false ->
  own k (wire_props ps) = Some (JSON_wire v).
Proof.
  intros Hown Hv. induction ps as [|[k' x] rest IH]; simpl in *; [discriminate|].
  destruct (String.eqb k k') eqn:Hk.
  - injection Hown as ->. apply String.eqb_eq in Hk as ->.
    destruct v; try discriminate Hv; simpl; rewrite String.eqb_refl; reflexivity.
  - specialize (IH Hown).
    destruct x; simpl; rewrite ?Hk; exact IH.
Qed.

(** ** The upstream adapters *)

Section Upstream.
Context (W : World).
Let E := engine W.

Lemma quiet_rate_limited {A} (r : FetchResponse) :
  quiet (@FluxTransferSdxl.rate_limited W A r).
Proof.
  unfold FluxTransferSdxl.rate_limited.
  repeat (apply quiet_bind; [auto with quiet | intros ?]). auto with quiet.
Qed.

Lemma rate_limited_syntax_error {A} (r : FetchResponse) (msg : string) :
  parsed r = inr msg ->
  @FluxTransferSdxl.rate_limited W A r = throw (SyntaxError E msg).
Proof.
  intros H. unfold FluxTransferSdxl.rate_limited, JSON_parse.
  rewrite H, bind_lift. reflexivity.
Qed.

Lemma rate_limited_null {A} (r : FetchResponse) (v : JsVal) :
  parsed r = inl v -> nullish v = true ->
  @FluxTransferSdxl.rate_limited W A r =
  throw (TypeError E (nullishReadMessage E v "detail")).
Proof.
  intros H Hv. unfold FluxTransferSdxl.rate_limited, JSON_parse.
  rewrite H, bind_lift, bind_lift, (get_nullish _ _ _ Hv). reflexivity.
Qed.

Lemma rate_limited_error {A} (r : FetchResponse) (v : JsVal) (s : string) :
  parsed r = inl v -> nullish v = false ->
  ToString E (js_or (get_opt v "detail") (JStr "Rate limited")) = Ok s ->
  @FluxTransferSdxl.rate_limited W A r =
  throw (with_rate_limit 429 (js_or (get_opt v "retry_after") (num 10))
           (mkError E "Error" s)).
Proof.
  intros H Hv Hs. unfold FluxTransferSdxl.rate_limited, JSON_parse.
  rewrite H, bind_lift, bind_lift, (get_defined _ _ _ Hv), bind_lift.
  unfold new_Error.
  assert (Hd : is_undefined (js_or (get_opt v "detail") (JStr "Rate limited")) = false)
    by (apply js_or_defined; reflexivity).
  fold E. rewrite Hs.
  destruct (js_or (get_opt v "detail") (JStr "Rate limited")); try discriminate Hd;
    rewrite bind_lift, (get_defined _ _ _ Hv); reflexivity.
Qed.

Lemma not_ok_429 (r : FetchResponse) : responseStatus r = 429 -> ok r = false.
Proof. unfold ok. intros ->. reflexivity. Qed.

Lemma callSDXLAPI_429 (image prompt negativePrompt : JsVal) (r : FetchResponse) :
  fetch W (FluxTransferSdxl.sdxl_request W image prompt negativePrompt) = Ok r ->
  responseStatus r = 429 ->
  FluxTransferSdxl.callSDXLAPI W image prompt negativePrompt =
  ([FluxTransferSdxl.sdxl_request W image prompt negativePrompt],
   result (@FluxTransferSdxl.rate_limited W JsVal r)).
Proof.
  intros Hf Hs. unfold FluxTransferSdxl.callSDXLAPI, addToQueue, do_fetch.
  simpl. rewrite Hf, (not_ok_429 _ Hs), Hs. simpl.
  rewrite (quiet_eta _ (quiet_rate_limited r)). reflexivity.
Qed.

Lemma callFluxAPI_429 (image prompt controlStrength : JsVal) (r : FetchResponse) :
  fetch W (FluxTransferSdxl.flux_request W image prompt controlStrength) = Ok r ->
  responseStatus r = 429 ->
  FluxTransferSdxl.callFluxAPI W image prompt controlStrength =
  ([FluxTransferSdxl.flux_request W image prompt controlStrength],
   result (@FluxTransferSdxl.rate_limited W JsVal r)).
Proof.
  intros Hf Hs. unfold FluxTransferSdxl.callFluxAPI, addToQueue, do_fetch.
  simpl. rewrite Hf, (not_ok_429 _ Hs), Hs. simpl.
  rewrite (quiet_eta _ (quiet_rate_limited r)). reflexivity.
Qed.

Lemma upstream_task_429 (image prompt : JsVal) (r : FetchResponse) :
  fetch W (SdxlLightningTest.test_request W image prompt) = Ok r ->
  responseStatus r = 429 ->
  SdxlLightningTest.upstream_task W image prompt =
  ([SdxlLightningTest.test_request W image prompt],
   result (@FluxTransferSdxl.rate_limited W JsVal r)).
Proof.
  intros Hf Hs. unfold SdxlLightningTest.upstream_task, do_fetch.
  simpl. rewrite Hf, (not_ok_429 _ Hs), Hs. simpl.
  rewrite (quiet_eta _ (quiet_rate_limited r)). reflexivity.
Qed.

(** Each adapter issues exactly the one call it is written around. *)
Lemma calls_callSDXLAPI (image prompt negativePrompt : JsVal) :
  calls (FluxTransferSdxl.callSDXLAPI W image prompt negativePrompt) =
  [FluxTransferSdxl.sdxl_request W image prompt negativePrompt].
Proof.
  unfold FluxTransferSdxl.callSDXLAPI, addToQueue, do_fetch, calls. simpl.
  destruct (fetch W _) as [r|e]; [|reflexivity].
  destruct (ok r); simpl.
  - destruct (response_json W r); reflexivity.
  - destruct (responseStatus r =? 429).
    + rewrite (quiet_eta _ (quiet_rate_limited r)). reflexivity.
    + reflexivity.
Qed.

Lemma calls_callFluxAPI (image prompt controlStrength : JsVal) :
  calls (FluxTransferSdxl.callFluxAPI W image prompt controlStrength) =
  [FluxTransferSdxl.flux_request W image prompt controlStrength].
Proof.
  unfold FluxTransferSdxl.callFluxAPI, addToQueue, do_fetch, calls. simpl.
  destruct (fetch W _) as [r|e]; [|reflexivity].
  destruct (ok r); simpl.
  - destruct (response_json W r); reflexivity.
  - destruct (responseStatus r =? 429).
    + rewrite (quiet_eta _ (quiet_rate_limited r)). reflexivity.
    + reflexivity.
Qed.
End Upstream.

(** ** The v43 handler *)

Arguments bind : simpl never.
Arguments lift : simpl never.
Arguments ret : simpl never.
Arguments throw : simpl never.
Arguments json : simpl never.
Arguments set_status : simpl never.
Arguments assign : simpl never.
Arguments get : simpl never.
Arguments get_opt : simpl never.
Arguments truthy : simpl never.

Section V43.
Context (W : World).
Let E := engine W.

(** The two ways the [try] block of the v43 handler can go: it ends
    before any upstream call (with the 400 response or an exception), or
    it makes the one adapter call its [useSDXL] selects and answers from
    that call's outcome. *)
Lemma handler_try_cases (req : Request) (res : Res) cs (r : Outcome Res) :
  FluxTransferSdxl.handler_try W req res = (cs, r) ->
  (cs = [] /\
   ((exists e, r = Throw e) \/
    (r = Ok (json missing_fields (set_status 400 res)) /\
     nullish (body req) = false /\
     (truthy (get_opt (body req) "image") = false \/
      truthy (get_opt (body req) "prompt") = false)))) \/
  (exists (m : M JsVal) (selection : JsVal),
      (exists analysis guidelines,
          selectArtistWithAI (services W) analysis
            (get_opt (body req) "style") guidelines = Ok selection) /\
      nullish (body req) = false /\
      truthy (get_opt (body req) "image") = true /\
      truthy (get_opt (body req) "prompt") = true /\
      ((truthy (useSDXL_of (body req)) = true /\
        exists p n, m = FluxTransferSdxl.callSDXLAPI W
                          (get_opt (body req) "image") p n) \/
       (truthy (useSDXL_of (body req)) = false /\
        exists p s, m = FluxTransferSdxl.callFluxAPI W
                          (get_opt (body req) "image") p s)) /\
      cs = calls m /\
      match result m with
      | Throw e => r = Throw e
      | Ok data =>
          r = Ok (json (JObj (assign (spread data)
                                (v43_metadata selection (useSDXL_of (body req)))))
                    (set_status 200 res))
      end).
Proof.
  unfold FluxTransferSdxl.handler_try.
  destruct (nullish (body req)) eqn:Hb.
  { rewrite (get_nullish _ _ _ Hb), bind_lift. intros [= <- <-].
    left. split; [reflexivity|]. left. eauto. }
  rewrite !(get_defined _ _ _ Hb), !bind_lift.
  fold (useSDXL_of (body req)).
  destruct (truthy (get_opt (body req) "image")) eqn:Hi; simpl.
  2:{ intros [= <- <-]. left. split; [reflexivity|]. right. auto. }
  destruct (truthy (get_opt (body req) "prompt")) eqn:Hp; simpl.
  2:{ intros [= <- <-]. left. split; [reflexivity|]. right. auto. }
  rewrite ?bind_lift.
  destruct (string_method _ _ _ _) as [_s|e]; [|early].
  destruct (analyzeImageForArtist _ _) as [analysis|e]; [|early].
  rewrite ?bind_lift.
  destruct (FluxTransferSdxl.getStyleGuidelines _ _) as [guidelines|e]; [|early].
  rewrite ?bind_lift.
  destruct (selectArtistWithAI _ _ _ _) as [selection|e] eqn:Hselect; [|early].
  rewrite ?bind_lift.
  destruct (get _ selection "artist") as [artist|e] eqn:Hartist; [|early].
  destruct (get_ok_inv _ _ _ _ Hartist) as [Hsel ->].
  rewrite !(get_defined _ selection _ Hsel), ?bind_lift.
  destruct (buildArtistPrompt _ _ _ _) as [built|e]; [|early].
  rewrite ?bind_lift.
  destruct (cleanupPrompt _ _) as [finalPrompt|e]; [|early].
  destruct (truthy (useSDXL_of (body req))) eqn:Hu.
  - rewrite ?bind_lift.
    destruct (convertFluxToSDXL _ _ _ _) as [converted|e]; [|rewrite bind_throw; early].
    rewrite ?bind_lift.
    destruct (get _ converted "prompt") as [sp|e] eqn:Hsp; [|rewrite bind_throw; early].
    destruct (get_ok_inv _ _ _ _ Hsp) as [Hconv ->].
    rewrite (get_defined _ converted _ Hconv), ?bind_lift.
    intros Hrun. right.
    exists (FluxTransferSdxl.callSDXLAPI W (get_opt (body req) "image")
              (get_opt converted "prompt") (get_opt converted "negative_prompt")),
           selection.
    split; [eauto|].
    split; [reflexivity|]. split; [reflexivity|]. split; [reflexivity|].
    split; [left; split; [reflexivity|]; eauto|].
    destruct (FluxTransferSdxl.callSDXLAPI W _ _ _) as [cs1 [data|e]].
      unfold bind, ret in Hrun. injection Hrun as <- <-.
      rewrite app_nil_r. split; [reflexivity|].
      unfold v43_metadata. rewrite Hu. reflexivity.
    + unfold bind in Hrun. injection Hrun as <- <-. split; reflexivity.
  - rewrite ?bind_lift.
    destruct (getControlStrength _ _) as [strength|e]; [|rewrite bind_throw; early].
    intros Hrun. right.
    exists (FluxTransferSdxl.callFluxAPI W (get_opt (body req) "image")
              finalPrompt strength), selection.
    split; [eauto|].
    split; [reflexivity|]. split; [reflexivity|]. split; [reflexivity|].
    split; [right; split; [reflexivity|]; eauto|].
    destruct (FluxTransferSdxl.callFluxAPI W _ _ _) as [cs1 [data|e]].
    + unfold bind, ret in Hrun. injection Hrun as <- <-.
      rewrite app_nil_r. split; [reflexivity|].
      unfold v43_metadata. rewrite Hu. reflexivity.
    + unfold bind in Hrun. injection Hrun as <- <-. split; reflexivity.
Qed.
End V43.

Lemma wire_error_body (W : World) (error : JsError) :
  JSON_wire (error_body W error) = JObj (error_props W error).
Proof. unfold error_body, error_props. destruct (development W); reflexivity. Qed.

Section V43Handler.
Context (W : World).

(** A POST request goes through the [try] block; what the block returns
    is the response, what it throws is answered by the [catch] block. *)
Lemma handler_post (req : Request) (res : Res) :
  method req = "POST" ->
  FluxTransferSdxl.handler W req res =
  match FluxTransferSdxl.handler_try W req (with_cors res) with
  | (cs, Ok sent_res) => finish cs sent_res
  | (cs, Throw error) => finish cs (caught W error (with_cors res))
  end.
Proof. intros H. unfold FluxTransferSdxl.handler. rewrite H. reflexivity. Qed.

(** Without a POST no upstream call is made. *)
Lemma handler_not_post (req : Request) (res : Res) :
  method req <> "POST" -> issued (FluxTransferSdxl.handler W req res) = [].
Proof.
  intros H. unfold FluxTransferSdxl.handler.
  destruct (String.eqb (method req) "OPTIONS"); [reflexivity|].
  destruct (String.eqb (method req) "POST") eqn:Hp; [|reflexivity].
  apply String.eqb_eq in Hp. contradiction.
Qed.

(** A run of the handler that reached the upstream provider: it made the
    one call of the adapter [m] and answered from the outcome of [m]. *)
Lemma handler_upstream (req : Request) (res : Res) :
  issued (FluxTransferSdxl.handler W req res) <> [] ->
  method req = "POST" /\
  exists (m : M JsVal) (selection : JsVal),
    (exists analysis guidelines,
        selectArtistWithAI (services W) analysis
          (get_opt (body req) "style") guidelines = Ok selection) /\
    nullish (body req) = false /\
    truthy (get_opt (body req) "image") = true /\
    truthy (get_opt (body req) "prompt") = true /\
    ((truthy (useSDXL_of (body req)) = true /\
      exists p n, m = FluxTransferSdxl.callSDXLAPI W
                        (get_opt (body req) "image") p n) \/
     (truthy (useSDXL_of (body req)) = false /\
      exists p s, m = FluxTransferSdxl.callFluxAPI W
                        (get_opt (body req) "image") p s)) /\
    issued (FluxTransferSdxl.handler W req res) = calls m /\
    response (FluxTransferSdxl.handler W req res) =
    match result m with
    | Throw e => caught W e (with_cors res)
    | Ok data =>
        json (JObj (assign (spread data)
                      (v43_metadata selection (useSDXL_of (body req)))))
          (set_status 200 (with_cors res))
    end.
Proof.
  intros Hcalls.
  destruct (string_dec (method req) "POST") as [Hpost|Hpost].
  2:{ now rewrite handler_not_post in Hcalls. }
  split; [exact Hpost|].
  rewrite handler_post in * by exact Hpost.
  destruct (FluxTransferSdxl.handler_try W req (with_cors res)) as [cs r] eqn:Htry.
  destruct (handler_try_cases W req _ cs r Htry)
    as [[-> _]|(m & sel & Hsel & Hb & Hi & Hp & Hm & -> & Hr)].
  { destruct r; simpl in Hcalls; contradiction. }
  exists m, sel. repeat (split; [assumption|]).
  destruct (result m) as [data|e]; subst r; split; reflexivity.
Qed.
End V43Handler.

(** ** C2, C10: what a 429 from the upstream provider turns into *)

Lemma rate_limited_slow_down (W : World) {A} (r : FetchResponse) :
  parsed r = inl slow_down ->
  @FluxTransferSdxl.rate_limited W A r =
  throw (with_rate_limit 429 (num 15) (mkError (engine W) "Error" "slow down")).
Proof.
  intros H. now rewrite (rate_limited_error W r slow_down "slow down" H).
Qed.

(** C2.  When the upstream provider answers 429 with the body
    [{"detail":"slow down","retry_after":15}], the error thrown by the
    upstream call ([callSDXLAPI] as well as [callFluxAPI]) carries status
    429, retry_after 15 and the message "slow down", and every run of the
    handler that reached the provider ends in a 500 response whose [error]
    field is that message. *)
Theorem rate_limit_passthrough (W : World) :
  (forall c, fetch W c = Ok {| responseStatus := 429; parsed := inl slow_down |}) ->
  (forall image prompt negativePrompt,
      exists e,
        result (FluxTransferSdxl.callSDXLAPI W image prompt negativePrompt) = Throw e /\
        status e = Some 429 /\ retry_after e = Some (num 15) /\
        message e = "slow down") /\
  (forall image prompt controlStrength,
      exists e,
        result (FluxTransferSdxl.callFluxAPI W image prompt controlStrength) = Throw e /\
        status e = Some 429 /\ retry_after e = Some (num 15) /\
        message e = "slow down") /\
  (forall req res,
      issued (FluxTransferSdxl.handler W req res) <> [] ->
      statusCode (response (FluxTransferSdxl.handler W req res)) = 500 /\
      exists ps,
        sent (response (FluxTransferSdxl.handler W req res)) = Some (Json (JObj ps)) /\
        own "error" ps = Some (JStr "slow down")).
Proof.
  intros Hup.
  assert (Hsdxl : forall i p n,
             result (FluxTransferSdxl.callSDXLAPI W i p n) =
             Throw (with_rate_limit 429 (num 15)
                      (mkError (engine W) "Error" "slow down"))).
  { intros. rewrite (callSDXLAPI_429 W i p n _ (Hup _) eq_refl).
    now rewrite rate_limited_slow_down. }
  assert (Hflux : forall i p s,
             result (FluxTransferSdxl.callFluxAPI W i p s) =
             Throw (with_rate_limit 429 (num 15)
                      (mkError (engine W) "Error" "slow down"))).
  { intros. rewrite (callFluxAPI_429 W i p s _ (Hup _) eq_refl).
    now rewrite rate_limited_slow_down. }
  split; [|split].
  - intros. eexists. split; [apply Hsdxl|]. repeat split.
  - intros. eexists. split; [apply Hflux|]. repeat split.
  - intros req res Hcalls.
    destruct (handler_upstream W req res Hcalls)
      as (_ & m & sel & _ & _ & _ & _ & Hm & _ & ->).
    assert (Hr : result m = Throw (with_rate_limit 429 (num 15)
                                    (mkError (engine W) "Error" "slow down"))).
    { destruct Hm as [(_ & p & n & ->)|(_ & p & s & ->)]; [apply Hsdxl|apply Hflux]. }
    rewrite Hr. unfold caught, json. simpl. split; [reflexivity|].
    eexists. split; reflexivity.
Qed.

(** C2 on a concrete upstream: a valid POST request is answered 500 with
    the upstream detail as its error. *)
Lemma rate_limit_passthrough_witness :
  statusCode (response (FluxTransferSdxl.handler
                          Sample.throttled Sample.valid_post fresh_res)) = 500 /\
  exists ps,
    sent (response (FluxTransferSdxl.handler
                      Sample.throttled Sample.valid_post fresh_res))
    = Some (Json (JObj ps)) /\
    own "error" ps = Some (JStr "slow down").
Proof.
  apply (rate_limit_passthrough Sample.throttled (fun c => eq_refl)).
  vm_compute. discriminate.
Defined.

(** C10.  When the upstream provider answers 429 with a body that is not
    JSON, [JSON.parse] throws before the rate-limit error is built: the
    error that leaves the adapter is the SyntaxError, with neither status
    nor retry_after, and every run of the handler that reached the provider
    ends in a 500 response whose [error] field is the parser's message. *)
Theorem rate_limit_body_not_json (W : World) (msg : string) :
  (forall c, fetch W c = Ok {| responseStatus := 429; parsed := inr msg |}) ->
  (forall image prompt negativePrompt,
      exists e,
        result (FluxTransferSdxl.callSDXLAPI W image prompt negativePrompt) = Throw e /\
        name e = "SyntaxError" /\ message e = msg /\
        status e = None /\ retry_after e = None) /\
  (forall image prompt controlStrength,
      exists e,
        result (FluxTransferSdxl.callFluxAPI W image prompt controlStrength) = Throw e /\
        name e = "SyntaxError" /\ message e = msg /\
        status e = None /\ retry_after e = None) /\
  (forall req res,
      issued (FluxTransferSdxl.handler W req res) <> [] ->
      statusCode (response (FluxTransferSdxl.handler W req res)) = 500 /\
      exists ps,
        sent (response (FluxTransferSdxl.handler W req res)) = Some (Json (JObj ps)) /\
        own "error" ps = Some (JStr msg)).
Proof.
  intros Hup.
  assert (Hsdxl : forall i p n,
             result (FluxTransferSdxl.callSDXLAPI W i p n) =
             Throw (SyntaxError (engine W) msg)).
  { intros. rewrite (callSDXLAPI_429 W i p n _ (Hup _) eq_refl).
    now rewrite (rate_limited_syntax_error W _ msg). }
  assert (Hflux : forall i p s,
             result (FluxTransferSdxl.callFluxAPI W i p s) =
             Throw (SyntaxError (engine W) msg)).
  { intros. rewrite (callFluxAPI_429 W i p s _ (Hup _) eq_refl).
    now rewrite (rate_limited_syntax_error W _ msg). }
  split; [|split].
  - intros. eexists. split; [apply Hsdxl|]. repeat split.
  - intros. eexists. split; [apply Hflux|]. repeat split.
  - intros req res Hcalls.
    destruct (handler_upstream W req res Hcalls)
      as (_ & m & sel & _ & _ & _ & _ & Hm & _ & ->).
    assert (Hr : result m = Throw (SyntaxError (engine W) msg)).
    { destruct Hm as [(_ & p & n & ->)|(_ & p & s & ->)]; [apply Hsdxl|apply Hflux]. }
    rewrite Hr. unfold caught, json. simpl. split; [reflexivity|].
    eexists. split; reflexivity.
Qed.

(** C10 on a concrete upstream whose 429 body is an HTML page. *)
Lemma rate_limit_body_not_json_witness :
  statusCode (response (FluxTransferSdxl.handler
                          Sample.throttled_html Sample.valid_post fresh_res)) = 500 /\
  exists ps,
    sent (response (FluxTransferSdxl.handler
                      Sample.throttled_html Sample.valid_post fresh_res))
    = Some (Json (JObj ps)) /\
    own "error" ps = Some (JStr "Unexpected token < in JSON at position 0").
Proof.
  apply (rate_limit_body_not_json Sample.throttled_html _ (fun c => eq_refl)).
  vm_compute. discriminate.
Defined.

(** ** C3: which variant a request selects *)

Lemma lacks_get_opt (v : JsVal) (k : string) :
  lacks v k = true -> get_opt v k = JUndefined.
Proof.
  destruct v; try reflexivity. unfold lacks, has_own, get_opt.
  destruct (own k props); [discriminate|reflexivity].
Qed.

(** Reading a parameter back from a serialised payload. *)
Lemma input_field_wire (u m : string) (hs : list (string * string))
      (ps : list (string * JsVal)) (k : string) (v : JsVal) :
  own k ps = Some v -> is_undefined v = false ->
  input_field {| url := u; httpMethod := m; requestHeaders := hs;
                 payload := JSON_wire (JObj [("input", JObj ps)]) |} k
  = JSON_wire v.
Proof.
  intros Hown Hv. unfold input_field. cbn [payload].
  change (JSON_wire (JObj [("input", JObj ps)]))
    with (JObj [("input", JObj (wire_props ps))]).
  unfold get_opt. cbn [own String.eqb Ascii.eqb Bool.eqb default].
  simpl. now rewrite (own_wire_props k v ps Hown Hv).
Qed.


Lemma flux_request_parameters (W : World) (image prompt controlStrength : JsVal) :
  input_field (FluxTransferSdxl.flux_request W image prompt controlStrength)
    "num_inference_steps" = num 24 /\
  input_field (FluxTransferSdxl.flux_request W image prompt controlStrength)
    "guidance" = num 12.
Proof.
  unfold FluxTransferSdxl.flux_request, FluxTransferSdxl.flux_input.
  split;
    [rewrite (input_field_wire _ _ _ _ _ (num 24))
    |rewrite (input_field_wire _ _ _ _ _ (num 12))]; reflexivity.
Qed.



(** ** C7, C9: required fields *)

Lemma lacks_falsy (v : JsVal) (k : string) :
  lacks v k = true -> truthy (get_opt v k) = false.
Proof. intros H. now rewrite (lacks_get_opt _ _ H). Qed.

Section Validation.
Context (W : World).

(** The check [if (!image || !basePrompt)] of the v43 handler. *)
Lemma handler_rejects (req : Request) (res : Res) :
  method req = "POST" ->
  nullish (body req) = false ->
  truthy (get_opt (body req) "image") = false \/
  truthy (get_opt (body req) "prompt") = false ->
  FluxTransferSdxl.handler W req res = rejected res.
Proof.
  intros Hpost Hb Hfalsy. rewrite handler_post by exact Hpost.
  unfold FluxTransferSdxl.handler_try.
  rewrite !(get_defined _ _ _ Hb), !bind_lift.
  destruct Hfalsy as [-> | ->]; [reflexivity|].
  rewrite Bool.orb_true_r. reflexivity.
Qed.

(** The check [if (!image || !prompt)] of [testSDXLLightning]. *)
Lemma testSDXLLightning_rejects (req : Request) (res : Res) :
  method req = "POST" ->
  nullish (body req) = false ->
  truthy (get_opt (body req) "image") = false \/
  truthy (get_opt (body req) "prompt") = false ->
  SdxlLightningTest.testSDXLLightning W req res = rejected res.
Proof.
  intros Hpost Hb Hfalsy. unfold SdxlLightningTest.testSDXLLightning.
  rewrite Hpost. cbn [String.eqb Ascii.eqb Bool.eqb negb].
  unfold SdxlLightningTest.testSDXLLightning_try.
  rewrite !(get_defined _ _ _ Hb), !bind_lift.
  destruct Hfalsy as [-> | ->]; [reflexivity|].
  rewrite Bool.orb_true_r. reflexivity.
Qed.

(** Destructuring [req.body] when it is [null] or [undefined] throws, and
    the [catch] block answers. *)
Lemma handler_nullish_body (req : Request) (res : Res) :
  method req = "POST" ->
  nullish (body req) = true ->
  FluxTransferSdxl.handler W req res =
  finish [] (caught W (TypeError (engine W)
                         (nullishReadMessage (engine W) (body req) "image"))
               (with_cors res)).
Proof.
  intros Hpost Hb. rewrite handler_post by exact Hpost.
  unfold FluxTransferSdxl.handler_try.
  rewrite (get_nullish _ _ _ Hb), bind_lift. reflexivity.
Qed.
End Validation.

(** C7, as stated, fails on a POST request whose body is [null]: the body
    lacks both fields, yet the answer is 500 with the TypeError of the
    destructuring, not 400 "Missing required fields". *)
Lemma missing_fields_null_body_counterexample :
  method Sample.null_post = "POST" /\
  lacks (body Sample.null_post) "image" = true /\
  lacks (body Sample.null_post) "prompt" = true /\
  statusCode (response (FluxTransferSdxl.handler
                          Sample.healthy Sample.null_post fresh_res)) = 500 /\
  sent (response (FluxTransferSdxl.handler
                    Sample.healthy Sample.null_post fresh_res))
  <> Some (Json missing_fields).
Proof. vm_compute. repeat split; discriminate. Qed.

(** C7, amended.  For every POST request whose body is neither [null] nor
    [undefined] and lacks the image field or the prompt field (for example
    the empty body [{}]), the v43 handler makes no upstream call and
    answers 400 with the body
    [{ error: 'Missing required fields', required: ['image','prompt'] }]. *)
Theorem missing_fields_rejected (W : World) (req : Request) (res : Res) :
  method req = "POST" ->
  nullish (body req) = false ->
  lacks (body req) "image" = true \/ lacks (body req) "prompt" = true ->
  issued (FluxTransferSdxl.handler W req res) = [] /\
  statusCode (response (FluxTransferSdxl.handler W req res)) = 400 /\
  sent (response (FluxTransferSdxl.handler W req res)) = Some (Json missing_fields).
Proof.
  intros Hpost Hb Hlacks.
  assert (Hfalsy : truthy (get_opt (body req) "image") = false \/
                   truthy (get_opt (body req) "prompt") = false)
    by (destruct Hlacks as [H|H]; [left|right]; exact (lacks_falsy _ _ H)).
  rewrite (handler_rejects W req res Hpost Hb Hfalsy).
  repeat split.
Qed.

(** C7 on the empty body [{}]. *)
Lemma missing_fields_rejected_witness :
  issued (FluxTransferSdxl.handler Sample.healthy Sample.empty_post fresh_res) = [] /\
  statusCode (response (FluxTransferSdxl.handler
                          Sample.healthy Sample.empty_post fresh_res)) = 400 /\
  sent (response (FluxTransferSdxl.handler
                    Sample.healthy Sample.empty_post fresh_res))
  = Some (Json missing_fields).
Proof.
  apply (missing_fields_rejected Sample.healthy Sample.empty_post fresh_res).
  - reflexivity.
  - reflexivity.
  - left. reflexivity.
Defined.

(** C9.  The required-field check tests truthiness: a POST request whose
    body holds [image] or [prompt] with a falsy value (the empty string,
    0, false, null) gets from the v43 handler and from [testSDXLLightning]
    the 400 "Missing required fields" answer, with no upstream call, and
    that run is the very run of a request whose body lacks the field. *)
Theorem falsy_field_rejected (W : World) (req : Request) (res : Res)
        (ps : list (string * JsVal)) (k : string) (v : JsVal) :
  method req = "POST" ->
  body req = JObj ps ->
  k = "image" \/ k = "prompt" ->
  own k ps = Some v ->
  truthy v = false ->
  (FluxTransferSdxl.handler W req res = rejected res /\
   SdxlLightningTest.testSDXLLightning W req res = rejected res) /\
  (forall absent : Request,
      method absent = "POST" -> nullish (body absent) = false ->
      lacks (body absent) k = true ->
      FluxTransferSdxl.handler W absent res = FluxTransferSdxl.handler W req res /\
      SdxlLightningTest.testSDXLLightning W absent res =
      SdxlLightningTest.testSDXLLightning W req res).
Proof.
  intros Hpost Hbody Hk Hown Hv.
  assert (Hb : nullish (body req) = false) by (rewrite Hbody; reflexivity).
  assert (Hfalsy : truthy (get_opt (body req) "image") = false \/
                   truthy (get_opt (body req) "prompt") = false).
  { rewrite Hbody. unfold get_opt.
    destruct Hk as [-> | ->]; [left|right]; rewrite Hown; exact Hv. }
  rewrite (handler_rejects W req res Hpost Hb Hfalsy),
          (testSDXLLightning_rejects W req res Hpost Hb Hfalsy).
  split; [split; reflexivity|].
  intros absent Hpost' Hb' Hlacks.
  assert (Hfalsy' : truthy (get_opt (body absent) "image") = false \/
                    truthy (get_opt (body absent) "prompt") = false)
    by (destruct Hk as [-> | ->]; [left|right]; exact (lacks_falsy _ _ Hlacks)).
  now rewrite (handler_rejects W absent res Hpost' Hb' Hfalsy'),
              (testSDXLLightning_rejects W absent res Hpost' Hb' Hfalsy').
Qed.

(** C9 on a request whose prompt is the empty string. *)
Lemma falsy_field_rejected_witness :
  FluxTransferSdxl.handler Sample.healthy Sample.blank_prompt_post fresh_res
  = rejected fresh_res /\
  FluxTransferSdxl.handler Sample.healthy Sample.no_prompt_post fresh_res
  = FluxTransferSdxl.handler Sample.healthy Sample.blank_prompt_post fresh_res.
Proof.
  destruct (falsy_field_rejected Sample.healthy Sample.blank_prompt_post fresh_res
              [("image", JStr "data:image/png;base64,AAAA"); ("prompt", JStr "")]
              "prompt" (JStr ""))
    as ((H1 & _) & H2); try reflexivity.
  - right. reflexivity.
  - split; [exact H1|].
    apply (H2 Sample.no_prompt_post); reflexivity.
Defined.

(** ** C8: the defaults of the rate-limit error *)

Lemma adapter_429 (W : World) (c : OutboundRequest) (m : M JsVal)
      (r : FetchResponse) :
  Adapter W c m -> fetch W c = Ok r -> responseStatus r = 429 ->
  m = ([c], result (@FluxTransferSdxl.rate_limited W JsVal r)).
Proof.
  intros [i p n|i p s|i p] Hf Hs.
  - exact (callSDXLAPI_429 W i p n r Hf Hs).
  - exact (callFluxAPI_429 W i p s r Hf Hs).
  - exact (upstream_task_429 W i p r Hf Hs).
Qed.

(** C8, as stated, fails on a 429 whose body is the JSON literal [null]:
    the body has no truthy [retry_after] and no truthy [detail], yet the
    error thrown is the TypeError of the field read, without [retry_after]
    and with another message than 'Rate limited'. *)
Lemma rate_limit_defaults_null_body_counterexample :
  truthy (get_opt JNull "retry_after") = false /\
  truthy (get_opt JNull "detail") = false /\
  exists e,
    result (FluxTransferSdxl.callSDXLAPI Sample.throttled_null
              (JStr "data:image/png;base64,AAAA") (JStr "a portrait")
              (JStr "blurry")) = Throw e /\
    retry_after e = None /\
    message e <> "Rate limited".
Proof.
  split; [reflexivity|]. split; [reflexivity|].
  eexists. split; [vm_compute; reflexivity|]. split; [reflexivity|].
  vm_compute. discriminate.
Qed.

(** C8, amended.  For every upstream 429 answer whose body parses to a JSON
    value other than [null], in [callSDXLAPI], [callFluxAPI] and
    [testSDXLLightning] alike: when [detail] is missing or falsy the error
    thrown has the default message 'Rate limited'; and when the message
    could be built ([detail] is falsy, or a string, or converts to one) and
    [retry_after] is absent, null or 0, the error thrown has the default
    [retry_after] 10 (and status 429). *)
Theorem rate_limit_defaults (W : World) (c : OutboundRequest) (m : M JsVal)
        (r : FetchResponse) (v : JsVal) :
  Adapter W c m ->
  fetch W c = Ok r ->
  responseStatus r = 429 ->
  parsed r = inl v ->
  nullish v = false ->
  (truthy (get_opt v "detail") = false ->
   exists e, result m = Throw e /\ message e = "Rate limited" /\ status e = Some 429) /\
  (forall s,
      ToString (engine W) (js_or (get_opt v "detail") (JStr "Rate limited")) = Ok s ->
      truthy (get_opt v "retry_after") = false ->
      exists e, result m = Throw e /\ message e = s /\ status e = Some 429 /\
                retry_after e = Some (num 10)).
Proof.
  intros Ha Hf Hs Hp Hv. rewrite (adapter_429 W c m r Ha Hf Hs). split.
  - intros Hd.
    rewrite (rate_limited_error W r v "Rate limited" Hp Hv)
      by (unfold js_or; rewrite Hd; reflexivity).
    eexists. repeat split.
  - intros s Hstr Hr.
    rewrite (rate_limited_error W r v s Hp Hv Hstr).
    eexists. split; [reflexivity|]. repeat split.
    unfold js_or. rewrite Hr. reflexivity.
Qed.

(** C8 on a 429 whose body is the empty object [{}]. *)
Lemma rate_limit_defaults_witness :
  exists e,
    result (FluxTransferSdxl.callSDXLAPI Sample.throttled_bare
              (JStr "data:image/png;base64,AAAA") (JStr "a portrait")
              (JStr "blurry")) = Throw e /\
    message e = "Rate limited" /\ status e = Some 429 /\
    retry_after e = Some (num 10).
Proof.
  refine (proj2 (rate_limit_defaults Sample.throttled_bare _ _
                   {| responseStatus := 429; parsed := inl (JObj []) |} (JObj [])
                   (adapter_callSDXLAPI _ _ _ _) eq_refl eq_refl eq_refl eq_refl)
                "Rate limited" eq_refl eq_refl).
Defined.

(** ** C6: the CORS headers *)

Lemma keeps_headers_bind {A} (res : Res) (m : M A) (f : A -> M Res) :
  (forall a, keeps_headers res (f a)) -> keeps_headers res (bind m f).
Proof.
  intros Hf r'. destruct m as [cs [a|e]]; unfold bind, result.
  - specialize (Hf a r'). destruct (f a) as [cs' o]. exact Hf.
  - discriminate.
Qed.

Lemma keeps_headers_send (res : Res) (v : JsVal) (code : Z) :
  keeps_headers res (ret (json v (set_status code res))).
Proof. intros r' [= <-]. reflexivity. Qed.

(** A [try] block sends on the response object it was given. *)
Ltac keeps_headers :=
  repeat first
    [ apply keeps_headers_send
    | apply keeps_headers_bind; intros ?
    | match goal with
      | |- keeps_headers _ (if ?b then _ else _) => destruct b
      end ].

Lemma cors_post_options_with_cors (res sent_res : Res) :
  headers sent_res = headers (with_cors res) -> cors_post_options sent_res.
Proof.
  intros H. unfold cors_post_options. rewrite H.
  unfold with_cors, setHeader. cbn [headers].
  repeat split; simplify_map_eq; reflexivity.
Qed.

Section Headers.
Context (W : World).

Lemma v43_keeps_headers (req : Request) (res : Res) :
  keeps_headers res (FluxTransferSdxl.handler_try W req res).
Proof. unfold FluxTransferSdxl.handler_try. keeps_headers. Qed.

Lemma v42_keeps_headers (req : Request) (res : Res) :
  keeps_headers res (FluxTransferRefactored.handler_try W req res).
Proof. unfold FluxTransferRefactored.handler_try. keeps_headers. Qed.

Lemma test_keeps_headers (req : Request) (res : Res) :
  keeps_headers res (SdxlLightningTest.testSDXLLightning_try W req res).
Proof. unfold SdxlLightningTest.testSDXLLightning_try. keeps_headers. Qed.

Lemma v43_headers (req : Request) (res : Res) :
  headers (response (FluxTransferSdxl.handler W req res)) = headers (with_cors res).
Proof.
  unfold FluxTransferSdxl.handler. fold (with_cors res).
  destruct (String.eqb (method req) "OPTIONS"); [reflexivity|].
  destruct (negb (String.eqb (method req) "POST")); [reflexivity|].
  pose proof (v43_keeps_headers req (with_cors res)) as Hk.
  destruct (FluxTransferSdxl.handler_try W req (with_cors res)) as [cs [r|e]];
    [apply Hk|]; reflexivity.
Qed.

Lemma v42_headers (req : Request) (res : Res) :
  headers (response (FluxTransferRefactored.handler W req res))
  = headers (with_cors res).
Proof.
  unfold FluxTransferRefactored.handler. fold (with_cors res).
  destruct (String.eqb (method req) "OPTIONS"); [reflexivity|].
  destruct (negb (String.eqb (method req) "POST")); [reflexivity|].
  pose proof (v42_keeps_headers req (with_cors res)) as Hk.
  destruct (FluxTransferRefactored.handler_try W req (with_cors res)) as [cs [r|e]];
    [apply Hk|]; reflexivity.
Qed.

Lemma test_headers (req : Request) (res : Res) :
  headers (response (SdxlLightningTest.testSDXLLightning W req res))
  = headers (with_cors res).
Proof.
  unfold SdxlLightningTest.testSDXLLightning. fold (with_cors res).
  destruct (String.eqb (method req) "OPTIONS"); [reflexivity|].
  destruct (negb (String.eqb (method req) "POST")); [reflexivity|].
  pose proof (test_keeps_headers req (with_cors res)) as Hk.
  destruct (SdxlLightningTest.testSDXLLightning_try W req (with_cors res))
    as [cs [r|e]]; [apply Hk|]; reflexivity.
Qed.
End Headers.

(** C6, as stated, fails on the [withCORS] middleware of api/index.js: its
    answer to a preflight request allows GET besides POST and OPTIONS. *)
Lemma cors_withCORS_counterexample :
  headers (response (Index.withCORS (FluxTransferSdxl.handler Sample.healthy)
                       Sample.preflight fresh_res))
    !! "Access-Control-Allow-Methods" = Some "GET, POST, OPTIONS" /\
  ~ cors_post_options
      (response (Index.withCORS (FluxTransferSdxl.handler Sample.healthy)
                   Sample.preflight fresh_res)).
Proof.
  assert (H : headers (response (Index.withCORS
                                   (FluxTransferSdxl.handler Sample.healthy)
                                   Sample.preflight fresh_res))
                !! "Access-Control-Allow-Methods" = Some "GET, POST, OPTIONS")
    by (vm_compute; reflexivity).
  split; [exact H|].
  intros (_ & Hm & _). rewrite H in Hm. discriminate Hm.
Qed.

(** C6, amended.  Every response of the three endpoint handlers (the v43
    handler, the v42 handler and [testSDXLLightning]) carries
    [Access-Control-Allow-Origin: *], [Access-Control-Allow-Methods: POST,
    OPTIONS] and [Access-Control-Allow-Headers: Content-Type], whatever the
    request; the [withCORS] middleware answers a preflight request itself,
    with the allowed methods [GET, POST, OPTIONS]. *)
Theorem cors_headers (W : World) (req : Request) (res : Res) :
  cors_post_options (response (FluxTransferSdxl.handler W req res)) /\
  cors_post_options (response (FluxTransferRefactored.handler W req res)) /\
  cors_post_options (response (SdxlLightningTest.testSDXLLightning W req res)) /\
  (forall wrapped : Handler,
      method req = "OPTIONS" ->
      headers (response (Index.withCORS wrapped req res))
        !! "Access-Control-Allow-Origin" = Some "*" /\
      headers (response (Index.withCORS wrapped req res))
        !! "Access-Control-Allow-Methods" = Some "GET, POST, OPTIONS" /\
      headers (response (Index.withCORS wrapped req res))
        !! "Access-Control-Allow-Headers" = Some "Content-Type").
Proof.
  split; [|split; [|split]].
  - apply (cors_post_options_with_cors res), v43_headers.
  - apply (cors_post_options_with_cors res), v42_headers.
  - apply (cors_post_options_with_cors res), test_headers.
  - intros wrapped Hopt. unfold Index.withCORS. rewrite Hopt.
    cbn [String.eqb Ascii.eqb Bool.eqb]. unfold setHeader, finish, end_, set_status.
    cbn [headers response].
    repeat split; simplify_map_eq; reflexivity.
Qed.

(** C6 on a preflight request. *)
Lemma cors_headers_witness :
  cors_post_options
    (response (FluxTransferSdxl.handler Sample.healthy Sample.preflight fresh_res)) /\
  headers (response (Index.withCORS Sample.failing Sample.preflight fresh_res))
    !! "Access-Control-Allow-Methods" = Some "GET, POST, OPTIONS".
Proof.
  destruct (cors_headers Sample.healthy Sample.preflight fresh_res)
    as (H1 & _ & _ & H4).
  split; [exact H1|]. apply (H4 Sample.failing). reflexivity.
Defined.

(** ** C5: what an exception turns into *)

Lemma own_error_props (W : World) (error : JsError) :
  own "error" (error_props W error) = Some (JStr (message error)) /\
  own "stack" (error_props W error) =
  (if development W then Some (JStr (stack error)) else None).
Proof. unfold error_props. destruct (development W); split; reflexivity. Qed.

(** The body [withErrorHandling] sends, as the client reads it. *)
Lemma wire_internal_error (W : World) (error : JsError) :
  JSON_wire (Index.internal_error W error) =
  JObj (("error", JStr "Internal server error") ::
        (if development W
         then [("message", JStr (message error)); ("stack", JStr (stack error))]
         else [])).
Proof. unfold Index.internal_error. destruct (development W); reflexivity. Qed.

(** C5, as stated, fails on the [withErrorHandling] middleware of
    api/index.js: in production the 500 it sends for an exception with the
    message "boom" holds the fixed text 'Internal server error' and nothing
    of the exception. *)
Lemma error_message_withErrorHandling_counterexample :
  development Sample.healthy = false /\
  (exists e, escaped (Sample.failing Sample.valid_post fresh_res) = Some e /\
             message e = "boom") /\
  statusCode (response (Index.withErrorHandling Sample.healthy Sample.failing
                          Sample.valid_post fresh_res)) = 500 /\
  sent (response (Index.withErrorHandling Sample.healthy Sample.failing
                    Sample.valid_post fresh_res))
  = Some (Json (JObj [("error", JStr "Internal server error")])).
Proof.
  split; [reflexivity|]. split; [eexists; split; reflexivity|].
  split; vm_compute; reflexivity.
Qed.

(** C5, amended.  In the v43 handler a POST request is answered 500 exactly
    when its [try] block throws, and the body of that answer always holds
    the message of the exception under [error], and its stack trace under
    [stack] if and only if NODE_ENV is 'development'.  The
    [withErrorHandling] middleware answers an exception of the handler it
    wraps with 500 and the fixed [error] text 'Internal server error'; it
    shows the message and the stack trace only in development. *)
Theorem exception_response (W : World) (req : Request) (res : Res) :
  (method req = "POST" ->
   forall cs e,
     FluxTransferSdxl.handler_try W req (with_cors res) = (cs, Throw e) ->
     statusCode (response (FluxTransferSdxl.handler W req res)) = 500 /\
     exists ps,
       sent (response (FluxTransferSdxl.handler W req res)) = Some (Json (JObj ps)) /\
       own "error" ps = Some (JStr (message e)) /\
       own "stack" ps = (if development W then Some (JStr (stack e)) else None)) /\
  (statusCode (response (FluxTransferSdxl.handler W req res)) = 500 ->
   method req = "POST" /\
   exists cs e, FluxTransferSdxl.handler_try W req (with_cors res) = (cs, Throw e)) /\
  (forall (wrapped : Handler) (e : JsError),
      escaped (wrapped req res) = Some e ->
      escaped (Index.withErrorHandling W wrapped req res) = None /\
      statusCode (response (Index.withErrorHandling W wrapped req res)) = 500 /\
      exists ps,
        sent (response (Index.withErrorHandling W wrapped req res))
        = Some (Json (JObj ps)) /\
        own "error" ps = Some (JStr "Internal server error") /\
        own "message" ps = (if development W then Some (JStr (message e)) else None) /\
        own "stack" ps = (if development W then Some (JStr (stack e)) else None)).
Proof.
  split; [|split].
  - intros Hpost cs e Htry. rewrite (handler_post W req res Hpost), Htry.
    unfold caught, json. cbn [response finish statusCode sent set_status].
    split; [reflexivity|]. rewrite wire_error_body.
    eexists. split; [reflexivity|]. apply own_error_props.
  - intros H500. unfold FluxTransferSdxl.handler in H500. fold (with_cors res) in H500.
    destruct (String.eqb (method req) "OPTIONS"); [discriminate H500|].
    destruct (String.eqb (method req) "POST") eqn:Hpost; [|discriminate H500].
    apply String.eqb_eq in Hpost. split; [exact Hpost|].
    cbn [negb] in H500.
    destruct (FluxTransferSdxl.handler_try W req (with_cors res)) as [cs r] eqn:Htry.
    destruct r as [sent_res|e]; [|eauto].
    destruct (handler_try_cases W req _ cs _ Htry)
      as [(_ & [[e He]|(He & _)])|(m & sel & _ & _ & _ & _ & _ & _ & Hr)].
    + discriminate He.
    + injection He as ->. discriminate H500.
    + destruct (result m); [injection Hr as ->|]; discriminate.
  - intros wrapped e Hesc. unfold Index.withErrorHandling. rewrite Hesc.
    unfold json. cbn [response finish statusCode sent set_status escaped].
    split; [reflexivity|]. split; [reflexivity|].
    rewrite wire_internal_error. eexists. split; [reflexivity|].
    destruct (development W); repeat split.
Qed.

(** C5 on a request whose body is [null]: the destructuring throws and the
    production answer holds the message and no stack trace. *)
Lemma exception_response_witness :
  statusCode (response (FluxTransferSdxl.handler
                          Sample.healthy Sample.null_post fresh_res)) = 500 /\
  exists ps,
    sent (response (FluxTransferSdxl.handler
                      Sample.healthy Sample.null_post fresh_res))
    = Some (Json (JObj ps)) /\
    own "error" ps
    = Some (JStr "Cannot read properties of null or undefined: image") /\
    own "stack" ps = None.
Proof.
  destruct (proj1 (exception_response Sample.healthy Sample.null_post fresh_res)
              eq_refl []
              (TypeError Sample.sampleEngine
                 "Cannot read properties of null or undefined: image")
              eq_refl)
    as (H1 & ps & H2 & H3 & H4).
  split; [exact H1|]. exists ps. split; [exact H2|]. split; [exact H3|exact H4].
Defined.

(** ** C4: the body of a successful answer *)

Section Success.
Context (W : World).

Lemma rate_limited_throws {A} (r : FetchResponse) :
  exists e, result (@FluxTransferSdxl.rate_limited W A r) = Throw e.
Proof.
  unfold FluxTransferSdxl.rate_limited.
  rewrite bind_lift. destruct (JSON_parse W r) as [v|e]; [|eauto].
  rewrite bind_lift. destruct (get _ v "detail") as [d|e]; [|eauto].
  rewrite bind_lift. destruct (new_Error _ _) as [err|e]; [|eauto].
  rewrite bind_lift. destruct (get _ v "retry_after") as [ra|e]; eauto.
Qed.

Lemma answer_returns_body (c : OutboundRequest) (label : string) :
  returns_body W c
    (bind (do_fetch W c) (fun response =>
       if negb (ok response) then
         if responseStatus response =? 429
         then FluxTransferSdxl.rate_limited W response
         else FluxTransferSdxl.api_error W label response
       else bind (lift (response_json W response)) (fun data => ret data))).
Proof.
  unfold do_fetch, bind at 1. destruct (fetch W c) as [r|e] eqn:Hf.
  2:{ split; [reflexivity|]. intros data [=]. }
  destruct (ok r) eqn:Hok; cbn [negb].
  - rewrite bind_lift. unfold response_json, JSON_parse.
    destruct (parsed r) as [v|msg] eqn:Hp.
    + split; [reflexivity|]. intros data [= <-]. eauto.
    + split; [reflexivity|]. intros data [=].
  - destruct (responseStatus r =? 429).
    + destruct (rate_limited_throws (A := JsVal) r) as [e He].
      rewrite (quiet_eta _ (quiet_rate_limited W r)), He.
      split; [reflexivity|]. intros data [=].
    + split; [reflexivity|]. intros data [=].
Qed.

Lemma callSDXLAPI_returns_body (image prompt negativePrompt : JsVal) :
  returns_body W (FluxTransferSdxl.sdxl_request W image prompt negativePrompt)
               (FluxTransferSdxl.callSDXLAPI W image prompt negativePrompt).
Proof. apply answer_returns_body. Qed.

Lemma callFluxAPI_returns_body (image prompt controlStrength : JsVal) :
  returns_body W (FluxTransferSdxl.flux_request W image prompt controlStrength)
               (FluxTransferSdxl.callFluxAPI W image prompt controlStrength).
Proof. apply answer_returns_body. Qed.

Lemma callReplicateAPI_returns_body (image prompt controlStrength : JsVal) :
  returns_body W (FluxTransferSdxl.flux_request W image prompt controlStrength)
               (FluxTransferRefactored.callReplicateAPI W image prompt controlStrength).
Proof.
  unfold FluxTransferRefactored.callReplicateAPI, do_fetch, bind at 1.
  destruct (fetch W _) as [r|e] eqn:Hf.
  2:{ split; [reflexivity|]. intros data [=]. }
  destruct (ok r) eqn:Hok; cbn [negb].
  - rewrite bind_lift. unfold response_json, JSON_parse.
    destruct (parsed r) as [v|msg] eqn:Hp.
    + split; [reflexivity|]. intros data [= <-]. eauto.
    + split; [reflexivity|]. intros data [=].
  - split; [reflexivity|]. intros data [=].
Qed.

(** The ways the [try] block of the v42 handler can go. *)
Lemma v42_handler_try_cases (req : Request) (res : Res) cs (r : Outcome Res) :
  FluxTransferRefactored.handler_try W req res = (cs, r) ->
  (cs = [] /\
   ((exists e, r = Throw e) \/
    r = Ok (json missing_fields (set_status 400 res)))) \/
  (exists (selection prompt strength : JsVal),
      (exists analysis guidelines,
          selectArtistWithAI (services W) analysis
            (get_opt (body req) "style") guidelines = Ok selection) /\
      cs = calls (FluxTransferRefactored.callReplicateAPI W
                    (get_opt (body req) "image") prompt strength) /\
      match result (FluxTransferRefactored.callReplicateAPI W
                      (get_opt (body req) "image") prompt strength) with
      | Throw e => r = Throw e
      | Ok data =>
          r = Ok (json (JObj (assign (spread data) (v42_metadata selection)))
                    (set_status 200 res))
      end).
Proof.
  unfold FluxTransferRefactored.handler_try.
  destruct (nullish (body req)) eqn:Hb.
  { rewrite (get_nullish _ _ _ Hb), bind_lift. early. }
  rewrite !(get_defined _ _ _ Hb), !bind_lift.
  destruct (truthy (get_opt (body req) "image")) eqn:Hi; cbn [negb orb].
  2:{ unfold ret. intros [= <- <-]. left. auto. }
  destruct (truthy (get_opt (body req) "prompt")) eqn:Hp; cbn [negb orb].
  2:{ unfold ret. intros [= <- <-]. left. auto. }
  rewrite ?bind_lift.
  destruct (string_method _ _ _ _) as [_s|e]; [|early].
  destruct (analyzeImageForArtist _ _) as [analysis|e]; [|early].
  rewrite ?bind_lift.
  destruct (FluxTransferRefactored.getStyleGuidelines _ _) as [guidelines|e]; [|early].
  rewrite ?bind_lift.
  destruct (selectArtistWithAI _ _ _ _) as [selection|e] eqn:Hselect; [|early].
  rewrite ?bind_lift.
  destruct (get _ selection "artist") as [artist|e] eqn:Hartist; [|early].
  destruct (get_ok_inv _ _ _ _ Hartist) as [Hsel ->].
  rewrite !(get_defined _ selection _ Hsel), ?bind_lift.
  destruct (buildArtistPrompt _ _ _ _) as [built|e]; [|early].
  rewrite ?bind_lift.
  destruct (cleanupPrompt _ _) as [finalPrompt|e]; [|early].
  rewrite ?bind_lift.
  destruct (getControlStrength _ _) as [strength|e]; [|early].
  rewrite ?bind_lift.
  destruct (logPromptDetails _ _ _ _) as [[]|e]; [|early].
  intros Hrun. right. exists selection, finalPrompt, strength.
  split; [eauto|].
  destruct (FluxTransferRefactored.callReplicateAPI W _ _ _) as [cs1 [data|e]].
  - unfold bind, ret in Hrun. injection Hrun as <- <-.
    rewrite app_nil_r. split; reflexivity.
  - unfold bind in Hrun. injection Hrun as <- <-. split; reflexivity.
Qed.
End Success.

(** C4, as stated, fails on the v42 handler of
    api/flux-transfer-refactored.js (the one the route table serves): the
    body of its 200 answer holds the selection metadata but neither
    [model_used] nor [cost]. *)
Lemma success_body_v42_counterexample :
  statusCode (response (FluxTransferRefactored.handler
                          Sample.healthy Sample.valid_post fresh_res)) = 200 /\
  exists ps,
    sent (response (FluxTransferRefactored.handler
                      Sample.healthy Sample.valid_post fresh_res))
    = Some (Json (JObj ps)) /\
    own "selected_artist" ps = Some (JStr "Monet") /\
    own "model_used" ps = None /\
    own "cost" ps = None.
Proof.
  split; [vm_compute; reflexivity|].
  eexists. split; [vm_compute; reflexivity|]. repeat split.
Qed.

Lemma own_prop_set_eq (k : string) (v : JsVal) (ps : list (string * JsVal)) :
  own k (prop_set k v ps) = Some v.
Proof.
  induction ps as [|[k' x] rest IH]; simpl.
  - now rewrite String.eqb_refl.
  - destruct (String.eqb k k') eqn:Hk; simpl.
    + now rewrite String.eqb_refl.
    + now rewrite Hk.
Qed.

Lemma own_prop_set_ne (k k' : string) (v : JsVal) (ps : list (string * JsVal)) :
  k <> k' -> own k (prop_set k' v ps) = own k ps.
Proof.
  intros Hne. induction ps as [|[k0 x] rest IH]; simpl.
  - apply String.eqb_neq in Hne. now rewrite Hne.
  - destruct (String.eqb k' k0) eqn:Hk; simpl.
    + apply String.eqb_eq in Hk as <-.
      apply String.eqb_neq in Hne. now rewrite Hne.
    + destruct (String.eqb k k0); [reflexivity|exact IH].
Qed.

(** Each of the five metadata properties is in the merged object, with the
    value the handler gave it, whatever the upstream result held. *)
Lemma own_v43_metadata (base : list (string * JsVal)) (selection useSDXL : JsVal)
      (k : string) (v : JsVal) :
  In (k, v) (v43_metadata selection useSDXL) ->
  own k (assign base (v43_metadata selection useSDXL)) = Some v.
Proof.
  unfold v43_metadata, assign. cbn [fold_left fst snd].
  intros [H|[H|[H|[H|[H|[]]]]]]; injection H as <- <-;
    repeat first [ apply own_prop_set_eq
                 | rewrite own_prop_set_ne by discriminate ].
Qed.

(** C4, amended.  The body of every 200 answer of the v43 handler that has
    a body is the serialisation of the upstream result's properties merged
    with [selected_artist], [selection_method], [selection_details],
    [model_used] and [cost], where the upstream result is the JSON body of
    the 2xx answer to the one call the run made and the first three come
    from the artist selection; each of the five whose value is not
    [undefined] is in the body with that value.  The body of every such
    answer of the v42 handler is the upstream result's properties merged
    with [selected_artist], [selection_method] and [selection_details]
    only. *)
Theorem success_body (W : World) (req : Request) (res : Res) (b : JsVal) :
  (statusCode (response (FluxTransferSdxl.handler W req res)) = 200 ->
   sent (response (FluxTransferSdxl.handler W req res)) = Some (Json b) ->
   exists c r data selection,
     issued (FluxTransferSdxl.handler W req res) = [c] /\
     fetch W c = Ok r /\ ok r = true /\ parsed r = inl data /\
     (exists analysis guidelines,
         selectArtistWithAI (services W) analysis
           (get_opt (body req) "style") guidelines = Ok selection) /\
     b = JSON_wire (JObj (assign (spread data)
                            (v43_metadata selection (useSDXL_of (body req))))) /\
     (forall k v,
         In (k, v) (v43_metadata selection (useSDXL_of (body req))) ->
         is_undefined v = false ->
         get_opt b k = JSON_wire v)) /\
  (statusCode (response (FluxTransferRefactored.handler W req res)) = 200 ->
   sent (response (FluxTransferRefactored.handler W req res)) = Some (Json b) ->
   exists c r data selection,
     issued (FluxTransferRefactored.handler W req res) = [c] /\
     fetch W c = Ok r /\ ok r = true /\ parsed r = inl data /\
     (exists analysis guidelines,
         selectArtistWithAI (services W) analysis
           (get_opt (body req) "style") guidelines = Ok selection) /\
     b = JSON_wire (JObj (assign (spread data) (v42_metadata selection)))).
Proof.
  split.
  - intros H200 Hsent.
    unfold FluxTransferSdxl.handler in *. fold (with_cors res) in *.
    destruct (String.eqb (method req) "OPTIONS"); [discriminate Hsent|].
    destruct (String.eqb (method req) "POST"); [|discriminate H200].
    cbn [negb] in *.
    destruct (FluxTransferSdxl.handler_try W req (with_cors res)) as [cs r] eqn:Htry.
    destruct (handler_try_cases W req _ cs r Htry)
      as [(_ & [[e ->]|(-> & _)])
         |(m & sel & Hsel & _ & _ & _ & Hm & -> & Hr)];
      try discriminate H200.
    assert (Hret : exists c, returns_body W c m).
    { destruct Hm as [(_ & p & n & ->)|(_ & p & s & ->)]; eexists;
        [apply callSDXLAPI_returns_body|apply callFluxAPI_returns_body]. }
    destruct Hret as (c & Hcalls & Hdata).
    destruct (result m) as [data|e]; subst r; [|discriminate H200].
    destruct (Hdata data eq_refl) as (fr & Hf & Hok & Hp).
    exists c, fr, data, sel. cbn [issued finish].
    repeat (split; [assumption|]).
    unfold json in Hsent. cbn [response finish sent] in Hsent.
    assert (Hb : b = JSON_wire (JObj (assign (spread data)
                                        (v43_metadata sel (useSDXL_of (body req))))))
      by (injection Hsent as Hs; symmetry; exact Hs).
    split; [exact Hb|].
    intros k v Hin Hv. rewrite Hb, JSON_wire_obj. unfold get_opt.
    rewrite (own_wire_props k v _ (own_v43_metadata _ _ _ _ _ Hin) Hv).
    reflexivity.
  - intros H200 Hsent.
    unfold FluxTransferRefactored.handler in *. fold (with_cors res) in *.
    destruct (String.eqb (method req) "OPTIONS"); [discriminate Hsent|].
    destruct (String.eqb (method req) "POST"); [|discriminate H200].
    cbn [negb] in *.
    destruct (FluxTransferRefactored.handler_try W req (with_cors res))
      as [cs r] eqn:Htry.
    destruct (v42_handler_try_cases W req _ cs r Htry)
      as [(_ & [[e ->]| ->])|(sel & p & s & Hsel & -> & Hr)];
      try discriminate H200.
    destruct (callReplicateAPI_returns_body W (get_opt (body req) "image") p s)
      as (Hcalls & Hdata).
    destruct (result (FluxTransferRefactored.callReplicateAPI W _ p s))
      as [data|e]; subst r; [|discriminate H200].
    destruct (Hdata data eq_refl) as (fr & Hf & Hok & Hp).
    eexists _, fr, data, sel. cbn [issued finish].
    repeat (split; [eassumption|]).
    unfold json in Hsent. cbn [response finish sent] in Hsent.
    injection Hsent as Hs. symmetry. exact Hs.
Qed.

(** C4 on a concrete successful request to the v43 handler. *)
Lemma success_body_witness :
  exists c r data selection,
    issued (FluxTransferSdxl.handler Sample.healthy Sample.valid_post fresh_res) = [c] /\
    fetch Sample.healthy c = Ok r /\ ok r = true /\ parsed r = inl data /\
    (exists analysis guidelines,
        selectArtistWithAI (services Sample.healthy) analysis
          (get_opt (body Sample.valid_post) "style") guidelines = Ok selection) /\
    Sample.v43_answer
    = JSON_wire (JObj (assign (spread data)
                         (v43_metadata selection
                            (useSDXL_of (body Sample.valid_post))))) /\
    (forall k v,
        In (k, v) (v43_metadata selection (useSDXL_of (body Sample.valid_post))) ->
        is_undefined v = false ->
        get_opt Sample.v43_answer k = JSON_wire v).
Proof.
  apply (proj1 (success_body Sample.healthy Sample.valid_post fresh_res
                  Sample.v43_answer)).
  - vm_compute. reflexivity.
  - vm_compute. reflexivity.
Defined.

(** ** C1: the admission gate *)

Section Gate.
Import RateLimiter Process.
Local Open Scope nat_scope.
Local Arguments serial : simpl never.

Lemma serial_S (n : nat) :
  serial (Datatypes.S n) = serial n ++ [Started n; Finished n].
Proof.
  unfold serial. rewrite seq_S, flat_map_app. simpl. reflexivity.
Qed.

Lemma length_serial (n : nat) : length (serial n) = 2 * n.
Proof.
  induction n as [|n IH]; [reflexivity|].
  rewrite serial_S, length_app, IH. simpl. lia.
Qed.

Lemma serial_prefix (k n : nat) :
  k <= n -> exists rest, serial k ++ rest = serial n.
Proof.
  induction 1 as [|n Hle [rest IH]].
  - exists []. apply app_nil_r.
  - exists (rest ++ [Started n; Finished n]).
    now rewrite serial_S, app_assoc, IH.
Qed.

Lemma serialized_step (q : QueueState) (history : list Event) (op : Op) :
  limit q <= 1 ->
  Serialized q history ->
  limit (fst (step q op)) <= 1 /\
  Serialized (fst (step q op)) (history ++ snd (step q op)).
Proof.
  intros Hlimit Hs.
  assert (Hcap : capacity q = 1) by (unfold capacity; lia).
  destruct op as [|t how]; simpl.
  - unfold addToQueue. rewrite Hcap.
    destruct Hs as [Hrun Hwait Hhist|k Hrun Hk Hwait Hhist]; rewrite Hrun; simpl.
    + split; [exact Hlimit|].
      apply (serialized_busy _ _ (submitted q)); cbn [inFlight waiting submitted limit]; auto.
      * rewrite Nat.sub_diag. exact Hwait.
      * now rewrite Hhist.
    + split; [exact Hlimit|].
      apply (serialized_busy _ _ k); cbn [inFlight waiting submitted limit]; auto.
      * rewrite Hwait.
        replace (Datatypes.S (submitted q) - Datatypes.S k)
          with (Datatypes.S (submitted q - Datatypes.S k)) by lia.
        rewrite seq_S. do 2 f_equal. lia.
      * rewrite app_nil_r. exact Hhist.
  - unfold complete, executing.
    destruct Hs as [Hrun Hwait Hhist|k Hrun Hk Hwait Hhist]; rewrite Hrun; simpl.
    + split; [exact Hlimit|]. rewrite app_nil_r.
      now apply serialized_idle.
    + destruct (Nat.eqb_spec t k) as [->|Hne]; simpl.
      2:{ split; [exact Hlimit|]. rewrite app_nil_r.
          now apply (serialized_busy _ _ k). }
      destruct (Nat.eq_dec k k) as [_|Hkk]; [|contradiction].
      rewrite Hwait.
      destruct (submitted q - Datatypes.S k) as [|later] eqn:Hlater; simpl.
      * split; [exact Hlimit|].
        apply serialized_idle; cbn [inFlight waiting submitted limit]; auto.
        replace (submitted q) with (Datatypes.S k) by lia.
        rewrite serial_S, Hhist, <- app_assoc. reflexivity.
      * split; [exact Hlimit|].
        apply (serialized_busy _ _ (Datatypes.S k)); cbn [inFlight waiting submitted limit]; auto.
        -- lia.
        -- f_equal. lia.
        -- rewrite serial_S, Hhist, <- !app_assoc. reflexivity.
Qed.

Lemma serialized_run (ops : list Op) (q : QueueState) (history : list Event) :
  limit q <= 1 ->
  Serialized q history ->
  Serialized (fst (run ops q)) (history ++ snd (run ops q)).
Proof.
  revert q history. induction ops as [|op rest IH]; intros q history Hlimit Hs; simpl.
  - now rewrite app_nil_r.
  - destruct (serialized_step q history op Hlimit Hs) as [Hlimit' Hs'].
    destruct (step q op) as [q1 now_]. simpl in *.
    specialize (IH q1 (history ++ now_) Hlimit' Hs').
    destruct (run rest q1) as [q2 later]. simpl in *.
    now rewrite app_assoc.
Qed.

(** Whatever the configured limit, no more tasks are in flight than the
    capacity of the gate. *)
Lemma in_flight_step (q : QueueState) (op : Op) :
  length (inFlight q) <= capacity q ->
  length (inFlight (fst (step q op))) <= capacity (fst (step q op)).
Proof.
  intros Hq. destruct op as [|t how]; simpl.
  - unfold addToQueue.
    destruct (Nat.ltb_spec (length (inFlight q)) (capacity q)) as [Hlt|Hge];
      simpl; unfold capacity in *; simpl; [|exact Hq].
    rewrite length_app. simpl. lia.
  - unfold complete, executing.
    destruct (existsb (Nat.eqb t) (inFlight q)) eqn:Hex; [|exact Hq].
    apply existsb_exists in Hex as (x & Hin & Hx).
    apply Nat.eqb_eq in Hx as <-.
    pose proof (remove_length_lt Nat.eq_dec (inFlight q) t Hin) as Hlt.
    destruct (waiting q) as [|next rest]; simpl; unfold capacity in *; simpl.
    + lia.
    + rewrite length_app. simpl. lia.
Qed.

Lemma in_flight_bounded (ops : list Op) (q : QueueState) :
  length (inFlight q) <= capacity q ->
  length (inFlight (fst (run ops q))) <= capacity (fst (run ops q)).
Proof.
  revert q. induction ops as [|op rest IH]; intros q Hq; simpl; [exact Hq|].
  pose proof (in_flight_step q op Hq) as Hstep.
  destruct (step q op) as [q1 now_]. simpl in Hstep.
  specialize (IH q1 Hstep). destruct (run rest q1) as [q2 later]. exact IH.
Qed.

(** The events of a history are those of its parts. *)
Lemma run_cons (op : Op) (rest : list Op) (q : QueueState) :
  run (op :: rest) q
  = (fst (run rest (fst (step q op))),
     snd (step q op) ++ snd (run rest (fst (step q op)))).
Proof.
  simpl. destruct (step q op) as [q1 now_]. cbn [fst snd].
  destruct (run rest q1) as [q2 later]. reflexivity.
Qed.

Lemma run_app (before after : list Op) (q : QueueState) :
  run (before ++ after) q
  = (fst (run after (fst (run before q))),
     snd (run before q) ++ snd (run after (fst (run before q)))).
Proof.
  revert q. induction before as [|op before IH]; intros q.
  - simpl. now destruct (run after q).
  - rewrite <- app_comm_cons, !run_cons, IH. cbn [fst snd].
    now rewrite app_assoc.
Qed.

Lemma gate_app (W : World) (before after : list Action) :
  gate W (before ++ after) = fst (run (ops W after) (gate W before)).
Proof. unfold gate, ops. now rewrite flat_map_app, run_app. Qed.

Lemma log_app (W : World) (before after : list Action) :
  log W (before ++ after)
  = log W before ++ snd (run (ops W after) (gate W before)).
Proof. unfold log, gate, ops. now rewrite flat_map_app, run_app. Qed.

Lemma serialized_gate (W : World) (acts : list Action) :
  Serialized (gate W acts) (log W acts).
Proof.
  assert (Hinit : Serialized rateLimiter []) by (now apply serialized_idle).
  pose proof (serialized_run (ops W acts) rateLimiter [] (le_n 1) Hinit) as Hs.
  now rewrite app_nil_l in Hs.
Qed.

(** The number of tasks the limiter has taken is the number of calls the
    handlers have handed to it. *)
Lemma submitted_step (q : QueueState) (op : Op) :
  submitted (fst (step q op))
  = submitted q + match op with Submit => 1 | Complete _ _ => 0 end.
Proof.
  destruct op as [|t how]; simpl.
  - unfold addToQueue. destruct (length (inFlight q) <? capacity q); simpl; lia.
  - unfold complete. destruct (executing t q); [|simpl; lia].
    destruct (waiting q); simpl; lia.
Qed.

Lemma submitted_submits {A} (cs : list A) (q : QueueState) :
  submitted (fst (run (map (fun _ => Submit) cs) q)) = submitted q + length cs.
Proof.
  revert q. induction cs as [|c cs IH]; intros q.
  - simpl. lia.
  - cbn [map]. rewrite run_cons. cbn [fst]. rewrite IH, submitted_step.
    simpl. lia.
Qed.

Lemma submitted_run (W : World) (acts : list Action) (q : QueueState) :
  submitted (fst (run (ops W acts) q)) = submitted q + length (tasks W acts).
Proof.
  revert q. induction acts as [|a acts IH]; intros q.
  - simpl. lia.
  - unfold ops, tasks. cbn [flat_map]. fold (ops W acts). fold (tasks W acts).
    rewrite run_app. cbn [fst]. rewrite IH, length_app.
    destruct a as [e req|t how]; cbn [gate_ops].
    + rewrite submitted_submits. lia.
    + rewrite run_cons. cbn [fst run submissions length].
      rewrite submitted_step. lia.
Qed.

Lemma submitted_gate (W : World) (acts : list Action) :
  submitted (gate W acts) = length (tasks W acts).
Proof. unfold gate. now rewrite submitted_run. Qed.

(** Which events the serial history holds. *)
Lemma in_serial_started (n t : nat) : In (Started t) (serial n) <-> t < n.
Proof.
  unfold serial. rewrite in_flat_map. split.
  - intros (x & Hx & Hin). apply in_seq in Hx.
    destruct Hin as [E|[E|[]]]; inversion E; subst; lia.
  - intros Ht. exists t. split; [apply in_seq; lia|now left].
Qed.

Lemma in_serial_finished (n t : nat) : In (Finished t) (serial n) <-> t < n.
Proof.
  unfold serial. rewrite in_flat_map. split.
  - intros (x & Hx & Hin). apply in_seq in Hx.
    destruct Hin as [E|[E|[]]]; inversion E; subst; lia.
  - intros Ht. exists t. split; [apply in_seq; lia|right; now left].
Qed.

Lemma serialized_prefix (q : QueueState) (history : list Event) :
  Serialized q history ->
  exists rest, history ++ rest = serial (submitted q).
Proof.
  intros [Hrun Hwait Hhist|k Hrun Hk Hwait Hhist].
  - exists []. now rewrite app_nil_r.
  - destruct (serial_prefix (Datatypes.S k) (submitted q) Hk) as [rest Hrest].
    exists (Finished k :: rest).
    rewrite Hhist, <- Hrest, serial_S, <- !app_assoc. reflexivity.
Qed.

(** The task in flight is the one that has started and not finished. *)
Lemma serialized_in_flight (q : QueueState) (history : list Event) (t : nat) :
  Serialized q history ->
  In t (inFlight q) <-> In (Started t) history /\ ~ In (Finished t) history.
Proof.
  intros [Hrun Hwait Hhist|k Hrun Hk Hwait Hhist]; rewrite Hrun, Hhist.
  - rewrite in_serial_started, in_serial_finished. simpl. lia.
  - rewrite !in_app_iff, in_serial_started, in_serial_finished. simpl.
    split.
    + intros [->|[]]. split; [right; now left|].
      intros [Hlt|[E|[]]]; [lia|discriminate E].
    + intros [[Hlt|[E|[]]] Hnot].
      * exfalso. apply Hnot. now left.
      * injection E as ->. now left.
Qed.

(** A task starts as soon as it has been submitted and every task before
    it has finished, and no sooner. *)
Lemma serialized_started (q : QueueState) (history : list Event) (t : nat) :
  Serialized q history ->
  In (Started t) history <->
  t < submitted q /\ forall a, a < t -> In (Finished a) history.
Proof.
  intros [Hrun Hwait Hhist|k Hrun Hk Hwait Hhist]; rewrite Hhist.
  - rewrite in_serial_started. split.
    + intros Ht. split; [exact Ht|].
      intros a Ha. apply in_serial_finished. lia.
    + now intros [Ht _].
  - rewrite in_app_iff, in_serial_started. split.
    + intros Ht.
      assert (Hle : t <= k) by (destruct Ht as [Hlt|[E|[]]]; [lia|injection E; lia]).
      split; [lia|].
      intros a Ha. apply in_app_iff. left. apply in_serial_finished. lia.
    + intros [Ht Hbefore].
      destruct (Nat.lt_trichotomy t k) as [Hlt|[->|Hgt]].
      * now left.
      * right. now left.
      * specialize (Hbefore k Hgt).
        apply in_app_iff in Hbefore as [Hin|[E|[]]]; [|discriminate E].
        apply in_serial_finished in Hin. lia.
Qed.

(** The limiter records that a task has finished when, and only when, the
    operation of the task it is executing settles. *)
Lemma executing_in_flight (t : nat) (q : QueueState) :
  executing t q = true <-> In t (inFlight q).
Proof.
  unfold executing. rewrite existsb_exists. split.
  - intros (x & Hin & Hx). apply Nat.eqb_eq in Hx as ->. exact Hin.
  - intros Hin. exists t. split; [exact Hin|apply Nat.eqb_refl].
Qed.

Lemma finished_complete (q : QueueState) (t' : nat) (how : Settlement) (t : nat) :
  In (Finished t) (snd (complete t' how q)) <-> t = t' /\ executing t' q = true.
Proof.
  unfold complete. destruct (executing t' q).
  - destruct (waiting q) as [|next rest]; simpl; split.
    + intros [E|[]]. injection E as ->. now split.
    + intros [-> _]. now left.
    + intros [E|[E|[]]]; [|discriminate E]. injection E as ->. now split.
    + intros [-> _]. now left.
  - simpl. split; [intros []|intros [_ E]; discriminate E].
Qed.

Lemma submits_no_finish {A} (cs : list A) (q : QueueState) (t : nat) :
  ~ In (Finished t) (snd (run (map (fun _ => Submit) cs) q)).
Proof.
  revert q. induction cs as [|c cs IH]; intros q.
  - simpl. tauto.
  - cbn [map]. rewrite run_cons. cbn [snd]. rewrite in_app_iff.
    intros [Hin|Hin]; [|exact (IH _ Hin)].
    simpl in Hin. unfold addToQueue in Hin.
    destruct (length (inFlight q) <? capacity q); simpl in Hin.
    + destruct Hin as [E|[]]. discriminate E.
    + destruct Hin.
Qed.

Lemma finished_settled (W : World) (acts : list Action) (t : nat) :
  In (Finished t) (log W acts) <->
  exists before how after,
    acts = before ++ Settle t how :: after /\
    In (Started t) (log W before).
Proof.
  split.
  - induction acts as [|a acts IH] using rev_ind; [intros []|].
    rewrite log_app, in_app_iff. intros [Hin|Hin].
    + destruct (IH Hin) as (before & how & after & -> & Hstarted).
      exists before, how, (after ++ [a]). split; [|exact Hstarted].
      now rewrite <- app_assoc.
    + unfold ops in Hin. cbn [flat_map] in Hin. rewrite app_nil_r in Hin.
      destruct a as [e req|t' how]; cbn [gate_ops] in Hin.
      * destruct (submits_no_finish _ _ _ Hin).
      * rewrite run_cons in Hin. cbn [snd run step] in Hin.
        rewrite app_nil_r in Hin.
        apply finished_complete in Hin as [-> Hexec].
        apply executing_in_flight in Hexec.
        apply (serialized_in_flight _ _ _ (serialized_gate W acts)) in Hexec.
        exists acts, how, []. split; [reflexivity|apply Hexec].
  - intros (before & how & after & -> & Hstarted).
    rewrite log_app, in_app_iff.
    assert (Hcases : In (Finished t) (log W before)
                     \/ In t (inFlight (gate W before))).
    { pose proof (serialized_gate W before) as Hs.
      destruct Hs as [Hrun Hwait Hhist|k Hrun Hk Hwait Hhist];
        rewrite Hhist in *.
      - left. apply in_serial_finished. now apply in_serial_started.
      - apply in_app_iff in Hstarted as [Hin|[E|[]]].
        + left. apply in_app_iff. left.
          apply in_serial_finished. now apply in_serial_started in Hin.
        + injection E as ->. right. rewrite Hrun. now left. }
    destruct Hcases as [Hin|Hin]; [now left|right].
    unfold ops. cbn [flat_map gate_ops]. rewrite <- app_comm_cons, run_cons.
    cbn [snd step app]. apply in_app_iff. left.
    apply finished_complete. split; [reflexivity|].
    now apply executing_in_flight.
Qed.

(** What the provider sees of the serial history. *)
Lemma traffic_serial (before cs : list OutboundRequest) :
  flat_map (traffic (before ++ cs))
    (flat_map (fun t => [Started t; Finished t])
       (seq (length before) (length cs)))
  = one_by_one (length before) cs.
Proof.
  revert before. induction cs as [|c cs IH]; intros before; [reflexivity|].
  cbn [length seq flat_map app traffic one_by_one].
  rewrite nth_error_app2, Nat.sub_diag by lia. cbn [nth_error app].
  do 2 f_equal.
  replace (before ++ c :: cs) with ((before ++ [c]) ++ cs)
    by (now rewrite <- app_assoc).
  replace (Datatypes.S (length before)) with (length (before ++ [c]))
    by (rewrite length_app; simpl; lia).
  apply IH.
Qed.

Lemma nth_error_one_by_one_sent
      (s : nat) (cs : list OutboundRequest) (j b : nat) (c : OutboundRequest) :
  nth_error (one_by_one s cs) j = Some (Sent b c) ->
  exists k, j = 2 * k /\ b = s + k /\ nth_error cs k = Some c.
Proof.
  revert s j. induction cs as [|c0 cs IH]; intros s j H.
  - destruct j; discriminate H.
  - destruct j as [|[|j]]; cbn [one_by_one nth_error] in H.
    + injection H as -> ->. exists 0. repeat split; lia.
    + discriminate H.
    + destruct (IH _ _ H) as (k & -> & -> & Hk).
      exists (Datatypes.S k). repeat split; [lia|lia|exact Hk].
Qed.

Lemma nth_error_one_by_one
      (s : nat) (cs : list OutboundRequest) (k : nat) (c : OutboundRequest) :
  nth_error cs k = Some c ->
  nth_error (one_by_one s cs) (2 * k) = Some (Sent (s + k) c) /\
  nth_error (one_by_one s cs) (2 * k + 1) = Some (Answered (s + k)).
Proof.
  revert s k. induction cs as [|c0 cs IH]; intros s k H.
  - destruct k; discriminate H.
  - destruct k as [|k]; cbn [nth_error] in H.
    + injection H as ->. rewrite Nat.add_0_r. split; reflexivity.
    + replace (2 * Datatypes.S k) with (Datatypes.S (Datatypes.S (2 * k))) by lia.
      replace (s + Datatypes.S k) with (Datatypes.S s + k) by lia.
      cbn [one_by_one nth_error Nat.add]. apply IH, H.
Qed.

Lemma upstream_prefix (W : World) (acts : list Action) :
  exists rest, upstream W acts ++ rest = one_by_one 0 (tasks W acts).
Proof.
  destruct (serialized_prefix _ _ (serialized_gate W acts)) as [rest Hrest].
  exists (flat_map (traffic (tasks W acts)) rest).
  unfold upstream. rewrite <- flat_map_app, Hrest, submitted_gate.
  exact (traffic_serial [] (tasks W acts)).
Qed.

(** C1.  The handlers of the v43 endpoint and of the test endpoint hand
    their upstream calls to the rate limiter (the gate of limit 1); the
    operations of started tasks settle, fulfilled or rejected, in any order
    and at any time.  After every such history: at most one task is
    executing, and it is the task that has started and not finished; a task
    has started exactly when it was submitted and every task submitted
    before it has finished; a task has finished exactly when its operation
    settled after it had started; what the provider has seen is an initial
    part of "call 0 sent, call 0 answered, call 1 sent, call 1 answered,
    ...", the calls being those the handlers built, in the order of their
    submission; hence whenever the call of a task B has been sent, the call
    of every task A submitted before it was sent and answered before
    that. *)
Theorem one_at_a_time_in_order (W : World) (acts : list Action) :
  length (inFlight (gate W acts)) <= 1 /\
  (forall t,
      In t (inFlight (gate W acts)) <->
      In (Started t) (log W acts) /\ ~ In (Finished t) (log W acts)) /\
  (forall t,
      In (Started t) (log W acts) <->
      t < length (tasks W acts) /\
      forall a, a < t -> In (Finished a) (log W acts)) /\
  (forall t,
      In (Finished t) (log W acts) <->
      exists before how after,
        acts = before ++ Settle t how :: after /\
        In (Started t) (log W before)) /\
  (exists rest, upstream W acts ++ rest = one_by_one 0 (tasks W acts)) /\
  (forall a b cb j,
      a < b ->
      nth_error (upstream W acts) j = Some (Sent b cb) ->
      exists ca i i',
        i < i' < j /\
        nth_error (tasks W acts) a = Some ca /\
        nth_error (upstream W acts) i = Some (Sent a ca) /\
        nth_error (upstream W acts) i' = Some (Answered a)).
Proof.
  pose proof (serialized_gate W acts) as Hs.
  split; [|split; [|split; [|split; [|split]]]].
  - destruct Hs as [Hrun _ _|k Hrun _ _ _]; rewrite Hrun; simpl; lia.
  - intros t. now apply serialized_in_flight.
  - intros t. rewrite <- submitted_gate. now apply serialized_started.
  - intros t. apply finished_settled.
  - apply upstream_prefix.
  - destruct (upstream_prefix W acts) as [rest Hrest].
    intros a b cb j Hab Hj.
    assert (Hlen : j < length (upstream W acts))
      by (apply nth_error_Some; rewrite Hj; discriminate).
    assert (Hj' : nth_error (one_by_one 0 (tasks W acts)) j = Some (Sent b cb))
      by (rewrite <- Hrest, nth_error_app1 by exact Hlen; exact Hj).
    destruct (nth_error_one_by_one_sent _ _ _ _ _ Hj') as (k & -> & -> & Hk).
    simpl in Hab.
    assert (Ha : a < length (tasks W acts)).
    { assert (k < length (tasks W acts))
        by (apply nth_error_Some; rewrite Hk; discriminate).
      lia. }
    destruct (nth_error (tasks W acts) a) as [ca|] eqn:Hca;
      [|apply nth_error_None in Hca; lia].
    destruct (nth_error_one_by_one 0 _ _ _ Hca) as [Hsent Hanswered].
    rewrite <- Hrest in Hsent, Hanswered.
    rewrite nth_error_app1 in Hsent by lia.
    rewrite nth_error_app1 in Hanswered by lia.
    exists ca, (2 * a), (2 * a + 1). split; [lia|].
    split; [reflexivity|]. split; assumption.
Qed.

(** C1 on requests A, B, C reaching the limiter in that order: the call of
    B (what the provider sees at index 2) is sent after the call of A has
    been sent and answered. *)
Lemma one_at_a_time_in_order_witness :
  exists ca i i',
    i < i' < 2 /\
    nth_error (tasks Sample.healthy Sample.three_tasks) 0 = Some ca /\
    nth_error (upstream Sample.healthy Sample.three_tasks) i = Some (Sent 0 ca) /\
    nth_error (upstream Sample.healthy Sample.three_tasks) i' = Some (Answered 0).
Proof.
  apply (proj2 (proj2 (proj2 (proj2 (proj2
           (one_at_a_time_in_order Sample.healthy Sample.three_tasks)))))
           0 1 Cases.test_call 2).
  - lia.
  - vm_compute. reflexivity.
Defined.
End Gate.

(** * Further properties of the handlers *)

(** ** The outcome of an upstream adapter *)

Section AdapterResult.
Context (W : World).

Lemma answer_result (c : OutboundRequest) (label : string) :
  bind (do_fetch W c) (fun response =>
    if negb (ok response) then
      if responseStatus response =? 429
      then FluxTransferSdxl.rate_limited W response
      else FluxTransferSdxl.api_error W label response
    else bind (lift (response_json W response)) (fun data => ret data))
  = ([c], adapter_result W label true (fetch W c)).
Proof.
  unfold do_fetch, bind at 1, adapter_result.
  destruct (fetch W c) as [r|e]; [|reflexivity].
  destruct (ok r); cbn [negb andb].
  - rewrite bind_lift. unfold response_json.
    destruct (JSON_parse W r); reflexivity.
  - destruct (responseStatus r =? 429).
    + rewrite (quiet_eta _ (quiet_rate_limited W r)). reflexivity.
    + reflexivity.
Qed.

Lemma callSDXLAPI_result (image prompt negativePrompt : JsVal) :
  FluxTransferSdxl.callSDXLAPI W image prompt negativePrompt =
  ([FluxTransferSdxl.sdxl_request W image prompt negativePrompt],
   adapter_result W "SDXL" true
     (fetch W (FluxTransferSdxl.sdxl_request W image prompt negativePrompt))).
Proof. apply answer_result. Qed.

Lemma callFluxAPI_result (image prompt controlStrength : JsVal) :
  FluxTransferSdxl.callFluxAPI W image prompt controlStrength =
  ([FluxTransferSdxl.flux_request W image prompt controlStrength],
   adapter_result W "FLUX" true
     (fetch W (FluxTransferSdxl.flux_request W image prompt controlStrength))).
Proof. apply answer_result. Qed.

Lemma upstream_task_result (image prompt : JsVal) :
  SdxlLightningTest.upstream_task W image prompt =
  ([SdxlLightningTest.test_request W image prompt],
   adapter_result W "SDXL" true
     (fetch W (SdxlLightningTest.test_request W image prompt))).
Proof.
  unfold SdxlLightningTest.upstream_task, do_fetch, bind at 1, adapter_result.
  destruct (fetch W _) as [r|e]; [|reflexivity].
  destruct (ok r); cbn [negb andb].
  - unfold lift, response_json. reflexivity.
  - destruct (responseStatus r =? 429).
    + rewrite (quiet_eta _ (quiet_rate_limited W r)). reflexivity.
    + reflexivity.
Qed.

Lemma callReplicateAPI_result (image prompt controlStrength : JsVal) :
  FluxTransferRefactored.callReplicateAPI W image prompt controlStrength =
  ([FluxTransferSdxl.flux_request W image prompt controlStrength],
   adapter_result W "FLUX" false
     (fetch W (FluxTransferSdxl.flux_request W image prompt controlStrength))).
Proof.
  unfold FluxTransferRefactored.callReplicateAPI, do_fetch, bind at 1, adapter_result.
  destruct (fetch W _) as [r|e]; [|reflexivity].
  destruct (ok r); cbn [negb andb].
  - rewrite bind_lift. unfold response_json.
    destruct (JSON_parse W r); reflexivity.
  - reflexivity.
Qed.

(** What the client reads of a [catch] block's answer. *)
Lemma sent_caught (e : JsError) (res : Res) :
  statusCode (caught W e res) = 500 /\
  sent (caught W e res) = Some (Json (JObj (error_props W e))).
Proof.
  unfold caught, json. cbn [statusCode sent set_status].
  rewrite wire_error_body. split; reflexivity.
Qed.

(** A run of the v43 handler that reached the provider, in terms of the
    request it sent and of what [fetch] did with it. *)
Lemma handler_reached (req : Request) (res : Res) :
  issued (FluxTransferSdxl.handler W req res) <> [] ->
  exists (c : OutboundRequest) (selection : JsVal),
    issued (FluxTransferSdxl.handler W req res) = [c] /\
    method req = "POST" /\
    truthy (get_opt (body req) "image") = true /\
    truthy (get_opt (body req) "prompt") = true /\
    ((truthy (useSDXL_of (body req)) = true /\
      exists p n, c = FluxTransferSdxl.sdxl_request W (get_opt (body req) "image") p n) \/
     (truthy (useSDXL_of (body req)) = false /\
      exists p s, c = FluxTransferSdxl.flux_request W (get_opt (body req) "image") p s)) /\
    response (FluxTransferSdxl.handler W req res) =
    match adapter_result W (variant_label (body req)) true (fetch W c) with
    | Throw e => caught W e (with_cors res)
    | Ok data =>
        json (JObj (assign (spread data)
                      (v43_metadata selection (useSDXL_of (body req)))))
          (set_status 200 (with_cors res))
    end.
Proof.
  intros Hcalls.
  destruct (handler_upstream W req res Hcalls)
    as (Hpost & m & sel & _ & _ & Hi & Hp & Hm & Hiss & Hresp).
  unfold variant_label.
  destruct Hm as [(Hu & p & n & ->)|(Hu & p & s & ->)]; rewrite Hu.
  - rewrite callSDXLAPI_result in Hiss, Hresp. cbn [calls result fst snd] in *.
    eexists _, sel. split; [exact Hiss|]. repeat (split; [assumption|]).
    split; [left; split; [reflexivity|]; eauto|]. exact Hresp.
  - rewrite callFluxAPI_result in Hiss, Hresp. cbn [calls result fst snd] in *.
    eexists _, sel. split; [exact Hiss|]. repeat (split; [assumption|]).
    split; [right; split; [reflexivity|]; eauto|]. exact Hresp.
Qed.
End AdapterResult.

(** ** Upstream failures *)

Section UpstreamFailures.
Context (W : World).

(** When the adapter of the selected variant throws [e] whatever it is
    sent, a run that reached the provider made its one call and answered
    with the [catch] block. *)
Lemma reached_caught (req : Request) (res : Res) (e : JsError) :
  issued (FluxTransferSdxl.handler W req res) <> [] ->
  (forall c, adapter_result W (variant_label (body req)) true (fetch W c) = Throw e) ->
  length (issued (FluxTransferSdxl.handler W req res)) = 1%nat /\
  statusCode (response (FluxTransferSdxl.handler W req res)) = 500 /\
  sent (response (FluxTransferSdxl.handler W req res))
  = Some (Json (JObj (error_props W e))).
Proof.
  intros Hcalls He.
  destruct (handler_reached W req res Hcalls) as (c & sel & -> & _ & _ & _ & _ & ->).
  rewrite He. split; [reflexivity|]. apply sent_caught.
Qed.
End UpstreamFailures.

(** X1.  When the provider answers with a status that is neither 2xx nor
    429, [callSDXLAPI] and [callFluxAPI] throw a plain Error whose message
    is the variant's label, " API error: " and the status, without reading
    the body and without status or retry_after fields; a run of the v43
    handler that reached the provider made one call and answers 500 with
    that message. *)
Theorem upstream_error_status (W : World) (r : FetchResponse) :
  (forall c, fetch W c = Ok r) ->
  ok r = false ->
  responseStatus r <> 429 ->
  (forall image prompt negativePrompt,
      result (FluxTransferSdxl.callSDXLAPI W image prompt negativePrompt)
      = Throw (mkError (engine W) "Error"
                 ("SDXL API error: " +:+ pretty (responseStatus r)))) /\
  (forall image prompt controlStrength,
      result (FluxTransferSdxl.callFluxAPI W image prompt controlStrength)
      = Throw (mkError (engine W) "Error"
                 ("FLUX API error: " +:+ pretty (responseStatus r)))) /\
  (forall req res,
      issued (FluxTransferSdxl.handler W req res) <> [] ->
      length (issued (FluxTransferSdxl.handler W req res)) = 1%nat /\
      statusCode (response (FluxTransferSdxl.handler W req res)) = 500 /\
      exists ps,
        sent (response (FluxTransferSdxl.handler W req res)) = Some (Json (JObj ps)) /\
        own "error" ps
        = Some (JStr (variant_label (body req) +:+ " API error: "
                      +:+ pretty (responseStatus r)))).
Proof.
  intros Hup Hok Hs.
  assert (Hres : forall label c,
             adapter_result W label true (fetch W c)
             = Throw (mkError (engine W) "Error"
                        (label +:+ " API error: " +:+ pretty (responseStatus r)))).
  { intros label c. unfold adapter_result. rewrite Hup, Hok.
    apply Z.eqb_neq in Hs. rewrite Hs. reflexivity. }
  split; [|split].
  - intros. rewrite callSDXLAPI_result. apply Hres.
  - intros. rewrite callFluxAPI_result. apply Hres.
  - intros req res Hcalls.
    destruct (reached_caught W req res _ Hcalls (Hres _)) as (Hlen & H500 & Hsent).
    split; [exact Hlen|]. split; [exact H500|].
    eexists. split; [exact Hsent|]. apply own_error_props.
Qed.

(** X1 on a provider that answers 503. *)
Lemma upstream_error_status_witness :
  statusCode (response (FluxTransferSdxl.handler
                          Cases.unavailable Sample.valid_post fresh_res)) = 500 /\
  exists ps,
    sent (response (FluxTransferSdxl.handler
                      Cases.unavailable Sample.valid_post fresh_res))
    = Some (Json (JObj ps)) /\
    own "error" ps = Some (JStr "SDXL API error: 503").
Proof.
  destruct (upstream_error_status Cases.unavailable
              {| responseStatus := 503;
                 parsed := inr "Unexpected token < in JSON at position 0" |}
              (fun c => eq_refl) eq_refl) as (_ & _ & H).
  - discriminate.
  - destruct (H Sample.valid_post fresh_res) as (_ & H500 & ps & Hsent & Herr).
    + vm_compute. discriminate.
    + split; [exact H500|]. exists ps. split; [exact Hsent|exact Herr].
Defined.

(** X2.  When [fetch] itself rejects (the network is down), each of the
    three adapters has sent its one request and rejects with the very same
    error; a run of the v43 handler that reached that point made exactly
    one call (there is no retry) and answers 500 with the error's message. *)
Theorem fetch_rejection (W : World) (e : JsError) :
  (forall c, fetch W c = Throw e) ->
  (forall c m, Adapter W c m -> m = ([c], Throw e)) /\
  (forall req res,
      issued (FluxTransferSdxl.handler W req res) <> [] ->
      length (issued (FluxTransferSdxl.handler W req res)) = 1%nat /\
      statusCode (response (FluxTransferSdxl.handler W req res)) = 500 /\
      exists ps,
        sent (response (FluxTransferSdxl.handler W req res)) = Some (Json (JObj ps)) /\
        own "error" ps = Some (JStr (message e))).
Proof.
  intros Hup.
  assert (Hres : forall label c, adapter_result W label true (fetch W c) = Throw e)
    by (intros; unfold adapter_result; now rewrite Hup).
  split.
  - intros c m [i p n|i p s|i p]; unfold addToQueue;
      rewrite ?callSDXLAPI_result, ?callFluxAPI_result, ?upstream_task_result, Hres;
      reflexivity.
  - intros req res Hcalls.
    destruct (reached_caught W req res _ Hcalls (Hres _)) as (Hlen & H500 & Hsent).
    split; [exact Hlen|]. split; [exact H500|].
    eexists. split; [exact Hsent|]. apply own_error_props.
Qed.

(** X2 on a network that is down. *)
Lemma fetch_rejection_witness :
  length (issued (FluxTransferSdxl.handler
                    Cases.offline Sample.valid_post fresh_res)) = 1%nat /\
  statusCode (response (FluxTransferSdxl.handler
                          Cases.offline Sample.valid_post fresh_res)) = 500 /\
  exists ps,
    sent (response (FluxTransferSdxl.handler
                      Cases.offline Sample.valid_post fresh_res))
    = Some (Json (JObj ps)) /\
    own "error" ps = Some (JStr "fetch failed").
Proof.
  apply (proj2 (fetch_rejection Cases.offline
                  (TypeError Sample.sampleEngine "fetch failed")
                  (fun c => eq_refl))).
  vm_compute. discriminate.
Defined.

(** X3.  When the provider answers 2xx with a body that is not JSON,
    [response.json()] throws: the adapters reject with the SyntaxError and a
    run of the v43 handler that reached the provider answers 500 with the
    parser's message, although the provider reported success. *)
Theorem success_body_not_json (W : World) (r : FetchResponse) (msg : string) :
  (forall c, fetch W c = Ok r) ->
  ok r = true ->
  parsed r = inr msg ->
  (forall c m, Adapter W c m -> m = ([c], Throw (SyntaxError (engine W) msg))) /\
  (forall req res,
      issued (FluxTransferSdxl.handler W req res) <> [] ->
      statusCode (response (FluxTransferSdxl.handler W req res)) = 500 /\
      exists ps,
        sent (response (FluxTransferSdxl.handler W req res)) = Some (Json (JObj ps)) /\
        own "error" ps = Some (JStr msg)).
Proof.
  intros Hup Hok Hp.
  assert (Hres : forall label c,
             adapter_result W label true (fetch W c)
             = Throw (SyntaxError (engine W) msg)).
  { intros. unfold adapter_result, JSON_parse. now rewrite Hup, Hok, Hp. }
  split.
  - intros c m [i p n|i p s|i p]; unfold addToQueue;
      rewrite ?callSDXLAPI_result, ?callFluxAPI_result, ?upstream_task_result, Hres;
      reflexivity.
  - intros req res Hcalls.
    destruct (reached_caught W req res _ Hcalls (Hres _)) as (_ & H500 & Hsent).
    split; [exact H500|].
    eexists. split; [exact Hsent|]. apply own_error_props.
Qed.

(** X3 on a provider that answers 200 with a truncated body. *)
Lemma success_body_not_json_witness :
  statusCode (response (FluxTransferSdxl.handler
                          Cases.garbled Sample.valid_post fresh_res)) = 500 /\
  exists ps,
    sent (response (FluxTransferSdxl.handler
                      Cases.garbled Sample.valid_post fresh_res))
    = Some (Json (JObj ps)) /\
    own "error" ps = Some (JStr "Unexpected end of JSON input").
Proof.
  apply (proj2 (success_body_not_json Cases.garbled
                  {| responseStatus := 200;
                     parsed := inr "Unexpected end of JSON input" |}
                  _ (fun c => eq_refl) eq_refl eq_refl)).
  vm_compute. discriminate.
Defined.

(** ** What the client sees of a failure *)

Section Failures.
Context (W : World).

(** A 500 answer of the v43 handler is the answer of its [catch] block. *)
Lemma handler_500_caught (req : Request) (res : Res) :
  statusCode (response (FluxTransferSdxl.handler W req res)) = 500 ->
  exists cs e,
    FluxTransferSdxl.handler_try W req (with_cors res) = (cs, Throw e) /\
    FluxTransferSdxl.handler W req res = finish cs (caught W e (with_cors res)).
Proof.
  intros H500. unfold FluxTransferSdxl.handler in *. fold (with_cors res) in *.
  destruct (String.eqb (method req) "OPTIONS"); [discriminate H500|].
  destruct (String.eqb (method req) "POST"); [|discriminate H500].
  cbn [negb] in *.
  destruct (FluxTransferSdxl.handler_try W req (with_cors res)) as [cs r] eqn:Htry.
  destruct r as [sent_res|e]; [|eauto].
  destruct (handler_try_cases W req _ cs _ Htry)
    as [(_ & [[e He]|(He & _)])|(m & sel & _ & _ & _ & _ & _ & _ & Hr)].
  - discriminate He.
  - injection He as ->. discriminate H500.
  - destruct (result m); [injection Hr as ->|]; discriminate.
Qed.

(** A run of the v42 handler that reached the provider. *)
Lemma v42_reached (req : Request) (res : Res) :
  issued (FluxTransferRefactored.handler W req res) <> [] ->
  exists (c : OutboundRequest) (selection : JsVal),
    issued (FluxTransferRefactored.handler W req res) = [c] /\
    method req = "POST" /\
    (exists p s,
        c = FluxTransferSdxl.flux_request W (get_opt (body req) "image") p s) /\
    response (FluxTransferRefactored.handler W req res) =
    match adapter_result W "FLUX" false (fetch W c) with
    | Throw e => caught W e (with_cors res)
    | Ok data =>
        json (JObj (assign (spread data) (v42_metadata selection)))
          (set_status 200 (with_cors res))
    end.
Proof.
  intros Hcalls.
  unfold FluxTransferRefactored.handler in *. fold (with_cors res) in *.
  destruct (String.eqb (method req) "OPTIONS"); [contradiction|].
  destruct (String.eqb (method req) "POST") eqn:Hpost; [|contradiction].
  apply String.eqb_eq in Hpost. cbn [negb] in *.
  destruct (FluxTransferRefactored.handler_try W req (with_cors res))
    as [cs r] eqn:Htry.
  destruct (v42_handler_try_cases W req _ cs r Htry)
    as [(-> & _)|(sel & p & s & _ & -> & Hr)].
  { destruct r; contradiction. }
  rewrite callReplicateAPI_result in *. cbn [calls result fst snd] in *.
  exists (FluxTransferSdxl.flux_request W (get_opt (body req) "image") p s), sel.
  destruct (adapter_result W "FLUX" false _) as [data|e]; subst r;
    (split; [reflexivity|]; split; [exact Hpost|]; split; [eauto|reflexivity]).
Qed.
End Failures.

(** X4.  A 500 answer of the v43 handler never carries the rate-limit
    hint: its body holds [error], and [stack] in development, and no other
    property, so the [status] and [retry_after] that the adapters attach to
    a rate-limit error do not reach the client. *)
Theorem rate_limit_hint_dropped (W : World) (req : Request) (res : Res) :
  statusCode (response (FluxTransferSdxl.handler W req res)) = 500 ->
  exists ps,
    sent (response (FluxTransferSdxl.handler W req res)) = Some (Json (JObj ps)) /\
    own "retry_after" ps = None /\
    own "status" ps = None /\
    (forall k, k <> "error" -> k <> "stack" -> own k ps = None).
Proof.
  intros H500.
  destruct (handler_500_caught W req res H500) as (cs & e & _ & ->).
  cbn [response finish].
  exists (error_props W e). split; [apply sent_caught|].
  assert (Hother : forall k, k <> "error" -> k <> "stack" ->
                             own k (error_props W e) = None).
  { intros k He Hs. apply String.eqb_neq in He, Hs.
    unfold error_props. destruct (development W); simpl; now rewrite He, ?Hs. }
  split; [|split]; [apply Hother; discriminate..|exact Hother].
Qed.

(** X4 on a throttled provider: the adapter's error carries
    [retry_after: 15], the answer does not. *)
Lemma rate_limit_hint_dropped_witness :
  exists ps,
    sent (response (FluxTransferSdxl.handler
                      Sample.throttled Sample.valid_post fresh_res))
    = Some (Json (JObj ps)) /\
    own "retry_after" ps = None /\
    own "status" ps = None /\
    (forall k, k <> "error" -> k <> "stack" -> own k ps = None).
Proof.
  apply (rate_limit_hint_dropped Sample.throttled Sample.valid_post fresh_res).
  vm_compute. reflexivity.
Defined.

(** X5.  The 429 block passes the provider's fields through unchecked: when
    the body is an object with a non-empty string [detail] and a truthy
    [retry_after] of any type, the error thrown has that detail as its
    message, status 429, and that very [retry_after] value. *)
Theorem rate_limit_fields_passed_through
        (W : World) (c : OutboundRequest) (m : M JsVal) (r : FetchResponse)
        (v : JsVal) (detail : string) :
  Adapter W c m ->
  fetch W c = Ok r ->
  responseStatus r = 429 ->
  parsed r = inl v ->
  get_opt v "detail" = JStr detail ->
  detail <> "" ->
  truthy (get_opt v "retry_after") = true ->
  m = ([c], Throw (with_rate_limit 429 (get_opt v "retry_after")
                     (mkError (engine W) "Error" detail))).
Proof.
  intros Ha Hf Hs Hp Hd Hne Hr.
  assert (Hv : nullish v = false)
    by (destruct v; try reflexivity; discriminate Hd).
  rewrite (adapter_429 W c m r Ha Hf Hs).
  rewrite (rate_limited_error W r v detail Hp Hv).
  - unfold js_or. rewrite Hr. reflexivity.
  - rewrite Hd. unfold js_or, truthy. apply String.eqb_neq in Hne.
    rewrite Hne. reflexivity.
Qed.

(** X5 on a provider whose hint is the string "soon". *)
Lemma rate_limit_fields_passed_through_witness :
  FluxTransferSdxl.callSDXLAPI Cases.throttled_soon
    Cases.image (JStr "a portrait") (JStr "blurry")
  = ([FluxTransferSdxl.sdxl_request Cases.throttled_soon
        Cases.image (JStr "a portrait") (JStr "blurry")],
     Throw (with_rate_limit 429 (JStr "soon")
              (mkError Sample.sampleEngine "Error" "busy"))).
Proof.
  refine (rate_limit_fields_passed_through Cases.throttled_soon _ _
            {| responseStatus := 429;
               parsed := inl (JObj [("detail", JStr "busy");
                                    ("retry_after", JStr "soon")]) |}
            _ "busy" (adapter_callSDXLAPI _ _ _ _)
            eq_refl eq_refl eq_refl eq_refl _ eq_refl).
  discriminate.
Defined.

(** ** The v42 handler *)

(** X6.  [callReplicateAPI] has no rate-limit branch: every answer that is
    not 2xx, 429 included, becomes a plain Error "FLUX API error: <status>"
    without status or retry_after, whatever the body says; a run of the v42
    handler that reached the provider then answers 500 with that message. *)
Theorem v42_no_rate_limit_branch (W : World) (r : FetchResponse) :
  (forall c, fetch W c = Ok r) ->
  ok r = false ->
  (forall image prompt controlStrength,
      result (FluxTransferRefactored.callReplicateAPI W image prompt controlStrength)
      = Throw (mkError (engine W) "Error"
                 ("FLUX API error: " +:+ pretty (responseStatus r)))) /\
  (forall req res,
      issued (FluxTransferRefactored.handler W req res) <> [] ->
      statusCode (response (FluxTransferRefactored.handler W req res)) = 500 /\
      exists ps,
        sent (response (FluxTransferRefactored.handler W req res))
        = Some (Json (JObj ps)) /\
        own "error" ps
        = Some (JStr ("FLUX API error: " +:+ pretty (responseStatus r)))).
Proof.
  intros Hup Hok.
  assert (Hres : forall c,
             adapter_result W "FLUX" false (fetch W c)
             = Throw (mkError (engine W) "Error"
                        ("FLUX API error: " +:+ pretty (responseStatus r)))).
  { intros c. unfold adapter_result. now rewrite Hup, Hok. }
  split.
  - intros. rewrite callReplicateAPI_result. apply Hres.
  - intros req res Hcalls.
    destruct (v42_reached W req res Hcalls) as (c & sel & _ & _ & _ & ->).
    rewrite Hres. destruct (sent_caught W
      (mkError (engine W) "Error" ("FLUX API error: " +:+ pretty (responseStatus r)))
      (with_cors res)) as [H500 Hsent].
    split; [exact H500|]. eexists. split; [exact Hsent|]. apply own_error_props.
Qed.

(** X6 on the throttled provider of C2: the detail "slow down" is lost. *)
Lemma v42_no_rate_limit_branch_witness :
  statusCode (response (FluxTransferRefactored.handler
                          Sample.throttled Sample.valid_post fresh_res)) = 500 /\
  exists ps,
    sent (response (FluxTransferRefactored.handler
                      Sample.throttled Sample.valid_post fresh_res))
    = Some (Json (JObj ps)) /\
    own "error" ps = Some (JStr "FLUX API error: 429").
Proof.
  destruct (v42_no_rate_limit_branch Sample.throttled
              {| responseStatus := 429; parsed := inl slow_down |}
              (fun c => eq_refl) eq_refl) as (_ & H).
  destruct (H Sample.valid_post fresh_res) as (H500 & ps & Hsent & Herr).
  - vm_compute. discriminate.
  - split; [exact H500|]. exists ps. split; [exact Hsent|exact Herr].
Defined.

(** Every call of the v42 handler is the FLUX request. *)
Lemma v42_calls_go_to_flux (W : World) (req : Request) (res : Res)
      (c : OutboundRequest) :
  In c (issued (FluxTransferRefactored.handler W req res)) ->
  issued (FluxTransferRefactored.handler W req res) = [c] /\
  url c = FluxTransferSdxl.flux_url.
Proof.
  intros Hin.
  assert (Hcalls : issued (FluxTransferRefactored.handler W req res) <> [])
    by (intros Hnil; rewrite Hnil in Hin; destruct Hin).
  destruct (v42_reached W req res Hcalls) as (c' & sel & Hiss & _ & (p & s & ->) & _).
  rewrite Hiss in *. destruct Hin as [<-|[]]. split; reflexivity.
Qed.

(** X7.  The v42 handler ignores [useSDXL]: every upstream call it makes
    (at most one per request) goes to the FLUX endpoint with
    [num_inference_steps] 24 and [guidance] 12 and carries the request's
    image as [control_image]. *)
Theorem v42_always_flux (W : World) (req : Request) (res : Res)
        (c : OutboundRequest) :
  In c (issued (FluxTransferRefactored.handler W req res)) ->
  issued (FluxTransferRefactored.handler W req res) = [c] /\
  url c = FluxTransferSdxl.flux_url /\
  input_field c "num_inference_steps" = num 24 /\
  input_field c "guidance" = num 12 /\
  (forall s, get_opt (body req) "image" = JStr s ->
             input_field c "control_image" = JStr s).
Proof.
  intros Hin.
  assert (Hcalls : issued (FluxTransferRefactored.handler W req res) <> [])
    by (intros Hnil; rewrite Hnil in Hin; destruct Hin).
  destruct (v42_reached W req res Hcalls) as (c' & sel & Hiss & _ & (p & s & ->) & _).
  rewrite Hiss in *. destruct Hin as [<-|[]].
  split; [reflexivity|]. split; [reflexivity|].
  destruct (flux_request_parameters W (get_opt (body req) "image") p s) as [H1 H2].
  split; [exact H1|]. split; [exact H2|].
  intros s' Hs. rewrite Hs.
  unfold FluxTransferSdxl.flux_request, FluxTransferSdxl.flux_input.
  now rewrite (input_field_wire _ _ _ _ _ (JStr s')).
Qed.

(** X7 on a request that asks for SDXL. *)
Lemma v42_always_flux_witness :
  issued (FluxTransferRefactored.handler Sample.healthy Cases.sdxl_post fresh_res)
  = [Cases.v42_call] /\
  url Cases.v42_call = FluxTransferSdxl.flux_url /\
  input_field Cases.v42_call "num_inference_steps" = num 24 /\
  input_field Cases.v42_call "guidance" = num 12.
Proof.
  destruct (v42_always_flux Sample.healthy Cases.sdxl_post fresh_res Cases.v42_call)
    as (H1 & H2 & H3 & H4 & _).
  - vm_compute. left. reflexivity.
  - repeat split; assumption.
Defined.

(** ** The answers of the v43 handler *)

Section Answers.
Context (W : World).

(** A 200 answer with a body comes from a 2xx answer of the provider to the
    one call the run made. *)
Lemma handler_200_from_upstream (req : Request) (res : Res) (b : JsVal) :
  statusCode (response (FluxTransferSdxl.handler W req res)) = 200 ->
  sent (response (FluxTransferSdxl.handler W req res)) = Some (Json b) ->
  exists c selection data,
    issued (FluxTransferSdxl.handler W req res) = [c] /\
    url c = variant_url (body req) /\
    adapter_result W (variant_label (body req)) true (fetch W c) = Ok data /\
    b = JSON_wire (JObj (assign (spread data)
                           (v43_metadata selection (useSDXL_of (body req))))).
Proof.
  intros H200 Hsent.
  assert (Hcalls : issued (FluxTransferSdxl.handler W req res) <> []).
  { unfold FluxTransferSdxl.handler in *. fold (with_cors res) in *.
    destruct (String.eqb (method req) "OPTIONS"); [discriminate Hsent|].
    destruct (String.eqb (method req) "POST"); [|discriminate H200].
    cbn [negb] in *.
    destruct (FluxTransferSdxl.handler_try W req (with_cors res)) as [cs r] eqn:Htry.
    destruct (handler_try_cases W req _ cs r Htry)
      as [(_ & [[e ->]|(-> & _)])
         |(m & sel & _ & _ & _ & _ & Hm & -> & _)];
      try discriminate H200.
    destruct Hm as [(_ & p & n & ->)|(_ & p & s & ->)];
      rewrite ?calls_callSDXLAPI, ?calls_callFluxAPI;
      destruct r; discriminate. }
  destruct (handler_reached W req res Hcalls)
    as (c & sel & Hiss & _ & _ & _ & Hvar & Hresp).
  rewrite Hresp in H200, Hsent.
  destruct (adapter_result W _ true (fetch W c)) as [data|e] eqn:Hres.
  2:{ destruct (sent_caught W e (with_cors res)) as [H500 _].
      rewrite H500 in H200. discriminate H200. }
  exists c, sel, data. split; [exact Hiss|]. split.
  { unfold variant_url.
    destruct Hvar as [(-> & p & n & ->)|(-> & p & s & ->)]; reflexivity. }
  split; [exact Hres|].
  unfold json in Hsent. cbn [sent] in Hsent.
  injection Hsent as Hs. symmetry. exact Hs.
Qed.
End Answers.

Section RunCases.
Context (W : World).

(** The five ways a run of the v43 handler can go. *)
Lemma v43_run_cases (req : Request) (res : Res) :
  (method req = "OPTIONS" /\
   FluxTransferSdxl.handler W req res
   = finish [] (end_ (set_status 200 (with_cors res)))) \/
  (method req <> "OPTIONS" /\ method req <> "POST" /\
   FluxTransferSdxl.handler W req res
   = finish [] (json method_not_allowed (set_status 405 (with_cors res)))) \/
  (method req = "POST" /\
   exists e,
     ~ (nullish (body req) = false /\
        (truthy (get_opt (body req) "image") = false \/
         truthy (get_opt (body req) "prompt") = false)) /\
     FluxTransferSdxl.handler W req res = finish [] (caught W e (with_cors res))) \/
  (method req = "POST" /\ nullish (body req) = false /\
   (truthy (get_opt (body req) "image") = false \/
    truthy (get_opt (body req) "prompt") = false) /\
   FluxTransferSdxl.handler W req res = rejected res) \/
  (method req = "POST" /\ nullish (body req) = false /\
   truthy (get_opt (body req) "image") = true /\
   truthy (get_opt (body req) "prompt") = true /\
   exists c sent_res,
     FluxTransferSdxl.handler W req res = finish [c] sent_res /\
     ((exists e, sent_res = caught W e (with_cors res)) \/
      (exists v, sent_res = json v (set_status 200 (with_cors res))))).
Proof.
  destruct (String.eqb_spec (method req) "OPTIONS") as [Hopt|Hopt].
  { left. split; [exact Hopt|]. unfold FluxTransferSdxl.handler.
    rewrite Hopt. reflexivity. }
  destruct (String.eqb_spec (method req) "POST") as [Hpost|Hpost].
  2:{ right. left. split; [exact Hopt|]. split; [exact Hpost|].
      unfold FluxTransferSdxl.handler.
      apply String.eqb_neq in Hopt, Hpost. rewrite Hopt, Hpost. reflexivity. }
  right. right.
  pose proof (handler_rejects W req res Hpost) as Hrej.
  rewrite (handler_post W req res Hpost) in *.
  destruct (FluxTransferSdxl.handler_try W req (with_cors res)) as [cs r] eqn:Htry.
  destruct (handler_try_cases W req _ cs r Htry)
    as [(-> & [[e ->]|(-> & Hb & Hfalsy)])
       |(m & sel & _ & Hb & Hi & Hp & Hm & -> & Hr)].
  - left. split; [exact Hpost|]. exists e. split; [|reflexivity].
    intros [Hb Hfalsy]. specialize (Hrej Hb Hfalsy). discriminate Hrej.
  - right. left. auto.
  - right. right. repeat (split; [assumption|]).
    assert (Hone : exists c, calls m = [c]).
    { destruct Hm as [(_ & p & n & ->)|(_ & p & s & ->)];
        rewrite ?calls_callSDXLAPI, ?calls_callFluxAPI; eauto. }
    destruct Hone as [c ->].
    destruct (result m) as [data|e]; subst r; eauto 6.
Qed.
End RunCases.

(** X8.  Every run of the v43 handler sends a response, lets no exception
    escape and makes at most one upstream call; its status is 200, 400, 405
    or 500.  The empty answer belongs to OPTIONS and only to it; 405 to the
    methods other than OPTIONS and POST and only to them; 400 to the POST
    requests whose body can be read and has a falsy image or prompt and only
    to them; and an upstream call is made only for a POST with a truthy
    image and prompt. *)
Theorem v43_answers (W : World) (req : Request) (res : Res) :
  escaped (FluxTransferSdxl.handler W req res) = None /\
  sent (response (FluxTransferSdxl.handler W req res)) <> None /\
  (length (issued (FluxTransferSdxl.handler W req res)) <= 1)%nat /\
  In (statusCode (response (FluxTransferSdxl.handler W req res)))
     [200; 400; 405; 500] /\
  (sent (response (FluxTransferSdxl.handler W req res)) = Some Ended
   <-> method req = "OPTIONS") /\
  (statusCode (response (FluxTransferSdxl.handler W req res)) = 405
   <-> method req <> "OPTIONS" /\ method req <> "POST") /\
  (statusCode (response (FluxTransferSdxl.handler W req res)) = 400
   <-> method req = "POST" /\ nullish (body req) = false /\
       (truthy (get_opt (body req) "image") = false \/
        truthy (get_opt (body req) "prompt") = false)) /\
  (issued (FluxTransferSdxl.handler W req res) <> [] ->
   method req = "POST" /\
   truthy (get_opt (body req) "image") = true /\
   truthy (get_opt (body req) "prompt") = true).
Proof.
  destruct (v43_run_cases W req res)
    as [(Hopt & ->)
       |[(Hopt & Hpost & ->)
        |[(Hpost & e & Hnot & ->)
         |[(Hpost & Hb & Hfalsy & ->)
          |(Hpost & Hb & Hi & Hp & c & sent_res & -> & Hst)]]]];
    unfold rejected, caught, json, end_, set_status, finish;
    cbn [escaped sent response issued statusCode length In].
  - intuition (try discriminate; try congruence; try lia).
  - intuition (try discriminate; try congruence; try lia).
  - assert (Hopt : method req <> "OPTIONS") by (rewrite Hpost; discriminate).
    intuition (try discriminate; try congruence; try lia).
  - assert (Hopt : method req <> "OPTIONS") by (rewrite Hpost; discriminate).
    intuition (try discriminate; try congruence; try lia).
  - assert (Hopt : method req <> "OPTIONS") by (rewrite Hpost; discriminate).
    destruct Hst as [(e & ->)|(v & ->)];
      unfold caught, json, set_status; cbn [sent statusCode];
      intuition (try discriminate; try congruence; try lia).
Qed.

(** X8 on a GET request and on a POST whose prompt is empty. *)
Lemma v43_answers_witness :
  statusCode (response (FluxTransferSdxl.handler
                          Sample.healthy Cases.get_request fresh_res)) = 405 /\
  statusCode (response (FluxTransferSdxl.handler
                          Sample.healthy Sample.blank_prompt_post fresh_res)) = 400.
Proof.
  split.
  - apply (proj1 (proj2 (proj2 (proj2 (proj2 (proj2
             (v43_answers Sample.healthy Cases.get_request fresh_res))))))).
    split; discriminate.
  - apply (proj1 (proj2 (proj2 (proj2 (proj2 (proj2 (proj2
             (v43_answers Sample.healthy Sample.blank_prompt_post fresh_res)))))))).
    split; [reflexivity|]. split; [reflexivity|]. right. reflexivity.
Defined.

(** Serialisation invents no property. *)
Lemma own_wire_props_absent (k : string) (ps : list (string * JsVal)) :
  own k ps = None -> own k (wire_props ps) = None.
Proof.
  induction ps as [|[k' x] rest IH]; simpl; [reflexivity|].
  destruct (String.eqb k k') eqn:Hk; [discriminate|].
  intros H. specialize (IH H). destruct x; simpl; rewrite ?Hk; exact IH.
Qed.

(** X9.  The model a successful answer of the v43 handler reports is the
    model that was called: the one call of the run went to the SDXL
    endpoint and the body says 'SDXL Lightning' at cost 0.011, or it went
    to the FLUX endpoint and the body says 'FLUX Depth' at cost 0.04; which
    of the two is decided by the truthiness of [useSDXL] (so [null], 0 and
    the empty string select FLUX, any non-empty string selects SDXL), and an
    upstream result with its own [model_used] or [cost] does not change
    what is reported. *)
Theorem reported_model_is_called (W : World) (req : Request) (res : Res)
        (b : JsVal) :
  statusCode (response (FluxTransferSdxl.handler W req res)) = 200 ->
  sent (response (FluxTransferSdxl.handler W req res)) = Some (Json b) ->
  exists c,
    issued (FluxTransferSdxl.handler W req res) = [c] /\
    ((truthy (useSDXL_of (body req)) = true /\
      url c = FluxTransferSdxl.sdxl_url /\
      get_opt b "model_used" = JStr "SDXL Lightning" /\
      get_opt b "cost" = JNum (11 # 1000)) \/
     (truthy (useSDXL_of (body req)) = false /\
      url c = FluxTransferSdxl.flux_url /\
      get_opt b "model_used" = JStr "FLUX Depth" /\
      get_opt b "cost" = JNum (4 # 100))).
Proof.
  intros H200 Hsent.
  destruct (handler_200_from_upstream W req res b H200 Hsent)
    as (c & sel & data & Hiss & Hurl & _ & ->).
  exists c. split; [exact Hiss|].
  assert (Hfield : forall k v,
             In (k, v) (v43_metadata sel (useSDXL_of (body req))) ->
             is_undefined v = false ->
             get_opt (JSON_wire (JObj (assign (spread data)
                        (v43_metadata sel (useSDXL_of (body req)))))) k
             = JSON_wire v).
  { intros k v Hin Hv. rewrite JSON_wire_obj. unfold get_opt.
    now rewrite (own_wire_props k v _ (own_v43_metadata _ _ _ _ _ Hin) Hv). }
  unfold variant_url in Hurl.
  destruct (truthy (useSDXL_of (body req))) eqn:Hu; [left|right].
  - split; [reflexivity|]. split; [exact Hurl|]. split.
    + apply (Hfield "model_used" (JStr "SDXL Lightning")); [|reflexivity].
      unfold v43_metadata. rewrite Hu. simpl. tauto.
    + apply (Hfield "cost" (JNum (11 # 1000))); [|reflexivity].
      unfold v43_metadata. rewrite Hu. simpl. tauto.
  - split; [reflexivity|]. split; [exact Hurl|]. split.
    + apply (Hfield "model_used" (JStr "FLUX Depth")); [|reflexivity].
      unfold v43_metadata. rewrite Hu. simpl. tauto.
    + apply (Hfield "cost" (JNum (4 # 100))); [|reflexivity].
      unfold v43_metadata. rewrite Hu. simpl. tauto.
Qed.

(** X9 on a request whose [useSDXL] is [null]. *)
Lemma reported_model_is_called_witness :
  exists c,
    issued (FluxTransferSdxl.handler Sample.healthy Cases.null_flag_post fresh_res)
    = [c] /\
    ((truthy (useSDXL_of (body Cases.null_flag_post)) = true /\
      url c = FluxTransferSdxl.sdxl_url /\
      get_opt Cases.null_flag_answer "model_used" = JStr "SDXL Lightning" /\
      get_opt Cases.null_flag_answer "cost" = JNum (11 # 1000)) \/
     (truthy (useSDXL_of (body Cases.null_flag_post)) = false /\
      url c = FluxTransferSdxl.flux_url /\
      get_opt Cases.null_flag_answer "model_used" = JStr "FLUX Depth" /\
      get_opt Cases.null_flag_answer "cost" = JNum (4 # 100))).
Proof.
  apply (reported_model_is_called Sample.healthy Cases.null_flag_post fresh_res
           Cases.null_flag_answer).
  - vm_compute. reflexivity.
  - vm_compute. reflexivity.
Defined.

(** X10.  Every upstream call of the v43 handler is a POST to the endpoint
    of the selected variant, with the headers [Authorization: Token <key>]
    ("Token undefined" when REPLICATE_API_KEY is not set), [Content-Type:
    application/json] and [Prefer: wait]; a string image of the request is
    sent unchanged, as [image] to SDXL and as [control_image] to FLUX. *)
Theorem upstream_call_shape (W : World) (req : Request) (res : Res)
        (c : OutboundRequest) :
  In c (issued (FluxTransferSdxl.handler W req res)) ->
  url c = variant_url (body req) /\
  httpMethod c = "POST" /\
  requestHeaders c =
    [("Authorization",
      "Token " +:+ default "undefined" (REPLICATE_API_KEY (env W)));
     ("Content-Type", "application/json");
     ("Prefer", "wait")] /\
  (forall s, get_opt (body req) "image" = JStr s ->
     input_field c (if truthy (useSDXL_of (body req))
                    then "image" else "control_image") = JStr s).
Proof.
  intros Hin.
  assert (Hcalls : issued (FluxTransferSdxl.handler W req res) <> [])
    by (intros Hnil; rewrite Hnil in Hin; destruct Hin).
  destruct (handler_reached W req res Hcalls) as (c' & sel & Hiss & _ & _ & _ & Hvar & _).
  rewrite Hiss in Hin. destruct Hin as [<-|[]].
  unfold variant_url.
  destruct Hvar as [(-> & p & n & ->)|(-> & p & s & ->)];
    (split; [reflexivity|]; split; [reflexivity|]; split; [reflexivity|]);
    intros s' Hs; rewrite Hs.
  - unfold FluxTransferSdxl.sdxl_request, FluxTransferSdxl.sdxl_input.
    now rewrite (input_field_wire _ _ _ _ _ (JStr s')).
  - unfold FluxTransferSdxl.flux_request, FluxTransferSdxl.flux_input.
    now rewrite (input_field_wire _ _ _ _ _ (JStr s')).
Qed.

(** X10 on the call of [Sample.valid_post]. *)
Lemma upstream_call_shape_witness :
  url Sample.sdxl_call = FluxTransferSdxl.sdxl_url /\
  httpMethod Sample.sdxl_call = "POST" /\
  requestHeaders Sample.sdxl_call =
    [("Authorization", "Token r8_key");
     ("Content-Type", "application/json");
     ("Prefer", "wait")] /\
  input_field Sample.sdxl_call "image" = Cases.image.
Proof.
  destruct (upstream_call_shape Sample.healthy Sample.valid_post fresh_res
              Sample.sdxl_call) as (H1 & H2 & H3 & H4).
  - vm_compute. left. reflexivity.
  - split; [exact H1|]. split; [exact H2|]. split; [exact H3|].
    apply (H4 "data:image/png;base64,AAAA"). reflexivity.
Defined.

(** ** Inputs of the wrong type *)

Lemma string_method_not_string (E : Engine) (what member : string) (v : JsVal) :
  truthy v = true -> (forall s, v <> JStr s) ->
  string_method E what member v = Throw (TypeError E (notCallableMessage E what)).
Proof.
  intros Ht Hs. destruct v; try reflexivity; try discriminate Ht.
  exfalso. exact (Hs s eq_refl).
Qed.

(** X11.  A prompt that is truthy but not a string (a number, [true], an
    array, an object) passes the required-field check and then makes the
    logging line [prompt.substring(0, 100)] throw: the three endpoint
    handlers answer 500 with the TypeError's message and make no upstream
    call. *)
Theorem prompt_must_be_string (W : World) (req : Request) (res : Res) :
  method req = "POST" ->
  nullish (body req) = false ->
  truthy (get_opt (body req) "image") = true ->
  truthy (get_opt (body req) "prompt") = true ->
  (forall s, get_opt (body req) "prompt" <> JStr s) ->
  FluxTransferSdxl.handler W req res
  = finish [] (caught W (TypeError (engine W)
                           (notCallableMessage (engine W) "basePrompt.substring"))
                 (with_cors res)) /\
  FluxTransferRefactored.handler W req res
  = finish [] (caught W (TypeError (engine W)
                           (notCallableMessage (engine W) "basePrompt.substring"))
                 (with_cors res)) /\
  SdxlLightningTest.testSDXLLightning W req res
  = finish [] (caught W (TypeError (engine W)
                           (notCallableMessage (engine W) "prompt.substring"))
                 (with_cors res)).
Proof.
  intros Hpost Hb Hi Hp Hs.
  split; [|split].
  - rewrite (handler_post W req res Hpost).
    unfold FluxTransferSdxl.handler_try.
    rewrite !(get_defined _ _ _ Hb), !bind_lift, Hi, Hp. cbn [negb orb].
    rewrite ?bind_lift, (string_method_not_string _ _ _ _ Hp Hs). reflexivity.
  - unfold FluxTransferRefactored.handler. rewrite Hpost.
    cbn [String.eqb Ascii.eqb Bool.eqb negb]. fold (with_cors res).
    unfold FluxTransferRefactored.handler_try.
    rewrite !(get_defined _ _ _ Hb), !bind_lift, Hi, Hp. cbn [negb orb].
    rewrite ?bind_lift, (string_method_not_string _ _ _ _ Hp Hs). reflexivity.
  - unfold SdxlLightningTest.testSDXLLightning. rewrite Hpost.
    cbn [String.eqb Ascii.eqb Bool.eqb negb]. fold (with_cors res).
    unfold SdxlLightningTest.testSDXLLightning_try.
    rewrite !(get_defined _ _ _ Hb), !bind_lift, Hi, Hp. cbn [negb orb].
    rewrite ?bind_lift, (string_method_not_string _ _ _ _ Hp Hs). reflexivity.
Qed.

(** X11 on a request whose prompt is the number 5. *)
Lemma prompt_must_be_string_witness :
  FluxTransferSdxl.handler Sample.healthy Cases.numeric_prompt_post fresh_res
  = finish [] (caught Sample.healthy
                 (TypeError Sample.sampleEngine
                    "basePrompt.substring is not a function")
                 (with_cors fresh_res)).
Proof.
  refine (proj1 (prompt_must_be_string Sample.healthy Cases.numeric_prompt_post
                   fresh_res eq_refl eq_refl eq_refl eq_refl _)).
  intros s. discriminate.
Defined.

(** ** Style guidelines *)

Section StyleGuidelines.
Context (W : World).

(** The table lookup at the end of [getStyleGuidelines]. *)
Lemma getStyleGuidelines_tag (style : JsVal) :
  truthy style = true ->
  FluxTransferSdxl.getStyleGuidelines W style =
  and_then
    (string_method (engine W) "(intermediate value).toLowerCase" "toLowerCase"
       (style_tag style))
    (fun s =>
       match FluxTransferSdxl.guideMap W (toLowerCase (engine W) s) with
       | Some guideFunction => guideFunction
       | None =>
           match callInherited (engine W) (toLowerCase (engine W) s) with
           | Some called => called
           | None => Ok (JStr "")
           end
       end).
Proof.
  intros Ht. unfold FluxTransferSdxl.getStyleGuidelines. rewrite Ht. cbn [negb].
  assert (Hn : nullish style = false)
    by (destruct style; try reflexivity; discriminate Ht).
  rewrite !(get_defined _ _ _ Hn). unfold style_tag, js_or.
  cbn [and_then].
  destruct (truthy (get_opt style "era")); reflexivity.
Qed.

Lemma style_tag_era (style : JsVal) :
  style_tag (JObj [("era", style_tag style)]) = style_tag style.
Proof.
  unfold style_tag at 1.
  change (get_opt (JObj [("era", style_tag style)]) "era") with (style_tag style).
  change (get_opt (JObj [("era", style_tag style)]) "movement") with JUndefined.
  unfold js_or at 1. destruct (truthy (style_tag style)) eqn:Ht; [reflexivity|].
  change (js_or JUndefined (JStr "")) with (JStr "").
  unfold style_tag, js_or in *.
  destruct (truthy (get_opt style "era")) eqn:He; [congruence|].
  destruct (truthy (get_opt style "movement")) eqn:Hm; [congruence|]. reflexivity.
Qed.
End StyleGuidelines.

(** X12.  [getStyleGuidelines] answers the empty string for a missing
    (falsy) style; otherwise it depends on the style only through
    [era || movement || '']: the era wins over the movement and the movement
    is used when the era is missing or empty.  The lower-cased labels
    'neoclassical', 'romantic' and 'realist' share one guideline function,
    and a label that is neither in the table nor inherited by it gives the
    empty string, not a failure. *)
Theorem style_guidelines_lookup (W : World) (style : JsVal) :
  (truthy style = false ->
   FluxTransferSdxl.getStyleGuidelines W style = Ok (JStr "")) /\
  (truthy style = true ->
   FluxTransferSdxl.getStyleGuidelines W style
   = FluxTransferSdxl.getStyleGuidelines W (JObj [("era", style_tag style)])) /\
  (forall s,
      truthy style = true -> style_tag style = JStr s ->
      In (toLowerCase (engine W) s) ["neoclassical"; "romantic"; "realist"] ->
      FluxTransferSdxl.getStyleGuidelines W style
      = getNeoclassicalRomanticismRealismGuidelines (styleGuides (services W))) /\
  (forall s,
      truthy style = true -> style_tag style = JStr s ->
      FluxTransferSdxl.guideMap W (toLowerCase (engine W) s) = None ->
      callInherited (engine W) (toLowerCase (engine W) s) = None ->
      FluxTransferSdxl.getStyleGuidelines W style = Ok (JStr "")).
Proof.
  split; [|split; [|split]].
  - intros Hf. unfold FluxTransferSdxl.getStyleGuidelines. now rewrite Hf.
  - intros Ht. rewrite (getStyleGuidelines_tag W style Ht).
    rewrite (getStyleGuidelines_tag W (JObj [("era", style_tag style)]) eq_refl).
    now rewrite style_tag_era.
  - intros s Ht Htag Hin. rewrite (getStyleGuidelines_tag W style Ht), Htag.
    cbn [string_method and_then].
    destruct Hin as [<-|[<-|[<-|[]]]]; reflexivity.
  - intros s Ht Htag Hmap Hinh.
    rewrite (getStyleGuidelines_tag W style Ht), Htag.
    cbn [string_method and_then]. now rewrite Hmap, Hinh.
Qed.

(** X12 on a style with an empty era and the movement "Romantic". *)
Lemma style_guidelines_lookup_witness :
  FluxTransferSdxl.getStyleGuidelines Cases.lowering Cases.romantic_style
  = Ok (JStr "neoclassical guide").
Proof.
  refine (proj1 (proj2 (proj2 (style_guidelines_lookup Cases.lowering
                                 Cases.romantic_style)))
            "Romantic" eq_refl eq_refl _).
  right. left. reflexivity.
Defined.

(** X13.  An era (or, failing that, a movement) that is truthy but not a
    string makes [getStyleGuidelines] throw on [.toLowerCase()]: the v43 and
    the v42 handler then answer 500 with the TypeError's message, after the
    image analysis and before any upstream call. *)
Theorem era_must_be_string (W : World) (req : Request) (res : Res)
        (prompt : string) (analysis : JsVal) :
  method req = "POST" ->
  nullish (body req) = false ->
  truthy (get_opt (body req) "image") = true ->
  get_opt (body req) "prompt" = JStr prompt ->
  prompt <> "" ->
  analyzeImageForArtist (services W) (get_opt (body req) "image") = Ok analysis ->
  truthy (get_opt (body req) "style") = true ->
  truthy (style_tag (get_opt (body req) "style")) = true ->
  (forall s, style_tag (get_opt (body req) "style") <> JStr s) ->
  FluxTransferSdxl.handler W req res
  = finish [] (caught W (TypeError (engine W)
                           (notCallableMessage (engine W)
                              "(intermediate value).toLowerCase"))
                 (with_cors res)) /\
  FluxTransferRefactored.handler W req res
  = finish [] (caught W (TypeError (engine W)
                           (notCallableMessage (engine W)
                              "(intermediate value).toLowerCase"))
                 (with_cors res)).
Proof.
  intros Hpost Hb Hi Hprompt Hne Han Hstyle Htag Hs.
  assert (Hp : truthy (get_opt (body req) "prompt") = true).
  { rewrite Hprompt. unfold truthy. apply String.eqb_neq in Hne. now rewrite Hne. }
  assert (Hguide : FluxTransferSdxl.getStyleGuidelines W (get_opt (body req) "style")
                   = Throw (TypeError (engine W)
                              (notCallableMessage (engine W)
                                 "(intermediate value).toLowerCase"))).
  { rewrite (getStyleGuidelines_tag W _ Hstyle).
    now rewrite (string_method_not_string _ _ _ _ Htag Hs). }
  split.
  - rewrite (handler_post W req res Hpost).
    unfold FluxTransferSdxl.handler_try.
    rewrite !(get_defined _ _ _ Hb), !bind_lift, Hi, Hp. cbn [negb orb].
    rewrite ?bind_lift, Hprompt. cbn [string_method].
    rewrite Han, ?bind_lift, Hguide. reflexivity.
  - unfold FluxTransferRefactored.handler. rewrite Hpost.
    cbn [String.eqb Ascii.eqb Bool.eqb negb]. fold (with_cors res).
    unfold FluxTransferRefactored.handler_try, FluxTransferRefactored.getStyleGuidelines.
    rewrite !(get_defined _ _ _ Hb), !bind_lift, Hi, Hp. cbn [negb orb].
    rewrite ?bind_lift, Hprompt. cbn [string_method].
    rewrite Han, ?bind_lift, Hguide. reflexivity.
Qed.

(** X13 on a style whose era is the number 1900. *)
Lemma era_must_be_string_witness :
  FluxTransferSdxl.handler Sample.healthy Cases.numeric_era_post fresh_res
  = finish [] (caught Sample.healthy
                 (TypeError Sample.sampleEngine
                    "(intermediate value).toLowerCase is not a function")
                 (with_cors fresh_res)).
Proof.
  refine (proj1 (era_must_be_string Sample.healthy Cases.numeric_era_post fresh_res
                   "a portrait" (JObj [("subject", JStr "portrait")])
                   eq_refl eq_refl eq_refl eq_refl _ eq_refl eq_refl eq_refl _)).
  - discriminate.
  - intros s. discriminate.
Defined.

(** ** testSDXLLightning *)

(** A parameter the input object does not have is not in the payload. *)
Lemma input_field_absent (u m : string) (hs : list (string * string))
      (ps : list (string * JsVal)) (k : string) :
  own k ps = None ->
  input_field {| url := u; httpMethod := m; requestHeaders := hs;
                 payload := JSON_wire (JObj [("input", JObj ps)]) |} k
  = JUndefined.
Proof.
  intros Hown. unfold input_field. cbn [payload].
  change (JSON_wire (JObj [("input", JObj ps)]))
    with (JObj [("input", JObj (wire_props ps))]).
  unfold get_opt. cbn [own String.eqb Ascii.eqb Bool.eqb default].
  simpl. now rewrite (own_wire_props_absent k ps Hown).
Qed.

Section TestHandler.
Context (W : World).

(** A run of [testSDXLLightning] that reached the provider. *)
Lemma test_reached (req : Request) (res : Res) :
  issued (SdxlLightningTest.testSDXLLightning W req res) <> [] ->
  exists (c : OutboundRequest) (prompt : string),
    issued (SdxlLightningTest.testSDXLLightning W req res) = [c] /\
    method req = "POST" /\
    get_opt (body req) "prompt" = JStr prompt /\
    c = SdxlLightningTest.test_request W (get_opt (body req) "image") (JStr prompt) /\
    response (SdxlLightningTest.testSDXLLightning W req res) =
    match adapter_result W "SDXL" true (fetch W c) with
    | Throw e => caught W e (with_cors res)
    | Ok data =>
        json (JObj (assign (spread data) test_metadata))
          (set_status 200 (with_cors res))
    end.
Proof.
  unfold SdxlLightningTest.testSDXLLightning. fold (with_cors res).
  destruct (String.eqb (method req) "OPTIONS"); [intros H; contradiction|].
  destruct (String.eqb (method req) "POST") eqn:Hpost; [|intros H; contradiction].
  apply String.eqb_eq in Hpost. cbn [negb].
  unfold SdxlLightningTest.testSDXLLightning_try.
  destruct (nullish (body req)) eqn:Hb.
  { rewrite (get_nullish _ _ _ Hb), bind_lift. intros H. contradiction. }
  rewrite !(get_defined _ _ _ Hb), !bind_lift.
  destruct (truthy (get_opt (body req) "image")); cbn [negb orb];
    [|intros H; contradiction].
  destruct (truthy (get_opt (body req) "prompt")); cbn [negb orb];
    [|intros H; contradiction].
  rewrite ?bind_lift.
  destruct (get_opt (body req) "prompt") as [| | | |prompt| |] eqn:Hprompt;
    cbn [string_method]; try (intros H; contradiction).
  unfold addToQueue. rewrite upstream_task_result.
  intros _.
  exists (SdxlLightningTest.test_request W (get_opt (body req) "image") (JStr prompt)),
         prompt.
  destruct (adapter_result W "SDXL" true _) as [data|e];
    unfold bind, ret; cbn [issued response finish app];
    repeat (split; [reflexivity || exact Hpost|]); reflexivity.
Qed.
End TestHandler.

(** X14.  [testSDXLLightning] sends the request's prompt to the SDXL
    endpoint as it is (a string, with no artist selection or prompt
    building), with [num_inference_steps] 4 and [guidance_scale] 0 and
    without a [negative_prompt]; it makes at most one call, and a 200 answer
    with a body reports [model: 'sdxl-lightning-4step'], [cost: 0.011] and
    the fixed comparison block, whatever the upstream result held under
    those names. *)
Theorem testSDXLLightning_call_and_answer (W : World) (req : Request) (res : Res)
        (c : OutboundRequest) :
  In c (issued (SdxlLightningTest.testSDXLLightning W req res)) ->
  issued (SdxlLightningTest.testSDXLLightning W req res) = [c] /\
  url c = FluxTransferSdxl.sdxl_url /\
  (exists prompt,
      get_opt (body req) "prompt" = JStr prompt /\
      input_field c "prompt" = JStr prompt) /\
  input_field c "negative_prompt" = JUndefined /\
  input_field c "num_inference_steps" = num 4 /\
  input_field c "guidance_scale" = num 0 /\
  (forall b,
      statusCode (response (SdxlLightningTest.testSDXLLightning W req res)) = 200 ->
      sent (response (SdxlLightningTest.testSDXLLightning W req res))
      = Some (Json b) ->
      get_opt b "model" = JStr "sdxl-lightning-4step" /\
      get_opt b "cost" = JNum (11 # 1000) /\
      get_opt b "comparison" = SdxlLightningTest.comparison).
Proof.
  intros Hin.
  assert (Hcalls : issued (SdxlLightningTest.testSDXLLightning W req res) <> [])
    by (intros Hnil; rewrite Hnil in Hin; destruct Hin).
  destruct (test_reached W req res Hcalls) as (c' & prompt & Hiss & _ & Hp & Hc & Hresp).
  rewrite Hiss in Hin. destruct Hin as [<-|[]].
  split; [exact Hiss|]. subst c'.
  split; [reflexivity|].
  unfold SdxlLightningTest.test_request, SdxlLightningTest.test_input.
  split; [|split; [|split; [|split]]].
  - exists prompt. split; [exact Hp|].
    now rewrite (input_field_wire _ _ _ _ _ (JStr prompt)).
  - now rewrite input_field_absent.
  - now rewrite (input_field_wire _ _ _ _ _ (num 4)).
  - now rewrite (input_field_wire _ _ _ _ _ (num 0)).
  - intros b H200 Hsent. rewrite Hresp in H200, Hsent.
    destruct (adapter_result W "SDXL" true _) as [data|e].
    2:{ destruct (sent_caught W e (with_cors res)) as [H500 _].
        rewrite H500 in H200. discriminate H200. }
    unfold json in Hsent. cbn [sent] in Hsent.
    assert (Hb : b = JSON_wire (JObj (assign (spread data) test_metadata)))
      by (injection Hsent as Hs; symmetry; exact Hs).
    rewrite Hb, JSON_wire_obj. unfold get_opt, test_metadata, assign.
    cbn [fold_left fst snd].
    repeat split.
    + rewrite (own_wire_props "model" (JStr "sdxl-lightning-4step")); [reflexivity| |reflexivity].
      repeat first [ apply own_prop_set_eq | rewrite own_prop_set_ne by discriminate ].
    + rewrite (own_wire_props "cost" (JNum (11 # 1000))); [reflexivity| |reflexivity].
      repeat first [ apply own_prop_set_eq | rewrite own_prop_set_ne by discriminate ].
    + rewrite (own_wire_props "comparison" SdxlLightningTest.comparison);
        [reflexivity| |reflexivity].
      repeat first [ apply own_prop_set_eq | rewrite own_prop_set_ne by discriminate ].
Qed.

(** X14 on [Sample.valid_post]. *)
Lemma testSDXLLightning_call_and_answer_witness :
  issued (SdxlLightningTest.testSDXLLightning Sample.healthy Sample.valid_post
            fresh_res) = [Cases.test_call] /\
  input_field Cases.test_call "negative_prompt" = JUndefined /\
  input_field Cases.test_call "num_inference_steps" = num 4 /\
  input_field Cases.test_call "guidance_scale" = num 0.
Proof.
  destruct (testSDXLLightning_call_and_answer Sample.healthy Sample.valid_post
              fresh_res Cases.test_call) as (H1 & _ & _ & H2 & H3 & H4 & _).
  - vm_compute. left. reflexivity.
  - repeat split; assumption.
Defined.

(** ** The route table and the middleware of api/index.js *)

(** X15.  The router answers a pathname outside its table with 404, the
    list of the three available paths and no header of its own, and makes no
    upstream call (a pathname starts with a slash); it hands a request for
    [/api/flux-transfer] to the v42 handler, so that every upstream call
    made for a request with that pathname goes to the FLUX endpoint whatever
    [useSDXL] says (nothing is said of the other two routes, whose handlers
    are not in the tree); and when the URL cannot be parsed the exception
    leaves the router with nothing sent. *)
Theorem route_dispatch (W : World) (checkPrediction generateEducation : Handler)
        (req : Request) (res : Res) :
  (forall p,
      URL_pathname (engine W) (requestUrl req)
        ("http://" +:+ default "undefined" (host req)) = Ok p ->
      (p = "/api/flux-transfer" ->
       Index.handler W checkPrediction generateEducation req res
       = FluxTransferRefactored.handler W req res /\
       forall c,
         In c (issued (Index.handler W checkPrediction generateEducation req res)) ->
         url c = FluxTransferSdxl.flux_url) /\
      (String.prefix "/" p = true -> ~ In p Index.route_paths ->
       issued (Index.handler W checkPrediction generateEducation req res) = [] /\
       escaped (Index.handler W checkPrediction generateEducation req res) = None /\
       statusCode (response
                     (Index.handler W checkPrediction generateEducation req res))
       = 404 /\
       headers (response
                  (Index.handler W checkPrediction generateEducation req res))
       = headers res /\
       sent (response (Index.handler W checkPrediction generateEducation req res))
       = Some (Json (JObj [("error", JStr "API endpoint not found");
                           ("available",
                            JArr [JStr "/api/flux-transfer";
                                  JStr "/api/check-prediction";
                                  JStr "/api/generate-education"])])))) /\
  (forall e,
      URL_pathname (engine W) (requestUrl req)
        ("http://" +:+ default "undefined" (host req)) = Throw e ->
      Index.handler W checkPrediction generateEducation req res
      = {| issued := []; response := res; escaped := Some e |}).
Proof.
  split.
  - intros p Hp. unfold Index.handler. rewrite Hp. split.
    + intros ->. unfold Index.routes, Index.fluxTransferHandler.
      cbn [String.eqb Ascii.eqb Bool.eqb]. split; [reflexivity|].
      intros c Hin.
      destruct (v42_calls_go_to_flux W req res c Hin) as [_ Hurl]. exact Hurl.
    + intros _ Hnot. unfold Index.routes.
      assert (H1 : String.eqb p "/api/flux-transfer" = false)
        by (apply String.eqb_neq; intros ->; apply Hnot; simpl; tauto).
      assert (H2 : String.eqb p "/api/check-prediction" = false)
        by (apply String.eqb_neq; intros ->; apply Hnot; simpl; tauto).
      assert (H3 : String.eqb p "/api/generate-education" = false)
        by (apply String.eqb_neq; intros ->; apply Hnot; simpl; tauto).
      rewrite H1, H2, H3. repeat split.
  - intros e He. unfold Index.handler. now rewrite He.
Qed.

(** X15 on a request for [/api/unknown], and on a URL that cannot be
    parsed. *)
Lemma route_dispatch_witness :
  statusCode (response (Index.handler Sample.healthy Sample.failing Sample.failing
                          Cases.unknown_path fresh_res)) = 404 /\
  headers (response (Index.handler Sample.healthy Sample.failing Sample.failing
                       Cases.unknown_path fresh_res))
  = headers fresh_res /\
  sent (response (Index.handler Cases.bad_url Sample.failing Sample.failing
                    Sample.valid_post fresh_res)) = None.
Proof.
  destruct (proj1 (route_dispatch Sample.healthy Sample.failing Sample.failing
                     Cases.unknown_path fresh_res) "/api/unknown" eq_refl)
    as [_ H].
  destruct H as (_ & _ & H404 & Hh & _).
  - reflexivity.
  - intros [H|[H|[H|[]]]]; discriminate H.
  - split; [exact H404|]. split; [exact Hh|].
    rewrite (proj2 (route_dispatch Cases.bad_url Sample.failing Sample.failing
                      Sample.valid_post fresh_res)
               (TypeError Sample.sampleEngine "Invalid URL") eq_refl).
    reflexivity.
Defined.

(** X17.  [withCORS] answers a preflight request without running the
    wrapped handler (200, no body, no upstream call).  For every other
    method it runs the handler on the response object it prepared, and an
    endpoint handler then overwrites the allowed methods with 'POST,
    OPTIONS': the GET that the preflight answer allows is answered 405. *)
Theorem withCORS_composition (W : World) (req : Request) (res : Res) :
  (method req = "OPTIONS" ->
   forall wrapped : Handler,
     issued (Index.withCORS wrapped req res) = [] /\
     escaped (Index.withCORS wrapped req res) = None /\
     statusCode (response (Index.withCORS wrapped req res)) = 200 /\
     sent (response (Index.withCORS wrapped req res)) = Some Ended) /\
  (method req <> "OPTIONS" ->
   cors_post_options
     (response (Index.withCORS (FluxTransferSdxl.handler W) req res)) /\
   cors_post_options
     (response (Index.withCORS (FluxTransferRefactored.handler W) req res)) /\
   cors_post_options
     (response (Index.withCORS (SdxlLightningTest.testSDXLLightning W) req res))) /\
  (method req <> "OPTIONS" -> method req <> "POST" ->
   statusCode (response (Index.withCORS (FluxTransferSdxl.handler W) req res)) = 405 /\
   issued (Index.withCORS (FluxTransferSdxl.handler W) req res) = []).
Proof.
  split; [|split].
  - intros Hopt wrapped. unfold Index.withCORS. rewrite Hopt. repeat split.
  - intros Hopt. apply String.eqb_neq in Hopt.
    unfold Index.withCORS. rewrite Hopt.
    split; [|split].
    + eapply cors_post_options_with_cors, v43_headers.
    + eapply cors_post_options_with_cors, v42_headers.
    + eapply cors_post_options_with_cors, test_headers.
  - intros Hopt Hpost. apply String.eqb_neq in Hopt as Hopt', Hpost as Hpost'.
    unfold Index.withCORS. rewrite Hopt'.
    unfold FluxTransferSdxl.handler. rewrite Hopt', Hpost'. split; reflexivity.
Qed.

(** X17 on a GET request. *)
Lemma withCORS_composition_witness :
  statusCode (response (Index.withCORS (FluxTransferSdxl.handler Sample.healthy)
                          Cases.get_request fresh_res)) = 405 /\
  cors_post_options
    (response (Index.withCORS (FluxTransferSdxl.handler Sample.healthy)
                 Cases.get_request fresh_res)).
Proof.
  destruct (withCORS_composition Sample.healthy Cases.get_request fresh_res)
    as (_ & H2 & H3).
  split.
  - apply H3; discriminate.
  - apply H2. discriminate.
Defined.
